(** * Blockstore Python API ([blockstore/apps/api/methods.py])

    A shallow embedding of the API methods over an explicit database
    state.  Django model rows live in tables (lists of records), every
    method is a computation in a state-and-exception monad, and the
    pieces of the repository the methods call but that are defined in
    other modules are either Section variables or definitions marked
    as modelled from the specification.  Two names the methods call,
    [api_url] and [api_request], are bound nowhere: the functions that
    use them are read both under any binding and as the file stands. *)

From Stdlib Require Import ZArith NArith Lia Ascii String List.
From stdpp Require Import base option list strings pretty gmap fin_maps.

Local Open Scope string_scope.
Local Open Scope list_scope.
Local Open Scope Z_scope.

(** ** Python values and exceptions *)

(** [uuid.UUID] objects are carried by their 128-bit integer value. *)
Definition UUID := N.

(** The dynamically typed scalars that reach the API as arguments. *)
Inductive Value :=
| VNone
| VBool (b : bool)
| VInt (z : Z)
| VStr (s : string)
| VUuid (u : UUID).

#[global] Instance Value_eq_dec : EqDecision Value.
Proof. solve_decision. Defined.

Definition hex_digit (d : N) : ascii :=
  nth (N.to_nat d) (list_ascii_of_string "0123456789abcdef") "0"%char.

Fixpoint hex_of (len : nat) (n : N) : string :=
  match len with
  | O => ""
  | S k => hex_of k (n / 16) +:+ String (hex_digit (n mod 16)) ""
  end.

(** [str(uuid)]: 32 hexadecimal digits grouped 8-4-4-4-12. *)
Definition uuid_str (u : UUID) : string :=
  let h := hex_of 32 u in
  substring 0 8 h +:+ "-" +:+ substring 8 4 h +:+ "-" +:+ substring 12 4 h
    +:+ "-" +:+ substring 16 4 h +:+ "-" +:+ substring 20 12 h.

(** The builtin [str]. *)
Definition py_str (v : Value) : string :=
  match v with
  | VNone => "None"
  | VBool true => "True"
  | VBool false => "False"
  | VInt z => pretty z
  | VStr s => s
  | VUuid u => uuid_str u
  end.

Inductive Model := MCollection | MBundle | MDraft.

Inductive exn :=
| DoesNotExist (m : Model)
| MultipleObjectsReturned (m : Model)
| IntegrityError
| AssertionError
| ValueError
| TypeError
| KeyError
| UnicodeEncodeError
| ValidationError
| LinkCycleError
| NotFound
| CollectionNotFound
| BundleNotFound
| DraftNotFound
| BundleFileNotFound
| VersionNotFound
| NameError.

#[global] Instance Model_eq_dec : EqDecision Model.
Proof. solve_decision. Defined.

#[global] Instance exn_eq_dec : EqDecision exn.
Proof. solve_decision. Defined.

Inductive Result (A : Type) :=
| Ok (a : A)
| Raise (e : exn).
Arguments Ok {A} a.
Arguments Raise {A} e.

(** ** Engine data (section 3 of the specification) *)

#[global] Instance byte_eq_dec : EqDecision Byte.byte := Byte.byte_eq_dec.
#[global] Instance byte_countable : Countable Byte.byte :=
  inj_countable Byte.to_N Byte.of_N Byte.of_to_N.

Definition Digest := list Byte.byte.

Module FileInfo.
Record t := { hash_digest : Digest; size : Z }.
End FileInfo.

Inductive FileDiff :=
| Write (digest : Digest) (sz : Z)
| Delete.

Module LinkReference.
Record t := { bundle_uuid : UUID; version : Z }.
End LinkReference.

Inductive LinkDiff :=
| SetLink (target : LinkReference.t)
| DeleteLink.

Module LinkManifestEntry.
Record t := { direct : LinkReference.t; indirect : list LinkReference.t }.
End LinkManifestEntry.

#[global] Instance FileInfo_eq_dec : EqDecision FileInfo.t.
Proof. solve_decision. Defined.
#[global] Instance FileDiff_eq_dec : EqDecision FileDiff.
Proof. solve_decision. Defined.
#[global] Instance LinkReference_eq_dec : EqDecision LinkReference.t.
Proof. solve_decision. Defined.

(** The staged diff the draft repository keeps for one draft. *)
Module StagedState.
Record t :=
    { base_version_num : Z;
      staged_files : gmap string FileDiff;
      staged_links : gmap string LinkDiff;
      updated_at : N }.
End StagedState.

(** ** Database rows *)

Module models.

Module Collection.
Record t := { id : Z; uuid : UUID; title : Value }.
End Collection.

Module Bundle.
Record t :=
      { id : Z; uuid : UUID; title : Value; description : Value;
        slug : Value; collection : Z }.
End Bundle.

Module BundleVersion.
Record t :=
      { bundle : Z; version_num : Z;
        files : gmap string FileInfo.t;
        links : gmap string LinkManifestEntry.t }.
End BundleVersion.

  (** Migration 0002: [id] is the primary key, [uuid] is unique, [bundle]
      is a cascading foreign key and [(bundle, name)] is unique together. *)
Module Draft.
Record t := { id : Z; uuid : UUID; name : string; bundle : Z }.
End Draft.

End models.

Record DB :=
  { collections : list models.Collection.t;
    bundles : list models.Bundle.t;
    bundle_versions : list models.BundleVersion.t;
    drafts : list models.Draft.t;
    draft_repo : gmap UUID StagedState.t;
    content_store : gmap Digest (list Byte.byte);
    next_id : Z;
    clock : N }.

Definition set_collections (f : list models.Collection.t → list models.Collection.t) (st : DB) : DB :=
  {| collections := f (collections st); bundles := bundles st;
     bundle_versions := bundle_versions st; drafts := drafts st;
     draft_repo := draft_repo st; content_store := content_store st;
     next_id := next_id st; clock := clock st |}.

Definition set_bundles (f : list models.Bundle.t → list models.Bundle.t) (st : DB) : DB :=
  {| collections := collections st; bundles := f (bundles st);
     bundle_versions := bundle_versions st; drafts := drafts st;
     draft_repo := draft_repo st; content_store := content_store st;
     next_id := next_id st; clock := clock st |}.

Definition set_bundle_versions
    (f : list models.BundleVersion.t → list models.BundleVersion.t) (st : DB) : DB :=
  {| collections := collections st; bundles := bundles st;
     bundle_versions := f (bundle_versions st); drafts := drafts st;
     draft_repo := draft_repo st; content_store := content_store st;
     next_id := next_id st; clock := clock st |}.

Definition set_drafts (f : list models.Draft.t → list models.Draft.t) (st : DB) : DB :=
  {| collections := collections st; bundles := bundles st;
     bundle_versions := bundle_versions st; drafts := f (drafts st);
     draft_repo := draft_repo st; content_store := content_store st;
     next_id := next_id st; clock := clock st |}.

Definition set_draft_repo (f : gmap UUID StagedState.t → gmap UUID StagedState.t) (st : DB) : DB :=
  {| collections := collections st; bundles := bundles st;
     bundle_versions := bundle_versions st; drafts := drafts st;
     draft_repo := f (draft_repo st); content_store := content_store st;
     next_id := next_id st; clock := clock st |}.

Definition set_content_store
    (f : gmap Digest (list Byte.byte) → gmap Digest (list Byte.byte)) (st : DB) : DB :=
  {| collections := collections st; bundles := bundles st;
     bundle_versions := bundle_versions st; drafts := drafts st;
     draft_repo := draft_repo st; content_store := f (content_store st);
     next_id := next_id st; clock := clock st |}.

Definition bump_id (st : DB) : DB :=
  {| collections := collections st; bundles := bundles st;
     bundle_versions := bundle_versions st; drafts := drafts st;
     draft_repo := draft_repo st; content_store := content_store st;
     next_id := next_id st + 1; clock := clock st |}.

Definition tick (st : DB) : DB :=
  {| collections := collections st; bundles := bundles st;
     bundle_versions := bundle_versions st; drafts := drafts st;
     draft_repo := draft_repo st; content_store := content_store st;
     next_id := next_id st; clock := (clock st + 1)%N |}.

(** ** The monad of API calls: database state plus Python exceptions *)

Definition M (A : Type) : Type := DB → Result A * DB.

Definition ret {A} (a : A) : M A := λ st, (Ok a, st).
Definition raise {A} (e : exn) : M A := λ st, (Raise e, st).
Definition bind {A B} (m : M A) (k : A → M B) : M B :=
  λ st, match m st with
        | (Ok a, st') => k a st'
        | (Raise e, st') => (Raise e, st')
        end.
Definition gets {A} (f : DB → A) : M A := λ st, (Ok (f st), st).
Definition modify (f : DB → DB) : M unit := λ st, (Ok tt, f st).

(** [try: m except e: h] *)
Definition try_except {A} (m : M A) (e : exn) (h : M A) : M A :=
  λ st, match m st with
        | (Raise e0, st') => if decide (e0 = e) then h st' else (Raise e0, st')
        | r => r
        end.

#[global] Instance M_ret : MRet M := @ret.
#[global] Instance M_bind : MBind M := λ A B k m, bind m k.

(** [assert isinstance(v, UUID)] *)
Definition assert_isinstance_UUID (v : Value) : M UUID :=
  match v with
  | VUuid u => ret u
  | _ => raise AssertionError
  end.


Ltac run_bind := unfold mbind, M_bind, bind, mret, M_ret, ret in *.
Ltac run_monad := run_bind; unfold raise, gets, modify, try_except in *.

(** ** The data classes the API returns ([api/models.py]) *)

Module Collection.
Record t := { uuid : UUID; title : Value }.
End Collection.

Module Bundle.
Record t :=
    { uuid : UUID; title : Value; description : Value; slug : Value;
      drafts : gmap string UUID; latest_version : Z }.
End Bundle.

Module BundleFile.
Record t := { path : string; size : Z; url : string; hash_digest : Digest }.
End BundleFile.

Module DraftFile.
Record t :=
    { path : string; size : Z; url : string; hash_digest : Digest;
      modified : bool }.
End DraftFile.

Module LinkDetails.
Record t :=
    { name : string; direct : LinkReference.t; indirect : list LinkReference.t }.
End LinkDetails.

Module DraftLinkDetails.
Record t :=
    { name : string; direct : LinkReference.t;
      indirect : list LinkReference.t; modified : bool }.
End DraftLinkDetails.

Module Draft.
Record t :=
    { uuid : UUID; bundle_uuid : UUID; name : string; updated_at : N;
      files : gmap string DraftFile.t;
      links : gmap string DraftLinkDetails.t }.
End Draft.

(** ** The object-relational layer *)

(** [Model.objects.get(...)]: exactly one matching row, or an exception. *)
Definition objects_get {Row} (m : Model) (table : DB → list Row)
    (P : Row → Prop) `{!∀ r, Decision (P r)} : M Row :=
  λ st, match filter P (table st) with
        | [] => (Raise (DoesNotExist m), st)
        | [r] => (Ok r, st)
        | _ => (Raise (MultipleObjectsReturned m), st)
        end.

Definition Collection_objects_get (u : UUID) : M models.Collection.t :=
  objects_get MCollection collections (λ r, models.Collection.uuid r = u).

Definition Bundle_objects_get (u : UUID) : M models.Bundle.t :=
  objects_get MBundle bundles (λ r, models.Bundle.uuid r = u).

Definition Draft_objects_get (u : UUID) : M models.Draft.t :=
  objects_get MDraft drafts (λ r, models.Draft.uuid r = u).

(** [models.Draft.objects.get(bundle=bundle, name=draft_name)] *)
Definition Draft_objects_get_by_name (b : models.Bundle.t) (n : string)
    : M models.Draft.t :=
  objects_get MDraft drafts
    (λ r, models.Draft.bundle r = models.Bundle.id b ∧ models.Draft.name r = n).

(** [bundle.drafts.all()]: the reverse side of the foreign key. *)
Definition Bundle_drafts_all (b : models.Bundle.t) (st : DB) : list models.Draft.t :=
  filter (λ r, models.Draft.bundle r = models.Bundle.id b) (drafts st).

(** [draft.bundle]: follows the foreign key to the row with that primary key. *)
Definition Draft_bundle (d : models.Draft.t) : M models.Bundle.t :=
  λ st, match filter (λ r, models.Bundle.id r = models.Draft.bundle d) (bundles st) with
        | r :: _ => (Ok r, st)
        | [] => (Raise (DoesNotExist MBundle), st)
        end.

(** What a text column keeps of the value of an attribute.  The title of a
    collection and the title, description and slug of a bundle are text
    columns that do not take NULL: a [str] is kept as it is, any other value
    is kept as [str(value)], and [None] has no text, so the database refuses
    the row. *)
Definition to_text (v : Value) : option string :=
  match v with
  | VNone => None
  | _ => Some (py_str v)
  end.

(** The row the database keeps for the collection object [c]. *)
Definition Collection_row (c : models.Collection.t) : option models.Collection.t :=
  text ← to_text (models.Collection.title c);
  Some {| models.Collection.id := models.Collection.id c;
          models.Collection.uuid := models.Collection.uuid c;
          models.Collection.title := VStr text |}.

(** The row the database keeps for the bundle object [b]. *)
Definition Bundle_row (b : models.Bundle.t) : option models.Bundle.t :=
  title ← to_text (models.Bundle.title b);
  description ← to_text (models.Bundle.description b);
  slug ← to_text (models.Bundle.slug b);
  Some {| models.Bundle.id := models.Bundle.id b;
          models.Bundle.uuid := models.Bundle.uuid b;
          models.Bundle.title := VStr title;
          models.Bundle.description := VStr description;
          models.Bundle.slug := VStr slug;
          models.Bundle.collection := models.Bundle.collection b |}.

(** Saving a new [models.Collection(title=title)].  The object receives the
    next primary key and the value [fresh] drawn by [uuid.uuid4], and keeps
    the title it was given; the table receives its row.  The insert is
    refused with [IntegrityError] when the title is [None] and when the
    uuid, which is unique, is taken. *)
Definition Collection_save_new (title : Value) (fresh : UUID) : M models.Collection.t :=
  λ st,
    let collection := {| models.Collection.id := next_id st;
                         models.Collection.uuid := fresh;
                         models.Collection.title := title |} in
    match Collection_row collection with
    | None => (Raise IntegrityError, st)
    | Some row =>
        if decide (Exists (λ r, models.Collection.uuid r = fresh) (collections st))
        then (Raise IntegrityError, st)
        else (Ok collection, bump_id (set_collections (λ t, t ++ [row]) st))
    end.

(** [collection.save()] on an object read from the table: its row is
    rewritten, unless the title is [None]. *)
Definition Collection_save (c : models.Collection.t) : M unit :=
  match Collection_row c with
  | None => raise IntegrityError
  | Some row =>
      modify (set_collections
        (fmap (λ r, if decide (models.Collection.id r = models.Collection.id c)
                    then row else r)))
  end.

Definition Bundle_save_new (title description slug : Value)
    (c : models.Collection.t) (fresh : UUID) : M models.Bundle.t :=
  λ st,
    let bundle := {| models.Bundle.id := next_id st;
                     models.Bundle.uuid := fresh;
                     models.Bundle.title := title;
                     models.Bundle.description := description;
                     models.Bundle.slug := slug;
                     models.Bundle.collection := models.Collection.id c |} in
    match Bundle_row bundle with
    | None => (Raise IntegrityError, st)
    | Some row =>
        if decide (Exists (λ r, models.Bundle.uuid r = fresh) (bundles st))
        then (Raise IntegrityError, st)
        else (Ok bundle, bump_id (set_bundles (λ t, t ++ [row]) st))
    end.

Definition Bundle_save (b : models.Bundle.t) : M unit :=
  match Bundle_row b with
  | None => raise IntegrityError
  | Some row =>
      modify (set_bundles
        (fmap (λ r, if decide (models.Bundle.id r = models.Bundle.id b) then row else r)))
  end.

(** [bundle.delete()]: the bundle row goes, and with it the drafts whose
    foreign key cascades (migration 0002) and the versions it owns. *)
Definition Bundle_delete (b : models.Bundle.t) : M unit :=
  modify (λ st,
    set_bundles (filter (λ r, models.Bundle.id r ≠ models.Bundle.id b))
      (set_drafts (filter (λ r, models.Draft.bundle r ≠ models.Bundle.id b))
        (set_bundle_versions
           (filter (λ r, models.BundleVersion.bundle r ≠ models.Bundle.id b)) st))).

(** [collection.delete()]: cascades to the bundles of the collection. *)
Definition Collection_delete (c : models.Collection.t) : M unit :=
  λ st,
    let owned := filter (λ r, models.Bundle.collection r = models.Collection.id c) (bundles st) in
    let st1 := foldl (λ s b, snd (Bundle_delete b s)) st owned in
    (Ok tt, set_collections
              (filter (λ r, models.Collection.id r ≠ models.Collection.id c)) st1).

(** [setattr(bundle, str_field, value)] for the three text attributes. *)
Definition Bundle_setattr (field : string) (v : Value) (b : models.Bundle.t)
    : models.Bundle.t :=
  {| models.Bundle.id := models.Bundle.id b;
     models.Bundle.uuid := models.Bundle.uuid b;
     models.Bundle.title :=
       if decide (field = "title") then v else models.Bundle.title b;
     models.Bundle.description :=
       if decide (field = "description") then v else models.Bundle.description b;
     models.Bundle.slug :=
       if decide (field = "slug") then v else models.Bundle.slug b;
     models.Bundle.collection := models.Bundle.collection b |}.

(** [bundle.collection = collection] *)
Definition Bundle_set_collection (c : models.Collection.t) (b : models.Bundle.t)
    : models.Bundle.t :=
  {| models.Bundle.id := models.Bundle.id b;
     models.Bundle.uuid := models.Bundle.uuid b;
     models.Bundle.title := models.Bundle.title b;
     models.Bundle.description := models.Bundle.description b;
     models.Bundle.slug := models.Bundle.slug b;
     models.Bundle.collection := models.Collection.id c |}.

(** A Python dict built by a comprehension: a later key overrides an
    earlier one. *)
Definition dict_of {K V} `{Countable K} (items : list (K * V)) : gmap K V :=
  foldl (λ m kv, <[kv.1 := kv.2]> m) ∅ items.

(** ** Model methods defined outside [methods.py] *)

Definition latest_of (vs : list models.BundleVersion.t) : option models.BundleVersion.t :=
  foldl (λ acc v,
           match acc with
           | None => Some v
           | Some a =>
               if models.BundleVersion.version_num a <? models.BundleVersion.version_num v
               then Some v else Some a
           end) None vs.

(** Modelled from the spec: [models.Bundle.get_bundle_version] is a method of
    the bundle model, defined outside [methods.py] and missing here.
    Called without a version number it yields the
    bundle's latest committed version, the one carrying the greatest
    [version_num], and [None] while no version has been committed. *)
Definition Bundle_get_bundle_version (b : models.Bundle.t)
    : M (option models.BundleVersion.t) :=
  gets (λ st, latest_of
    (filter (λ v, models.BundleVersion.bundle v = models.Bundle.id b) (bundle_versions st))).

(** The snapshot of bundle [bid] numbered [n], if it was committed. *)
Definition snapshot_of (bid n : Z) (st : DB) : option models.BundleVersion.t :=
  head (filter (λ v, models.BundleVersion.bundle v = bid
                     ∧ models.BundleVersion.version_num v = n) (bundle_versions st)).

Definition apply_file_diff (b : option FileInfo.t) (d : option FileDiff)
    : option FileInfo.t :=
  match d with
  | Some (Write h s) => Some {| FileInfo.hash_digest := h; FileInfo.size := s |}
  | Some Delete => None
  | None => b
  end.

(** Modelled from the spec: the effective file set of a draft is the base
    snapshot's files with the staged diff applied, a [Write] overriding or
    adding the path and a [Delete] removing it. *)
Definition overlay_files (base : gmap string FileInfo.t) (diff : gmap string FileDiff)
    : gmap string FileInfo.t :=
  merge apply_file_diff base diff.

Definition apply_link_diff (b : option LinkManifestEntry.t) (d : option LinkDiff)
    : option LinkReference.t :=
  match d with
  | Some (SetLink r) => Some r
  | Some DeleteLink => None
  | None => LinkManifestEntry.direct <$> b
  end.

Definition overlay_links (base : gmap string LinkManifestEntry.t)
    (diff : gmap string LinkDiff) : gmap string LinkReference.t :=
  merge apply_link_diff base diff.

(** Modelled from the spec: [resolve_indirect] of the Link Resolver, the
    target version's own manifest flattened (its direct links and their
    recorded indirect links), each reference once, in manifest order. *)
Definition resolve_indirect (st : DB) (r : LinkReference.t) : list LinkReference.t :=
  match filter (λ b, models.Bundle.uuid b = LinkReference.bundle_uuid r) (bundles st) with
  | b :: _ =>
      match snapshot_of (models.Bundle.id b) (LinkReference.version r) st with
      | Some v =>
          remove_dups
            (flat_map (λ e, LinkManifestEntry.direct e.2 :: LinkManifestEntry.indirect e.2)
                      (map_to_list (models.BundleVersion.links v)))
      | None => []
      end
  | [] => []
  end.

Module ComposedLink.
Record t :=
    { direct : LinkReference.t; indirect : list LinkReference.t; modified : bool }.
End ComposedLink.

(** The object [draft.staged_draft] evaluates to. *)
Module StagedDraft.
Record t :=
    { updated_at : N;
      files : gmap string FileInfo.t;
      files_to_overwrite : gmap string FileDiff;
      composed_links : gmap string ComposedLink.t }.
End StagedDraft.

(** Modelled from the spec: the property [models.Draft.staged_draft] is
    defined on the draft model, outside [methods.py], and missing here.
    It reads the draft's staged diff from the
    draft repository and presents it over the base snapshot: [files] is the
    effective file set, [files_to_overwrite] the staged file diff itself
    and [composed_links] the effective links with their indirect closure
    resolved against the staged direct target. *)
Definition Draft_staged_draft (d : models.Draft.t) : M StagedDraft.t :=
  λ st,
    match draft_repo st !! models.Draft.uuid d with
    | None => (Raise NotFound, st)
    | Some s =>
        let base := snapshot_of (models.Draft.bundle d) (StagedState.base_version_num s) st in
        let base_files := from_option models.BundleVersion.files ∅ base in
        let base_links := from_option models.BundleVersion.links ∅ base in
        (Ok {| StagedDraft.updated_at := StagedState.updated_at s;
               StagedDraft.files := overlay_files base_files (StagedState.staged_files s);
               StagedDraft.files_to_overwrite := StagedState.staged_files s;
               StagedDraft.composed_links :=
                 map_imap (λ name r,
                     Some {| ComposedLink.direct := r;
                             ComposedLink.indirect := resolve_indirect st r;
                             ComposedLink.modified :=
                               bool_decide (is_Some (StagedState.staged_links s !! name)) |})
                   (overlay_links base_links (StagedState.staged_links s)) |}, st)
    end.

(** Saving a new [models.Draft(bundle=bundle, name=draft_name)].  The row,
    its primary key and its [uuid.uuid4] default [fresh] follow migration
    0002, whose unique constraints on [uuid] and on [(bundle, name)] refuse
    the insert with [IntegrityError].  The staged diff the new draft starts
    with is modelled from the spec: empty, anchored to the bundle's current
    latest version (0 if none).  That a refused insert leaves the draft
    repository as it was is modelled from the spec as well, which has a
    constraint violation rejected before any mutation is applied; [save]
    itself is defined with the model, outside [methods.py]. *)
Definition Draft_save_new (b : models.Bundle.t) (n : string) (fresh : UUID)
    : M models.Draft.t :=
  λ st,
    let row := {| models.Draft.id := next_id st;
                  models.Draft.uuid := fresh;
                  models.Draft.name := n;
                  models.Draft.bundle := models.Bundle.id b |} in
    if decide (Exists (λ r, models.Draft.uuid r = fresh
                            ∨ (models.Draft.bundle r = models.Bundle.id b
                               ∧ models.Draft.name r = n)) (drafts st))
    then (Raise IntegrityError, st)
    else
      let latest := latest_of
        (filter (λ v, models.BundleVersion.bundle v = models.Bundle.id b) (bundle_versions st)) in
      let clean := {| StagedState.base_version_num :=
                        from_option models.BundleVersion.version_num 0 latest;
                      StagedState.staged_files := ∅;
                      StagedState.staged_links := ∅;
                      StagedState.updated_at := clock st |} in
      (Ok row, bump_id (set_draft_repo (insert fresh clean)
                          (set_drafts (λ t, t ++ [row]) st))).

(** ** [methods.py]: collections *)

Definition _data_from_collection (collection : models.Collection.t) : Collection.t :=
  {| Collection.uuid := models.Collection.uuid collection;
     Collection.title := models.Collection.title collection |}.

Definition get_collection (collection_uuid : Value) : M Collection.t :=
  u ← assert_isinstance_UUID collection_uuid;
  collection ← try_except (Collection_objects_get u)
                 (DoesNotExist MCollection) (raise CollectionNotFound);
  mret (_data_from_collection collection).

Definition create_collection (title : Value) (fresh : UUID) : M Collection.t :=
  collection ← Collection_save_new title fresh;
  mret (_data_from_collection collection).

Definition update_collection (collection_uuid : Value) (title : Value) : M Collection.t :=
  u ← assert_isinstance_UUID collection_uuid;
  collection ← try_except (Collection_objects_get u)
                 (DoesNotExist MCollection) (raise CollectionNotFound);
  let collection := {| models.Collection.id := models.Collection.id collection;
                       models.Collection.uuid := models.Collection.uuid collection;
                       models.Collection.title := title |} in
  Collection_save collection;;
  mret (_data_from_collection collection).

Definition delete_collection (collection_uuid : Value) : M unit :=
  u ← assert_isinstance_UUID collection_uuid;
  collection ← try_except (Collection_objects_get u)
                 (DoesNotExist MCollection) (raise CollectionNotFound);
  Collection_delete collection.

(** ** [methods.py]: bundles *)

Definition _data_from_bundle (bundle : models.Bundle.t) : M Bundle.t :=
  latest_bundle_version ← Bundle_get_bundle_version bundle;
  all_drafts ← gets (Bundle_drafts_all bundle);
  mret {| Bundle.uuid := models.Bundle.uuid bundle;
          Bundle.title := models.Bundle.title bundle;
          Bundle.description := models.Bundle.description bundle;
          Bundle.slug := models.Bundle.slug bundle;
          Bundle.drafts :=
            dict_of ((λ draft, (models.Draft.name draft, models.Draft.uuid draft))
                       <$> all_drafts);
          Bundle.latest_version :=
            match latest_bundle_version with
            | Some v => models.BundleVersion.version_num v
            | None => 0
            end |}.

Definition get_bundle (bundle_uuid : Value) : M Bundle.t :=
  u ← assert_isinstance_UUID bundle_uuid;
  bundle ← try_except (Bundle_objects_get u) (DoesNotExist MBundle) (raise BundleNotFound);
  _data_from_bundle bundle.

Definition create_bundle (collection_uuid : Value) (slug title description : Value)
    (fresh : UUID) : M Bundle.t :=
  u ← assert_isinstance_UUID collection_uuid;
  collection ← try_except (Collection_objects_get u)
                 (DoesNotExist MCollection) (raise CollectionNotFound);
  bundle ← Bundle_save_new title description slug collection fresh;
  _data_from_bundle bundle.

Definition update_bundle (bundle_uuid : Value) (fields : gmap string Value) : M Bundle.t :=
  u ← assert_isinstance_UUID bundle_uuid;
  bundle ← try_except (Bundle_objects_get u) (DoesNotExist MBundle) (raise BundleNotFound);
  let '(bundle, fields) :=
    foldl (λ '(b, fs) str_field,
             match fs !! str_field with
             | Some v => (Bundle_setattr str_field v b, delete str_field fs)
             | None => (b, fs)
             end)
          (bundle, fields) ["title"; "description"; "slug"] in
  '(bundle, fields) ←
    match fields !! "collection_uuid" with
    | Some v =>
        let collection_uuid := VStr (py_str v) in
        let fields := delete "collection_uuid" fields in
        cu ← assert_isinstance_UUID collection_uuid;
        collection ← try_except (Collection_objects_get cu)
                       (DoesNotExist MCollection) (raise CollectionNotFound);
        mret (Bundle_set_collection collection bundle, fields)
    | None => mret (bundle, fields)
    end;
  if decide (fields = ∅) then
    Bundle_save bundle;;
    _data_from_bundle bundle
  else raise ValueError.

Definition delete_bundle (bundle_uuid : Value) : M unit :=
  u ← assert_isinstance_UUID bundle_uuid;
  bundle ← try_except (Bundle_objects_get u) (DoesNotExist MBundle) (raise BundleNotFound);
  Bundle_delete bundle.

(** ** [methods.py]: drafts *)

Definition _data_from_draft (draft : models.Draft.t) : M Draft.t :=
  bundle ← Draft_bundle draft;
  staged_draft ← Draft_staged_draft draft;
  mret {| Draft.uuid := models.Draft.uuid draft;
          Draft.bundle_uuid := models.Bundle.uuid bundle;
          Draft.name := models.Draft.name draft;
          Draft.updated_at := StagedDraft.updated_at staged_draft;
          Draft.files :=
            map_imap (λ path file_info,
                Some {| DraftFile.path := path;
                        DraftFile.size := FileInfo.size file_info;
                        DraftFile.url := path;
                        DraftFile.hash_digest := FileInfo.hash_digest file_info;
                        DraftFile.modified :=
                          bool_decide (is_Some
                            (StagedDraft.files_to_overwrite staged_draft !! path)) |})
              (StagedDraft.files staged_draft);
          Draft.links := ∅ |}.

Definition get_draft (draft_uuid : Value) : M Draft.t :=
  u ← assert_isinstance_UUID draft_uuid;
  draft ← try_except (Draft_objects_get u) (DoesNotExist MDraft) (raise DraftNotFound);
  _data_from_draft draft.

Definition get_or_create_bundle_draft (bundle_uuid : Value) (draft_name : string)
    (fresh : UUID) : M Draft.t :=
  u ← assert_isinstance_UUID bundle_uuid;
  bundle ← try_except (Bundle_objects_get u) (DoesNotExist MBundle) (raise BundleNotFound);
  draft ← try_except (Draft_objects_get_by_name bundle draft_name)
            (DoesNotExist MDraft) (Draft_save_new bundle draft_name fresh);
  _data_from_draft draft.

(** ** Bytes, UTF-8 and Base64 *)

Abbreviation bytes := (list Byte.byte).

Definition byte_of (n : N) : Byte.byte := default Byte.x00 (Byte.of_N n).

(** What [contents] and [input_str] can be: text ([six.text_type], a list
    of code points) or a binary string. *)
Inductive PyData :=
| Text (code_points : list N)
| Bytes (bs : bytes).

(** [chr.encode('utf8')] for one code point; surrogates cannot be encoded. *)
Definition utf8_encode_cp (cp : N) : option bytes :=
  (if decide (cp < 128) then Some [byte_of cp]
   else if decide (cp < 2048) then
     Some [byte_of (192 + cp / 64); byte_of (128 + cp mod 64)]
   else if decide (cp < 65536) then
     if decide (55296 ≤ cp ∧ cp ≤ 57343) then None
     else Some [byte_of (224 + cp / 4096); byte_of (128 + cp / 64 mod 64);
                byte_of (128 + cp mod 64)]
   else if decide (cp < 1114112) then
     Some [byte_of (240 + cp / 262144); byte_of (128 + cp / 4096 mod 64);
           byte_of (128 + cp / 64 mod 64); byte_of (128 + cp mod 64)]
   else None)%N.

Fixpoint utf8_encode (cps : list N) : option bytes :=
  match cps with
  | [] => Some []
  | cp :: rest =>
      match utf8_encode_cp cp, utf8_encode rest with
      | Some b, Some bs => Some (b ++ bs)
      | _, _ => None
      end
  end.

Definition b64_alphabet : bytes :=
  list_byte_of_string
    "ABCDEFGHIJKLMNOPQRSTUVWXYZabcdefghijklmnopqrstuvwxyz0123456789+/".

Definition b64_pad : Byte.byte := Byte.x3d.

Definition b64_char (sextet : N) : Byte.byte :=
  nth (N.to_nat sextet) b64_alphabet Byte.x00.

Fixpoint index_of (c : Byte.byte) (l : bytes) (i : N) : option N :=
  match l with
  | [] => None
  | x :: l' => if decide (x = c) then Some i else index_of c l' (i + 1)%N
  end.

Definition b64_index (c : Byte.byte) : option N := index_of c b64_alphabet 0%N.

(** [base64.b64encode]: three bytes become four characters of the
    alphabet, the last group padded with [=]. *)
Fixpoint b64encode (bs : bytes) : bytes :=
  match bs with
  | [] => []
  | [a] =>
      let n := Byte.to_N a in
      [b64_char (n / 4); b64_char (n mod 4 * 16); b64_pad; b64_pad]%N
  | [a; b] =>
      let n := (Byte.to_N a * 256 + Byte.to_N b)%N in
      [b64_char (n / 1024); b64_char (n / 16 mod 64); b64_char (n mod 16 * 4);
       b64_pad]%N
  | a :: b :: c :: rest =>
      let n := (Byte.to_N a * 65536 + Byte.to_N b * 256 + Byte.to_N c)%N in
      b64_char (n / 262144)%N :: b64_char (n / 4096 mod 64)%N
        :: b64_char (n / 64 mod 64)%N :: b64_char (n mod 64)%N :: b64encode rest
  end.

(** The inverse transport decoding: groups of four characters, padding
    only in the last group. *)
Fixpoint b64decode (cs : bytes) : option bytes :=
  match cs with
  | [] => Some []
  | c1 :: c2 :: c3 :: c4 :: rest =>
      if decide (c4 = b64_pad) then
        match rest with
        | [] =>
            if decide (c3 = b64_pad) then
              s1 ← b64_index c1; s2 ← b64_index c2;
              Some [byte_of (s1 * 4 + s2 / 16)%N]
            else
              s1 ← b64_index c1; s2 ← b64_index c2; s3 ← b64_index c3;
              Some [byte_of (s1 * 4 + s2 / 16)%N;
                    byte_of (s2 mod 16 * 16 + s3 / 4)%N]
        | _ :: _ => None
        end
      else
        s1 ← b64_index c1; s2 ← b64_index c2; s3 ← b64_index c3; s4 ← b64_index c4;
        tail ← b64decode rest;
        Some (byte_of (s1 * 4 + s2 / 16)%N
              :: byte_of (s2 mod 16 * 16 + s3 / 4)%N
              :: byte_of (s3 mod 4 * 64 + s4)%N :: tail)
  | _ => None
  end.

(** ** [methods.py]: the encoding helper *)

Definition encode_str_for_draft (input_str : PyData) : M bytes :=
  binary ← match input_str with
           | Text t =>
               match utf8_encode t with
               | Some b => mret b
               | None => raise UnicodeEncodeError
               end
           | Bytes b => mret b
           end;
  mret (b64encode binary).

(** ** The draft update path below [write_draft_file] *)

(** The [data] handed to [DraftFileUpdateSerializer]: the ['files'] dict in
    insertion order and, when the key is there, the ['links'] dict. *)
Module DraftUpdateData.
Record t :=
    { files : list (string * option bytes);
      links : option (list (string * option LinkReference.t)) }.
End DraftUpdateData.

(** Modelled from the spec: [DraftFileUpdateSerializer] belongs to the
    serialization layer ([rest_api/v1/serializers/drafts.py]) and is missing
    here.  It takes
    the transport encoding off: every file value that is not [None] is
    Base64 text and validates to the raw bytes it encodes, anything else
    being a validation error; a missing ['links'] key validates to no link
    change. *)
Fixpoint validate_files (fs : list (string * option bytes))
    : option (list (string * option bytes)) :=
  match fs with
  | [] => Some []
  | (path, None) :: rest => tail ← validate_files rest; Some ((path, None) :: tail)
  | (path, Some text) :: rest =>
      raw ← b64decode text; tail ← validate_files rest;
      Some ((path, Some raw) :: tail)
  end.

Definition DraftFileUpdateSerializer_validated_data (data : DraftUpdateData.t)
    : M (list (string * option bytes) * list (string * option LinkReference.t)) :=
  match validate_files (DraftUpdateData.files data) with
  | Some fs => mret (fs, default [] (DraftUpdateData.links data))
  | None => raise ValidationError
  end.

Section ContentStore.

  (** The deterministic content hash of the Content Store. *)
Variable content_digest : bytes → Digest.

  (** Modelled from the spec: [put] of the Content Store keeps the bytes
      under their digest and answers the digest. *)
Definition ContentStore_put (raw : bytes) : M Digest :=
    λ st, (Ok (content_digest raw),
           set_content_store (insert (content_digest raw) raw) st).

  (** Modelled from the spec: one [write_file] step of the Draft Overlay on
      the staged diff [s]. *)
Definition stage_file (s : StagedState.t) (path : string) (d : FileDiff)
      : StagedState.t :=
    {| StagedState.base_version_num := StagedState.base_version_num s;
       StagedState.staged_files := <[path := d]> (StagedState.staged_files s);
       StagedState.staged_links := StagedState.staged_links s;
       StagedState.updated_at := StagedState.updated_at s |}.

Definition stage_link (s : StagedState.t) (name : string) (d : LinkDiff)
      : StagedState.t :=
    {| StagedState.base_version_num := StagedState.base_version_num s;
       StagedState.staged_files := StagedState.staged_files s;
       StagedState.staged_links := <[name := d]> (StagedState.staged_links s);
       StagedState.updated_at := StagedState.updated_at s |}.

Definition touch (now : N) (s : StagedState.t) : StagedState.t :=
    {| StagedState.base_version_num := StagedState.base_version_num s;
       StagedState.staged_files := StagedState.staged_files s;
       StagedState.staged_links := StagedState.staged_links s;
       StagedState.updated_at := now |}.

Definition write_file (draft_uuid : UUID) (entry : string * option bytes) : M unit :=
    match entry.2 with
    | Some raw =>
        digest ← ContentStore_put raw;
        modify (set_draft_repo
          (alter (λ s, stage_file s entry.1 (Write digest (Z.of_nat (length raw))))
                 draft_uuid))
    | None =>
        modify (set_draft_repo (alter (λ s, stage_file s entry.1 Delete) draft_uuid))
    end.

Definition version_exists (r : LinkReference.t) (st : DB) : bool :=
    bool_decide (Exists (λ b, models.Bundle.uuid b = LinkReference.bundle_uuid r
                   ∧ is_Some (snapshot_of (models.Bundle.id b) (LinkReference.version r) st))
                   (bundles st)).

Definition set_link (draft_uuid : UUID) (entry : string * option LinkReference.t)
      : M unit :=
    match entry.2 with
    | Some r =>
        known ← gets (version_exists r);
        if known : bool then
          modify (set_draft_repo (alter (λ s, stage_link s entry.1 (SetLink r)) draft_uuid))
        else raise VersionNotFound
    | None =>
        modify (set_draft_repo (alter (λ s, stage_link s entry.1 DeleteLink) draft_uuid))
    end.

Fixpoint for_each {A} (f : A → M unit) (l : list A) : M unit :=
    match l with
    | [] => mret tt
    | x :: rest => f x;; for_each f rest
    end.

  (** Modelled from the spec: [DraftRepo.update] belongs to the store
      ([bundles/store.py]) and is missing here.  On a draft the repository knows,
      it applies [write_file] to every file entry and [set_link] to every
      link entry, in order, and advances the draft's [updated_at]; a draft
      it does not know is a [NotFound]. *)
Definition DraftRepo_update (draft_uuid : UUID)
      (files_to_write : list (string * option bytes))
      (dependencies_to_write : list (string * option LinkReference.t)) : M unit :=
    known ← gets (λ st, bool_decide (is_Some (draft_repo st !! draft_uuid)));
    if known : bool then
      for_each (write_file draft_uuid) files_to_write;;
      for_each (set_link draft_uuid) dependencies_to_write;;
      modify tick;;
      now ← gets clock;
      modify (set_draft_repo (alter (touch now) draft_uuid))
    else raise NotFound.

  (** ** [methods.py]: [write_draft_file] *)

Definition write_draft_file (draft_uuid : UUID) (path : string)
      (contents : option PyData) : M unit :=
    encoded ← match contents with
              | Some c => text ← encode_str_for_draft c; mret (Some text)
              | None => mret None
              end;
    let data := {| DraftUpdateData.files := [(path, encoded)];
                   DraftUpdateData.links := None |} in
    '(files_to_write, dependencies_to_write) ←
        DraftFileUpdateSerializer_validated_data data;
    try_except (DraftRepo_update draft_uuid files_to_write dependencies_to_write)
      LinkCycleError (raise ValidationError).

End ContentStore.

(** ** The calls that go through [api_request] *)

Module FileMetadata.
Record t := { size : Z; url : string; hash_digest : Digest }.
End FileMetadata.

(** The ["snapshot"] object of a bundle-version response. *)
Module VersionInfo.
Record t :=
    { files : list (string * FileMetadata.t);
      links : list (string * LinkManifestEntry.t) }.
End VersionInfo.

(** What a request answers: nothing, a bundle version, or a list. *)
#[warnings="-register-all"]
Inductive Response :=
| RNone
| RVersionInfo (info : VersionInfo.t)
| RList (items : list Response).

(** The [json=] body of a draft patch. *)
Inductive Body :=
| LinksBody (links : list (string * option (string * Z))).

(** What the files dict of a bundle holds: [BundleFile] or [DraftFile]. *)
Inductive FileEntry :=
| OfVersion (f : BundleFile.t)
| OfDraft (f : DraftFile.t).

Inductive LinkEntry :=
| LinkOfVersion (l : LinkDetails.t)
| LinkOfDraft (l : DraftLinkDetails.t).

(** [version_info["snapshot"]]: only a bundle-version response can be
    subscripted that way. *)
Definition subscript_snapshot (version_info : Response) : M VersionInfo.t :=
  match version_info with
  | RVersionInfo info => mret info
  | _ => raise TypeError
  end.

(** [use_draft and use_draft in bundle.drafts], with the uuid found. *)
Definition selected_draft (use_draft : option string) (bundle : Bundle.t) : option UUID :=
  match use_draft with
  | Some n => if decide (n = "") then None else Bundle.drafts bundle !! n
  | None => None
  end.

Section Backend.

  (** [urlencode] and [requests.get] are imported by [methods.py];
      [api_url], [api_request] and [_bundle_from_response] are called by it
      but neither defined nor imported.  All five are parameters here, so
      that a function can be read under any binding of them; what the file
      does as it stands, with the three names unbound, is given by
      [unbound_api_url] and [unbound_api_request] below. *)
Variable api_url : list string → string.
Variable api_request : string → string → option Body → M Response.
Variable _bundle_from_response : Response → M Bundle.t.
Variable urlencode : list (string * string) → string.
Variable requests_get : string → M bytes.

Fixpoint collect {A B} (f : A → M B) (l : list A) : M (list B) :=
    match l with
    | [] => mret []
    | x :: rest => y ← f x; ys ← collect f rest; mret (y :: ys)
    end.

Definition get_bundles (uuids : list Value) (text_search : string) : M (list Bundle.t) :=
    let query_params :=
      (if decide (uuids = []) then []
       else [("uuid", String.concat "," (py_str <$> uuids))])
      ++ (if decide (text_search = "") then [] else [("text_search", text_search)]) in
    let version_url := api_url ["bundles"] +:+ "?" +:+ urlencode query_params in
    response ← api_request "get" version_url None;
    match response with
    | RList items => collect _bundle_from_response items
    | _ => raise TypeError
    end.

Definition commit_draft (draft_uuid : Value) : M unit :=
    api_request "post" (api_url ["drafts"; py_str draft_uuid; "commit"]) None;;
    mret tt.

Definition delete_draft (draft_uuid : Value) : M unit :=
    api_request "delete" (api_url ["drafts"; py_str draft_uuid]) None;;
    mret tt.

Definition get_bundle_version (bundle_uuid : Value) (version_number : Z) : M Response :=
    if decide (version_number = 0) then mret RNone
    else
      let version_url :=
        api_url ["bundle_versions";
                 py_str bundle_uuid +:+ "," +:+ py_str (VInt version_number)] in
      api_request "get" version_url None.

Definition get_bundle_version_files (bundle_uuid : Value) (version_number : Z)
      : M (list BundleFile.t) :=
    if decide (version_number = 0) then mret []
    else
      version_info ← get_bundle_version bundle_uuid version_number;
      snapshot ← subscript_snapshot version_info;
      mret ((λ item,
               {| BundleFile.path := item.1;
                  BundleFile.size := FileMetadata.size item.2;
                  BundleFile.url := FileMetadata.url item.2;
                  BundleFile.hash_digest := FileMetadata.hash_digest item.2 |})
            <$> VersionInfo.files snapshot).

Definition get_bundle_version_links (bundle_uuid : Value) (version_number : Z)
      : M (gmap string LinkDetails.t) :=
    if decide (version_number = 0) then mret ∅
    else
      version_info ← get_bundle_version bundle_uuid version_number;
      snapshot ← subscript_snapshot version_info;
      mret (dict_of ((λ item,
               (item.1,
                {| LinkDetails.name := item.1;
                   LinkDetails.direct := LinkManifestEntry.direct item.2;
                   LinkDetails.indirect := LinkManifestEntry.indirect item.2 |}))
            <$> VersionInfo.links snapshot)).

Definition get_bundle_files_dict (bundle_uuid : Value) (use_draft : option string)
      : M (gmap string FileEntry) :=
    bundle ← get_bundle bundle_uuid;
    match selected_draft use_draft bundle with
    | Some draft_uuid =>
        draft ← get_draft (VUuid draft_uuid);
        mret (OfDraft <$> Draft.files draft)
    | None =>
        if decide (Bundle.latest_version bundle = 0) then mret ∅
        else
          version_files ← get_bundle_version_files bundle_uuid (Bundle.latest_version bundle);
          mret (dict_of ((λ file_meta, (BundleFile.path file_meta, OfVersion file_meta))
                           <$> version_files))
    end.

  (** [dict.values()], in the order the dict lists its items. *)
Definition get_bundle_files (bundle_uuid : Value) (use_draft : option string)
      : M (list FileEntry) :=
    files_dict ← get_bundle_files_dict bundle_uuid use_draft;
    mret ((map_to_list files_dict).*2).

Definition get_bundle_links (bundle_uuid : Value) (use_draft : option string)
      : M (gmap string LinkEntry) :=
    bundle ← get_bundle bundle_uuid;
    match selected_draft use_draft bundle with
    | Some draft_uuid =>
        draft ← get_draft (VUuid draft_uuid);
        mret (LinkOfDraft <$> Draft.links draft)
    | None =>
        if decide (Bundle.latest_version bundle = 0) then mret ∅
        else
          version_links ← get_bundle_version_links bundle_uuid (Bundle.latest_version bundle);
          mret (LinkOfVersion <$> version_links)
    end.

Definition get_bundle_file_metadata (bundle_uuid : Value) (path : string)
      (use_draft : option string) : M FileEntry :=
    assert_isinstance_UUID bundle_uuid;;
    files_dict ← get_bundle_files_dict bundle_uuid use_draft;
    match files_dict !! path with
    | Some file_meta => mret file_meta
    | None => raise BundleFileNotFound
    end.

Definition get_bundle_file_data (bundle_uuid : Value) (path : string)
      (use_draft : option string) : M bytes :=
    metadata ← get_bundle_file_metadata bundle_uuid path use_draft;
    requests_get match metadata with
                 | OfVersion f => BundleFile.url f
                 | OfDraft f => DraftFile.url f
                 end.

Definition set_draft_link (draft_uuid : Value) (link_name : string)
      (bundle_uuid : Value) (version : Z) : M unit :=
    api_request "patch" (api_url ["drafts"; py_str draft_uuid])
      (Some (LinksBody
         [(link_name,
           if decide (bundle_uuid = VNone) then None
           else Some (py_str bundle_uuid, version))]));;
    mret tt.

End Backend.

(** ** The operations of the module as one transition system *)

(** The final database of a call. *)
Definition exec {A} (m : M A) (st : DB) : DB := (m st).2.

(** The outcome of a call. *)
Definition outcome {A} (m : M A) (st : DB) : Result A := (m st).1.

Inductive Op :=
| OpGetCollection (collection_uuid : Value)
| OpCreateCollection (title : Value) (fresh : UUID)
| OpUpdateCollection (collection_uuid title : Value)
| OpDeleteCollection (collection_uuid : Value)
| OpGetBundles (uuids : list Value) (text_search : string)
| OpGetBundle (bundle_uuid : Value)
| OpCreateBundle (collection_uuid slug title description : Value) (fresh : UUID)
| OpUpdateBundle (bundle_uuid : Value) (fields : gmap string Value)
| OpDeleteBundle (bundle_uuid : Value)
| OpGetDraft (draft_uuid : Value)
| OpGetOrCreateBundleDraft (bundle_uuid : Value) (draft_name : string) (fresh : UUID)
| OpCommitDraft (draft_uuid : Value)
| OpDeleteDraft (draft_uuid : Value)
| OpGetBundleVersion (bundle_uuid : Value) (version_number : Z)
| OpGetBundleVersionFiles (bundle_uuid : Value) (version_number : Z)
| OpGetBundleVersionLinks (bundle_uuid : Value) (version_number : Z)
| OpGetBundleFilesDict (bundle_uuid : Value) (use_draft : option string)
| OpGetBundleFiles (bundle_uuid : Value) (use_draft : option string)
| OpGetBundleLinks (bundle_uuid : Value) (use_draft : option string)
| OpGetBundleFileMetadata (bundle_uuid : Value) (path : string) (use_draft : option string)
| OpGetBundleFileData (bundle_uuid : Value) (path : string) (use_draft : option string)
| OpWriteDraftFile (draft_uuid : UUID) (path : string) (contents : option PyData)
| OpSetDraftLink (draft_uuid : Value) (link_name : string) (bundle_uuid : Value) (version : Z)
| OpEncodeStrForDraft (input_str : PyData).

Section Step.

Variable content_digest : bytes → Digest.
Variable api_url : list string → string.
Variable api_request : string → string → option Body → M Response.
Variable _bundle_from_response : Response → M Bundle.t.
Variable urlencode : list (string * string) → string.
Variable requests_get : string → M bytes.

Definition step (op : Op) : DB → DB :=
  match op with
  | OpGetCollection u => exec (get_collection u)
  | OpCreateCollection t f => exec (create_collection t f)
  | OpUpdateCollection u t => exec (update_collection u t)
  | OpDeleteCollection u => exec (delete_collection u)
  | OpGetBundles us q =>
      exec (get_bundles api_url api_request _bundle_from_response urlencode us q)
  | OpGetBundle u => exec (get_bundle u)
  | OpCreateBundle c s t d f => exec (create_bundle c s t d f)
  | OpUpdateBundle u fs => exec (update_bundle u fs)
  | OpDeleteBundle u => exec (delete_bundle u)
  | OpGetDraft u => exec (get_draft u)
  | OpGetOrCreateBundleDraft u n f => exec (get_or_create_bundle_draft u n f)
  | OpCommitDraft u => exec (commit_draft api_url api_request u)
  | OpDeleteDraft u => exec (delete_draft api_url api_request u)
  | OpGetBundleVersion u n => exec (get_bundle_version api_url api_request u n)
  | OpGetBundleVersionFiles u n => exec (get_bundle_version_files api_url api_request u n)
  | OpGetBundleVersionLinks u n => exec (get_bundle_version_links api_url api_request u n)
  | OpGetBundleFilesDict u d => exec (get_bundle_files_dict api_url api_request u d)
  | OpGetBundleFiles u d => exec (get_bundle_files api_url api_request u d)
  | OpGetBundleLinks u d => exec (get_bundle_links api_url api_request u d)
  | OpGetBundleFileMetadata u p d =>
      exec (get_bundle_file_metadata api_url api_request u p d)
  | OpGetBundleFileData u p d =>
      exec (get_bundle_file_data api_url api_request requests_get u p d)
  | OpWriteDraftFile d p c => exec (write_draft_file content_digest d p c)
  | OpSetDraftLink d l b v => exec (set_draft_link api_url api_request d l b v)
  | OpEncodeStrForDraft s => exec (encode_str_for_draft s)
  end.

End Step.

(** ** Invariants of the tables *)

Definition draft_key (d : models.Draft.t) : Z * string :=
  (models.Draft.bundle d, models.Draft.name d).

(** [unique_together = ('bundle', 'name')] of migration 0002. *)
Definition unique_together (st : DB) : Prop := NoDup (draft_key <$> drafts st).

(** A draft of bundle row [b] named [n]. *)
Definition names_draft (b : models.Bundle.t) (n : string) (d : models.Draft.t) : Prop :=
  models.Draft.bundle d = models.Bundle.id b ∧ models.Draft.name d = n.

(** Version numbers start at 1. *)
Definition versions_from_one (st : DB) : Prop :=
  Forall (λ v, 1 ≤ models.BundleVersion.version_num v) (bundle_versions st).

(** The versions committed for bundle row [b]. *)
Definition versions_of (b : models.Bundle.t) (st : DB) : list models.BundleVersion.t :=
  filter (λ v, models.BundleVersion.bundle v = models.Bundle.id b) (bundle_versions st).

(** The bytes a [contents] argument stands for. *)
Definition raw_bytes (c : PyData) : option bytes :=
  match c with
  | Text t => utf8_encode t
  | Bytes b => Some b
  end.

(** The url [get_bundle_version] requests. *)
Definition version_url (api_url : list string → string) (bundle_uuid : Value) (n : Z)
    : string :=
  api_url ["bundle_versions"; py_str bundle_uuid +:+ "," +:+ py_str (VInt n)].

(** A call that keeps [unique_together]. *)
Definition preserves {A} (m : M A) : Prop :=
  ∀ st, unique_together st → unique_together (exec m st).

(** A call that keeps the property [Inv] of the database. *)
Definition keeps (Inv : DB → Prop) {A} (m : M A) : Prop :=
  ∀ st, Inv st → Inv (exec m st).

(** [unique=True] on the [uuid] field of a draft (migration 0002). *)
Definition draft_uuids_unique (st : DB) : Prop :=
  NoDup (models.Draft.uuid <$> drafts st).

(** ** The names [methods.py] leaves unbound *)

(** [methods.py] calls [api_url] and [api_request] but neither defines nor
    imports them.  As the file stands there is no such global, and a
    function that comes to one of these names raises [NameError] there.  No
    function writes anything before it comes to the first of them, so the
    error leaves the database as the call found it; the value of
    [unbound_api_url] is never used. *)
Definition unbound_api_url (parts : list string) : string := "".

Definition unbound_api_request (method url : string) (body : option Body) : M Response :=
  raise NameError.

(** ** A backend instance and a sample database *)

Definition store_api_url (parts : list string) : string :=
  "/api/v1/" +:+ String.concat "/" parts.

Definition version_row_url (st : DB) (v : models.BundleVersion.t) : option string :=
  match filter (λ b, models.Bundle.id b = models.BundleVersion.bundle v) (bundles st) with
  | b :: _ =>
      Some (version_url store_api_url (VUuid (models.Bundle.uuid b))
              (models.BundleVersion.version_num v))
  | [] => None
  end.

Definition version_info_of (v : models.BundleVersion.t) : VersionInfo.t :=
  {| VersionInfo.files :=
       (λ item, (item.1, {| FileMetadata.size := FileInfo.size item.2;
                            FileMetadata.url := item.1;
                            FileMetadata.hash_digest := FileInfo.hash_digest item.2 |}))
       <$> map_to_list (models.BundleVersion.files v);
     VersionInfo.links := map_to_list (models.BundleVersion.links v) |}.

(** Modelled from the spec: an instance of [api_request] that serves the
    read contract of the Snapshot Store from the database, [get_version]
    answering the stored version and failing with [VersionNotFound] for a
    version that was never committed.  It serves nothing else: every other
    request is answered [NotFound]. *)
Definition store_api_request (method url : string) (body : option Body) : M Response :=
  λ st,
    if decide (method = "get") then
      match filter (λ v, version_row_url st v = Some url) (bundle_versions st) with
      | v :: _ => (Ok (RVersionInfo (version_info_of v)), st)
      | [] => (Raise VersionNotFound, st)
      end
    else (Raise NotFound, st).

Definition store_bundle_from_response (r : Response) : M Bundle.t := raise TypeError.

Definition store_urlencode (query : list (string * string)) : string :=
  String.concat "&" ((λ kv, kv.1 +:+ "=" +:+ kv.2) <$> query).

Definition store_requests_get (url : string) : M bytes := raise NotFound.

(** A content digest for the examples: the content itself. *)
Definition plain_digest (raw : bytes) : Digest := raw.

Definition text_bytes (s : string) : bytes := list_byte_of_string s.

Definition sample_course : models.Bundle.t :=
  {| models.Bundle.id := 2; models.Bundle.uuid := 11%N;
     models.Bundle.title := VStr "Course"; models.Bundle.description := VStr "";
     models.Bundle.slug := VStr "course"; models.Bundle.collection := 1 |}.

Definition sample_draft : models.Draft.t :=
  {| models.Draft.id := 4; models.Draft.uuid := 12%N;
     models.Draft.name := "studio"; models.Draft.bundle := 2 |}.

Definition sample_staged : StagedState.t :=
  {| StagedState.base_version_num := 1;
     StagedState.staged_files := {[ "b.txt" := Write (text_bytes "bye") 3 ]};
     StagedState.staged_links :=
       {[ "lib" := SetLink {| LinkReference.bundle_uuid := 13%N;
                              LinkReference.version := 1 |} ]};
     StagedState.updated_at := 5%N |}.

(** One collection; the bundle [Course] with version 1 and the draft
    [studio], which stages a new file and a link to the bundle [Library];
    the bundle [Empty] without any version. *)
Definition sample_db : DB :=
  {| collections :=
       [ {| models.Collection.id := 1; models.Collection.uuid := 10%N;
            models.Collection.title := VStr "Courses" |} ];
     bundles :=
       [ sample_course;
         {| models.Bundle.id := 3; models.Bundle.uuid := 13%N;
            models.Bundle.title := VStr "Library"; models.Bundle.description := VStr "";
            models.Bundle.slug := VStr "library"; models.Bundle.collection := 1 |};
         {| models.Bundle.id := 6; models.Bundle.uuid := 14%N;
            models.Bundle.title := VStr "Empty"; models.Bundle.description := VStr "";
            models.Bundle.slug := VStr "empty"; models.Bundle.collection := 1 |} ];
     bundle_versions :=
       [ {| models.BundleVersion.bundle := 3; models.BundleVersion.version_num := 1;
            models.BundleVersion.files :=
              {[ "lib.txt" := {| FileInfo.hash_digest := text_bytes "L";
                                 FileInfo.size := 1 |} ]};
            models.BundleVersion.links := ∅ |};
         {| models.BundleVersion.bundle := 2; models.BundleVersion.version_num := 1;
            models.BundleVersion.files :=
              {[ "a.txt" := {| FileInfo.hash_digest := text_bytes "hello";
                               FileInfo.size := 5 |} ]};
            models.BundleVersion.links := ∅ |} ];
     drafts := [ sample_draft ];
     draft_repo := {[ 12%N := sample_staged ]};
     content_store := {[ text_bytes "bye" := text_bytes "bye" ]};
     next_id := 7;
     clock := 6%N |}.

(** * Properties *)

(** ** Lists and the monad *)

Lemma filter_empty_iff {A} (P : A → Prop) `{!∀ x, Decision (P x)} (l : list A) :
  filter P l = [] ↔ ∀ x, x ∈ l → ¬ P x.
Proof.
  split.
  - intros Hnil x Hin HP. by eapply filter_nil_not_elem_of.
  - induction l as [|y l IH]; intros Hall; [done|].
    rewrite filter_cons_False; [|apply Hall; left].
    apply IH. intros x Hx. apply Hall. by right.
Qed.

Lemma filter_head_elem {A} (P : A → Prop) `{!∀ x, Decision (P x)} (l : list A) x rest :
  filter P l = x :: rest → x ∈ l ∧ P x.
Proof.
  intros Hf. assert (Hin : x ∈ filter P l) by (rewrite Hf; left).
  apply list_elem_of_filter in Hin. tauto.
Qed.

(** Under a key without duplicates, the rows carrying one key are one row. *)
Lemma filter_unique_key {A K} `{EqDecision K} (key : A → K) (l : list A) (x : A) :
  NoDup (key <$> l) → x ∈ l → filter (λ y, key y = key x) l = [x].
Proof.
  induction l as [|y l IH]; intros Hnd Hin; [by apply elem_of_nil in Hin|].
  rewrite fmap_cons in Hnd. apply NoDup_cons in Hnd as [Hy Hnd].
  apply elem_of_cons in Hin as [->|Hin].
  - rewrite filter_cons_True by done. f_equal.
    apply filter_empty_iff. intros z Hz Heq. apply Hy.
    rewrite <- Heq. apply list_elem_of_fmap. eauto.
  - rewrite filter_cons_False; [by apply IH|].
    intros Heq. apply Hy. rewrite Heq. apply list_elem_of_fmap. eauto.
Qed.

Lemma objects_get_outcome {Row} (m : Model) (table : DB → list Row)
    (P : Row → Prop) `{!∀ r, Decision (P r)} (st : DB) :
  (objects_get m table P st).2 = st
  ∧ ((objects_get m table P st).1 = Raise (DoesNotExist m)
     ↔ ∀ r, r ∈ table st → ¬ P r)
  ∧ (∀ r, (objects_get m table P st).1 = Ok r → r ∈ table st ∧ P r)
  ∧ (∀ r, filter P (table st) = [r] → objects_get m table P st = (Ok r, st))
  ∧ (∀ e, (objects_get m table P st).1 = Raise e
          → e = DoesNotExist m ∨ e = MultipleObjectsReturned m).
Proof.
  unfold objects_get. rewrite <- filter_empty_iff.
  destruct (filter P (table st)) as [|r [|r' rest]] eqn:Hf; simpl; rewrite ?Hf.
  - split_and!; [done|done|done|done|]. intros e [= <-]. by left.
  - split_and!; [done|done| |by intros r0 [= <-]|done].
    intros r0 [= <-]. by apply (filter_head_elem P (table st) r []).
  - split_and!; [done|done|done|done|]. intros e [= <-]. by right.
Qed.

(** [try: Model.objects.get(...) except Model.DoesNotExist: h], by the
    rows that match. *)
Lemma get_or_else_eq {Row} (m : Model) (table : DB → list Row)
    (P : Row → Prop) `{!∀ r, Decision (P r)} (h : M Row) (st : DB) :
  try_except (objects_get m table P) (DoesNotExist m) h st =
  match filter P (table st) with
  | [] => h st
  | [r] => (Ok r, st)
  | _ => (Raise (MultipleObjectsReturned m), st)
  end.
Proof.
  unfold try_except, objects_get.
  destruct (filter P (table st)) as [|r [|r' rest]]; simpl; [|done|].
  - by rewrite decide_True.
  - done.
Qed.

Lemma exists_matching {Row} (t : list Row) (P : Row → Prop) :
  (∀ r, r ∈ t → ¬ P r) ↔ ¬ ∃ r, r ∈ t ∧ P r.
Proof.
  split.
  - intros Hall (r & Hin & HP). by apply (Hall r).
  - intros Hno r Hin HP. apply Hno. eauto.
Qed.

(** ** Reads leave the database alone *)

Lemma _data_from_bundle_total (b : models.Bundle.t) (st : DB) :
  ∃ data, _data_from_bundle b st = (Ok data, st)
          ∧ Bundle.uuid data = models.Bundle.uuid b
          ∧ Bundle.latest_version data =
              from_option models.BundleVersion.version_num 0
                (latest_of (versions_of b st))
          ∧ Bundle.drafts data =
              dict_of ((λ d, (models.Draft.name d, models.Draft.uuid d))
                         <$> Bundle_drafts_all b st).
Proof.
  eexists. split; [reflexivity|]. simpl. by split_and!.
Qed.

Lemma _data_from_draft_outcome (d : models.Draft.t) (st : DB) :
  (_data_from_draft d st).2 = st
  ∧ (∀ e, (_data_from_draft d st).1 = Raise e
          → e = DoesNotExist MBundle ∨ e = NotFound)
  ∧ (∀ data, (_data_from_draft d st).1 = Ok data
          → Draft.uuid data = models.Draft.uuid d
            ∧ Draft.name data = models.Draft.name d
            ∧ Draft.links data = ∅).
Proof.
  unfold _data_from_draft, Draft_bundle, Draft_staged_draft. run_monad.
  destruct (filter _ (bundles st)) as [|b rest]; simpl.
  { split_and!; [done| |done]. intros e [= <-]. by left. }
  destruct (draft_repo st !! models.Draft.uuid d) as [s|]; simpl.
  - split_and!; [done|done|]. by intros data [= <-].
  - split_and!; [done| |done]. intros e [= <-]. by right.
Qed.

Lemma get_bundle_of_row (u : UUID) (row : models.Bundle.t) (st : DB) :
  filter (λ r, models.Bundle.uuid r = u) (bundles st) = [row] →
  get_bundle (VUuid u) st = _data_from_bundle row st.
Proof.
  intros Hrow. unfold get_bundle, Bundle_objects_get. simpl. run_bind.
  by rewrite get_or_else_eq, Hrow.
Qed.

(** C5.  For every uuid, [get_collection], [get_bundle] and [get_draft]
    raise their own not-found error exactly when no row carries that uuid,
    and they never change the database.  A value they return is the
    metadata of a row carrying the uuid, field by field: the uuid and title
    of the collection; the uuid, title, description and slug of the bundle
    with the names and uuids of its drafts and the number of its latest
    version; the uuid and name of the draft with the uuid of its bundle,
    the time and the effective files of its staged state, and no links.
    When one row carries the uuid, that value is returned. *)
Theorem get_raises_not_found_iff_absent (u : UUID) (st : DB) :
  ((outcome (get_collection (VUuid u)) st = Raise CollectionNotFound
      ↔ ¬ ∃ r, r ∈ collections st ∧ models.Collection.uuid r = u)
   ∧ exec (get_collection (VUuid u)) st = st
   ∧ (∀ c, outcome (get_collection (VUuid u)) st = Ok c →
        ∃ r, r ∈ collections st ∧ models.Collection.uuid r = u
             ∧ c = {| Collection.uuid := u;
                      Collection.title := models.Collection.title r |})
   ∧ (∀ r, filter (λ r, models.Collection.uuid r = u) (collections st) = [r] →
        get_collection (VUuid u) st
        = (Ok {| Collection.uuid := u;
                 Collection.title := models.Collection.title r |}, st)))
  ∧ ((outcome (get_bundle (VUuid u)) st = Raise BundleNotFound
      ↔ ¬ ∃ r, r ∈ bundles st ∧ models.Bundle.uuid r = u)
   ∧ exec (get_bundle (VUuid u)) st = st
   ∧ (∀ b, outcome (get_bundle (VUuid u)) st = Ok b →
        ∃ r, r ∈ bundles st ∧ models.Bundle.uuid r = u
             ∧ b = {| Bundle.uuid := u;
                      Bundle.title := models.Bundle.title r;
                      Bundle.description := models.Bundle.description r;
                      Bundle.slug := models.Bundle.slug r;
                      Bundle.drafts :=
                        dict_of ((λ d, (models.Draft.name d, models.Draft.uuid d))
                                   <$> filter (λ d, models.Draft.bundle d
                                                    = models.Bundle.id r) (drafts st));
                      Bundle.latest_version :=
                        from_option models.BundleVersion.version_num 0
                          (latest_of (versions_of r st)) |})
   ∧ (∀ r, filter (λ r, models.Bundle.uuid r = u) (bundles st) = [r] →
        get_bundle (VUuid u) st
        = (Ok {| Bundle.uuid := u;
                 Bundle.title := models.Bundle.title r;
                 Bundle.description := models.Bundle.description r;
                 Bundle.slug := models.Bundle.slug r;
                 Bundle.drafts :=
                   dict_of ((λ d, (models.Draft.name d, models.Draft.uuid d))
                              <$> filter (λ d, models.Draft.bundle d
                                               = models.Bundle.id r) (drafts st));
                 Bundle.latest_version :=
                   from_option models.BundleVersion.version_num 0
                     (latest_of (versions_of r st)) |}, st)))
  ∧ ((outcome (get_draft (VUuid u)) st = Raise DraftNotFound
      ↔ ¬ ∃ r, r ∈ drafts st ∧ models.Draft.uuid r = u)
   ∧ exec (get_draft (VUuid u)) st = st
   ∧ (∀ d, outcome (get_draft (VUuid u)) st = Ok d →
        ∃ r b s,
          r ∈ drafts st ∧ models.Draft.uuid r = u
          ∧ b ∈ bundles st ∧ models.Bundle.id b = models.Draft.bundle r
          ∧ draft_repo st !! u = Some s
          ∧ Draft.uuid d = u
          ∧ Draft.bundle_uuid d = models.Bundle.uuid b
          ∧ Draft.name d = models.Draft.name r
          ∧ Draft.updated_at d = StagedState.updated_at s
          ∧ Draft.links d = ∅
          ∧ ∀ path,
              Draft.files d !! path
              = (λ file_info,
                   {| DraftFile.path := path;
                      DraftFile.size := FileInfo.size file_info;
                      DraftFile.url := path;
                      DraftFile.hash_digest := FileInfo.hash_digest file_info;
                      DraftFile.modified :=
                        bool_decide (is_Some (StagedState.staged_files s !! path)) |})
                <$> overlay_files
                      (from_option models.BundleVersion.files ∅
                         (snapshot_of (models.Draft.bundle r)
                            (StagedState.base_version_num s) st))
                      (StagedState.staged_files s) !! path)
   ∧ (∀ r b s,
        filter (λ r, models.Draft.uuid r = u) (drafts st) = [r] →
        b ∈ bundles st → models.Bundle.id b = models.Draft.bundle r →
        draft_repo st !! u = Some s →
        ∃ d, get_draft (VUuid u) st = (Ok d, st))).
Proof.
  unfold outcome, exec, get_collection, get_bundle, get_draft,
    Collection_objects_get, Bundle_objects_get, Draft_objects_get.
  simpl. run_bind. rewrite !get_or_else_eq.
  split_and!.
  - destruct (filter _ (collections st)) as [|r [|r' rest]] eqn:Hf; simpl.
    + split; [intros _|done]. apply exists_matching.
      exact (proj1 (filter_empty_iff _ _) Hf).
    + split; [done|]. intros []. apply filter_head_elem in Hf. eauto.
    + split; [done|]. intros []. apply filter_head_elem in Hf. eauto.
  - by destruct (filter _ (collections st)) as [|r [|r' rest]].
  - intros c. destruct (filter _ (collections st)) as [|r [|r' rest]] eqn:Hf;
      simpl; [done| |done].
    intros [= <-]. apply filter_head_elem in Hf as [Hin Hu]. exists r.
    split_and!; [done|done|]. unfold _data_from_collection. by rewrite Hu.
  - intros r Hf. rewrite Hf. apply filter_head_elem in Hf as [_ Hu].
    unfold _data_from_collection. by rewrite Hu.
  - destruct (filter _ (bundles st)) as [|r [|r' rest]] eqn:Hf; simpl.
    + split; [intros _|done]. apply exists_matching.
      exact (proj1 (filter_empty_iff _ _) Hf).
    + split; [done|]. intros []. apply filter_head_elem in Hf. eauto.
    + split; [done|]. intros []. apply filter_head_elem in Hf. eauto.
  - by destruct (filter _ (bundles st)) as [|r [|r' rest]].
  - intros b. destruct (filter _ (bundles st)) as [|r [|r' rest]] eqn:Hf;
      simpl; [done| |done].
    intros [= <-]. apply filter_head_elem in Hf as [Hin Hu]. exists r.
    split_and!; [done|done|]. by rewrite Hu.
  - intros r Hf. rewrite Hf. apply filter_head_elem in Hf as [_ Hu]. subst u.
    reflexivity.
  - destruct (filter _ (drafts st)) as [|r [|r' rest]] eqn:Hf; simpl.
    + split; [intros _|done]. apply exists_matching.
      exact (proj1 (filter_empty_iff _ _) Hf).
    + split.
      * intros Hr. destruct (_data_from_draft_outcome r st) as (_ & Herr & _).
        by destruct (Herr _ Hr).
      * intros []. apply filter_head_elem in Hf. eauto.
    + split; [done|]. intros []. apply filter_head_elem in Hf. eauto.
  - destruct (filter _ (drafts st)) as [|r [|r' rest]]; [done| |done].
    apply _data_from_draft_outcome.
  - intros d. destruct (filter _ (drafts st)) as [|r [|r' rest]] eqn:Hf;
      simpl; [done| |done].
    apply filter_head_elem in Hf as [Hin Hu].
    unfold _data_from_draft, Draft_bundle, Draft_staged_draft. run_monad.
    destruct (filter (λ b, models.Bundle.id b = models.Draft.bundle r) (bundles st))
      as [|b rest] eqn:Hb; [done|].
    apply filter_head_elem in Hb as [Hbin Hbid]. cbv beta iota.
    rewrite Hu. destruct (draft_repo st !! u) as [s|] eqn:Hs; [|done].
    simpl. intros [= <-]. exists r, b, s. simpl.
    split_and!; try done.
    intros path. rewrite map_lookup_imap.
    by destruct (overlay_files _ _ !! path).
  - intros r b s Hf Hbin Hbid Hs. rewrite Hf.
    apply filter_head_elem in Hf as [_ Hu].
    unfold _data_from_draft, Draft_bundle, Draft_staged_draft. run_monad.
    destruct (filter (λ b, models.Bundle.id b = models.Draft.bundle r) (bundles st))
      as [|b0 rest] eqn:Hb.
    { apply (proj1 (filter_empty_iff _ _)) with (x := b) in Hb; done. }
    cbv beta iota. rewrite Hu, Hs. by eexists.
Qed.

(** ** The latest version of a bundle *)

Lemma latest_of_from (vs : list models.BundleVersion.t) (a : models.BundleVersion.t) :
  ∃ m, foldl (λ acc v,
           match acc with
           | None => Some v
           | Some a =>
               if models.BundleVersion.version_num a <? models.BundleVersion.version_num v
               then Some v else Some a
           end) (Some a) vs = Some m
       ∧ (m = a ∨ m ∈ vs)
       ∧ models.BundleVersion.version_num a ≤ models.BundleVersion.version_num m
       ∧ ∀ w, w ∈ vs →
           models.BundleVersion.version_num w ≤ models.BundleVersion.version_num m.
Proof.
  revert a. induction vs as [|v vs IH]; intros a; simpl.
  - exists a. split_and!; [done|by left|lia|]. intros w Hw. by apply elem_of_nil in Hw.
  - destruct (Z.ltb_spec (models.BundleVersion.version_num a)
                (models.BundleVersion.version_num v)) as [Hlt|Hge].
    + destruct (IH v) as (m & Hm & Hin & Hle & Hall). exists m.
      split_and!; [done| |lia|].
      * right. destruct Hin as [->|Hin]; [left|by right].
      * intros w [->|Hw]%elem_of_cons; [done|by apply Hall].
    + destruct (IH a) as (m & Hm & Hin & Hle & Hall). exists m.
      split_and!; [done| |lia|].
      * destruct Hin as [->|Hin]; [by left|right; by right].
      * intros w [->|Hw]%elem_of_cons; [lia|by apply Hall].
Qed.

Lemma latest_of_None (vs : list models.BundleVersion.t) :
  latest_of vs = None ↔ vs = [].
Proof.
  destruct vs as [|v vs]; [done|]. unfold latest_of. simpl.
  destruct (latest_of_from vs v) as (m & -> & _). done.
Qed.

Lemma latest_of_Some (vs : list models.BundleVersion.t) (m : models.BundleVersion.t) :
  latest_of vs = Some m →
  m ∈ vs ∧ ∀ w, w ∈ vs →
    models.BundleVersion.version_num w ≤ models.BundleVersion.version_num m.
Proof.
  destruct vs as [|v vs]; [done|]. unfold latest_of. simpl.
  destruct (latest_of_from vs v) as (m' & -> & Hin & Hle & Hall). intros [= ->].
  split.
  - destruct Hin as [->|Hin]; [left|by right].
  - intros w [->|Hw]%elem_of_cons; [done|by apply Hall].
Qed.

(** C8.  [get_bundle] reports [latest_version] 0 exactly when the bundle has
    no committed version, and the number of the latest committed version
    when there is one. *)
Theorem latest_version_zero_iff_no_version
    (u : UUID) (row : models.Bundle.t) (st : DB) :
  filter (λ r, models.Bundle.uuid r = u) (bundles st) = [row] →
  versions_from_one st →
  ∃ b, get_bundle (VUuid u) st = (Ok b, st)
       ∧ (Bundle.latest_version b = 0 ↔ versions_of row st = [])
       ∧ (∀ v, v ∈ versions_of row st →
            (∀ w, w ∈ versions_of row st →
               models.BundleVersion.version_num w ≤ models.BundleVersion.version_num v) →
            Bundle.latest_version b = models.BundleVersion.version_num v).
Proof.
  intros Hrow Hone.
  destruct (_data_from_bundle_total row st) as (b & Hb & _ & Hlatest & _).
  exists b. split; [by rewrite (get_bundle_of_row u row)|]. rewrite Hlatest.
  destruct (latest_of (versions_of row st)) as [m|] eqn:Hm; simpl.
  - apply latest_of_Some in Hm as [Hin Hmax]. split.
    + split.
      * intros Hzero. unfold versions_of in Hin.
        apply list_elem_of_filter in Hin as [_ Hin].
        unfold versions_from_one in Hone. rewrite Forall_forall in Hone.
        apply Hone in Hin. lia.
      * intros Hnil. rewrite Hnil in Hin. by apply elem_of_nil in Hin.
    + intros v Hv Hvmax. apply Hmax in Hv. specialize (Hvmax m Hin). lia.
  - apply latest_of_None in Hm. split; [done|].
    intros v Hv. rewrite Hm in Hv. by apply elem_of_nil in Hv.
Qed.

(** ** The file view of a draft *)

Lemma overlay_files_lookup (base : gmap string FileInfo.t) (diff : gmap string FileDiff)
    (path : string) :
  overlay_files base diff !! path = apply_file_diff (base !! path) (diff !! path).
Proof.
  unfold overlay_files. rewrite lookup_merge.
  by destruct (base !! path), (diff !! path).
Qed.

(** C3.  In the files of a draft as [_data_from_draft] returns them, an
    entry is flagged [modified] exactly when its path has a staged diff
    entry; a path carried over from the base snapshot is not flagged and
    keeps the snapshot's digest and size. *)
Theorem modified_iff_staged
    (drow : models.Draft.t) (brow : models.Bundle.t) (s : StagedState.t) (st : DB) :
  Draft_bundle drow st = (Ok brow, st) →
  draft_repo st !! models.Draft.uuid drow = Some s →
  let base := from_option models.BundleVersion.files ∅
                (snapshot_of (models.Draft.bundle drow)
                   (StagedState.base_version_num s) st) in
  ∃ d, _data_from_draft drow st = (Ok d, st)
       ∧ (∀ path, is_Some (Draft.files d !! path)
                  ↔ is_Some (overlay_files base (StagedState.staged_files s) !! path))
       ∧ ∀ path e, Draft.files d !! path = Some e →
           (DraftFile.modified e = true ↔ is_Some (StagedState.staged_files s !! path))
           ∧ (StagedState.staged_files s !! path = None →
                DraftFile.modified e = false
                ∧ ∃ fi, base !! path = Some fi
                        ∧ DraftFile.hash_digest e = FileInfo.hash_digest fi
                        ∧ DraftFile.size e = FileInfo.size fi).
Proof.
  intros Hb Hs base. unfold _data_from_draft, Draft_staged_draft. run_monad.
  rewrite Hb, Hs. eexists. split; [reflexivity|]. simpl. fold base. split.
  - intros path. rewrite map_lookup_imap.
    destruct (overlay_files base (StagedState.staged_files s) !! path); simpl.
    + split; intros _; by eexists.
    + split; by intros [? [=]].
  - intros path e. rewrite map_lookup_imap.
    destruct (overlay_files base (StagedState.staged_files s) !! path) as [fi|] eqn:Hfi;
      simpl; [|done].
    intros [= <-]. simpl. split.
    + rewrite bool_decide_eq_true. done.
    + intros Hnone. split; [by rewrite Hnone|].
      rewrite overlay_files_lookup, Hnone in Hfi. simpl in Hfi. eauto.
Qed.

(** ** Getting or creating a draft *)

Lemma names_draft_filter (st : DB) (b : models.Bundle.t) (n : string) (d : models.Draft.t) :
  unique_together st → d ∈ drafts st → names_draft b n d →
  filter (λ r, models.Draft.bundle r = models.Bundle.id b ∧ models.Draft.name r = n)
    (drafts st) = [d].
Proof.
  intros Huniq Hin [Hb Hn].
  rewrite <- (filter_unique_key draft_key (drafts st) d Huniq Hin).
  apply list_filter_iff. intros r. unfold draft_key. rewrite <- Hb, <- Hn.
  split; [by intros [-> ->]|by intros [= -> ->]].
Qed.

Lemma get_or_create_of_row (u : UUID) (b : models.Bundle.t) (n : string)
    (fresh : UUID) (st : DB) :
  filter (λ r, models.Bundle.uuid r = u) (bundles st) = [b] →
  get_or_create_bundle_draft (VUuid u) n fresh st =
  match filter (λ r, models.Draft.bundle r = models.Bundle.id b ∧ models.Draft.name r = n)
          (drafts st) with
  | [] => match Draft_save_new b n fresh st with
          | (Ok d, st') => _data_from_draft d st'
          | (Raise e, st') => (Raise e, st')
          end
  | [d] => _data_from_draft d st
  | _ => (Raise (MultipleObjectsReturned MDraft), st)
  end.
Proof.
  intros Hrow.
  unfold get_or_create_bundle_draft, Bundle_objects_get, Draft_objects_get_by_name.
  simpl. run_bind. rewrite get_or_else_eq, Hrow, get_or_else_eq.
  by destruct (filter _ (drafts st)) as [|d [|d' rest]].
Qed.

Lemma Draft_save_new_ok (b : models.Bundle.t) (n : string) (fresh : UUID) (st : DB) :
  (¬ ∃ d, d ∈ drafts st ∧ models.Draft.uuid d = fresh) →
  (¬ ∃ d, d ∈ drafts st ∧ names_draft b n d) →
  let new := {| models.Draft.id := next_id st; models.Draft.uuid := fresh;
                models.Draft.name := n; models.Draft.bundle := models.Bundle.id b |} in
  ∃ st1, Draft_save_new b n fresh st = (Ok new, st1)
         ∧ drafts st1 = drafts st ++ [new]
         ∧ bundles st1 = bundles st
         ∧ is_Some (draft_repo st1 !! fresh).
Proof.
  intros Hfresh Hname new. unfold Draft_save_new.
  rewrite decide_False.
  - eexists. split; [reflexivity|]. simpl. split_and!; [done|done|].
    rewrite lookup_insert_eq. by eexists.
  - rewrite Exists_exists. intros (d & Hin & [Hu|Hn]).
    + apply Hfresh. eauto.
    + apply Hname. exists d. by split.
Qed.

(** C1.  [get_or_create_bundle_draft] on an existing bundle: a draft of
    that name, when there is one, is returned as it stands and nothing is
    written; otherwise exactly one draft row of that name is added for the
    bundle and returned; and a second call with the same bundle and name
    returns what the first returned, creating nothing. *)
Theorem get_or_create_bundle_draft_idempotent
    (u : UUID) (b : models.Bundle.t) (n : string) (fresh : UUID) (st : DB) :
  filter (λ r, models.Bundle.uuid r = u) (bundles st) = [b] →
  unique_together st →
  (¬ ∃ d, d ∈ drafts st ∧ models.Draft.uuid d = fresh) →
  let first := get_or_create_bundle_draft (VUuid u) n fresh st in
  (∀ d, d ∈ drafts st → names_draft b n d →
     first = _data_from_draft d st ∧ first.2 = st
     ∧ ∀ data, first.1 = Ok data → Draft.uuid data = models.Draft.uuid d)
  ∧ ((¬ ∃ d, d ∈ drafts st ∧ names_draft b n d) →
     let new := {| models.Draft.id := next_id st; models.Draft.uuid := fresh;
                   models.Draft.name := n; models.Draft.bundle := models.Bundle.id b |} in
     ∃ data, first.1 = Ok data
             ∧ Draft.uuid data = fresh ∧ Draft.name data = n
             ∧ drafts first.2 = drafts st ++ [new])
  ∧ ∀ fresh2, get_or_create_bundle_draft (VUuid u) n fresh2 first.2 = first.
Proof.
  intros Hrow Huniq Hfresh first.
  assert (Hfirst := get_or_create_of_row u b n fresh st Hrow). fold first in Hfirst.
  assert (Hexisting : ∀ d, d ∈ drafts st → names_draft b n d →
            first = _data_from_draft d st ∧ first.2 = st).
  { intros d Hin Hn. rewrite Hfirst, (names_draft_filter st b n d) by done.
    split; [done|]. apply _data_from_draft_outcome. }
  destruct (decide (Exists (names_draft b n) (drafts st))) as [Hex|Hnone].
  - apply Exists_exists in Hex as (d & Hin & Hn).
    destruct (Hexisting d Hin Hn) as [Heq Hst]. split_and!.
    + intros d' Hin' Hn'. destruct (Hexisting d' Hin' Hn') as [Heq' _].
      split_and!; [done|done|]. intros data Hdata. rewrite Heq' in Hdata.
      by apply _data_from_draft_outcome in Hdata as [-> _].
    + intros []. eauto.
    + intros fresh2. rewrite Hst.
      rewrite (get_or_create_of_row u b n fresh2 st Hrow),
        (names_draft_filter st b n d) by done. done.
  - rewrite Exists_exists in Hnone.
    destruct (Draft_save_new_ok b n fresh st Hfresh Hnone) as (st1 & Hsave & Hd & Hb & Hrepo).
    assert (Hnil : filter (λ r, models.Draft.bundle r = models.Bundle.id b
                               ∧ models.Draft.name r = n) (drafts st) = []).
    { apply filter_empty_iff. intros d Hin Hn. apply Hnone. eauto. }
    rewrite Hnil, Hsave in Hfirst.
    set (new := {| models.Draft.id := next_id st; models.Draft.uuid := fresh;
                   models.Draft.name := n; models.Draft.bundle := models.Bundle.id b |}) in *.
    destruct (_data_from_draft_outcome new st1) as (Hst1 & _ & Hok).
    assert (Hdata : ∃ data, _data_from_draft new st1 = (Ok data, st1)).
    { unfold _data_from_draft, Draft_bundle, Draft_staged_draft. run_monad.
      rewrite Hb. simpl.
      match goal with
      | |- context [filter ?P (bundles st)] =>
          assert (Hbin : b ∈ filter P (bundles st));
          [|destruct (filter P (bundles st)) as [|b0 rest] eqn:Hfb]
      end.
      { apply list_elem_of_filter. split; [done|].
        apply (filter_head_elem _ _ _ _ Hrow). }
      { by apply elem_of_nil in Hbin. }
      destruct Hrepo as [s Hs]. rewrite Hs. by eexists. }
    destruct Hdata as [data Hdata]. rewrite Hdata in Hfirst. split_and!.
    + intros d Hin Hn. destruct Hnone. eauto.
    + intros _. exists data. rewrite Hfirst. simpl.
      assert (Hd1 : (_data_from_draft new st1).1 = Ok data) by by rewrite Hdata.
      apply Hok in Hd1 as (-> & -> & _). done.
    + intros fresh2. rewrite Hfirst. simpl.
      rewrite (get_or_create_of_row u b n fresh2 st1) by by rewrite Hb.
      rewrite Hd, filter_app, Hnil. simpl.
      rewrite filter_cons_True by done. by rewrite filter_nil.
Qed.

(** ** Draft names stay unique within a bundle *)


Lemma NoDup_fmap_filter {A K} (key : A → K) (P : A → Prop) `{!∀ x, Decision (P x)}
    (l : list A) :
  NoDup (key <$> l) → NoDup (key <$> filter P l).
Proof.
  induction l as [|x l IH]; [done|].
  rewrite fmap_cons, NoDup_cons. intros [Hx Hnd].
  rewrite filter_cons. case_decide; [|by apply IH].
  rewrite fmap_cons, NoDup_cons. split; [|by apply IH].
  intros (y & Hy & Hin)%list_elem_of_fmap. apply Hx.
  apply list_elem_of_fmap. exists y. split; [done|].
  by apply list_elem_of_filter in Hin as [_ ?].
Qed.














Lemma preserves_Draft_save_new (b : models.Bundle.t) (n : string) (fresh : UUID) :
  preserves (Draft_save_new b n fresh).
Proof.
  intros st Hst. unfold exec, Draft_save_new. case_decide as Hex; [done|].
  unfold unique_together in *. simpl. rewrite fmap_app. apply NoDup_app.
  split_and!; [done| |apply NoDup_singleton].
  intros k (d & -> & Hin)%list_elem_of_fmap Hk. apply Hex, Exists_exists.
  exists d. split; [done|]. right.
  apply list_elem_of_singleton in Hk. by injection Hk.
Qed.







Section Invariant.

Variable content_digest : bytes → Digest.
Variable api_url : list string → string.
Variable api_request : string → string → option Body → M Response.
Variable _bundle_from_response : Response → M Bundle.t.
Variable urlencode : list (string * string) → string.
Variable requests_get : string → M bytes.

(** What is asked of the parts that live outside [methods.py]. *)
Hypothesis api_request_preserves : ∀ method url body, preserves (api_request method url body).
Hypothesis bundle_from_response_preserves : ∀ r, preserves (_bundle_from_response r).
Hypothesis requests_get_preserves : ∀ url, preserves (requests_get url).



End Invariant.

(** ** Base64 transport is lossless *)

Lemma byte_of_to_N (b : Byte.byte) : byte_of (Byte.to_N b) = b.
Proof. unfold byte_of. by rewrite Byte.of_to_N. Qed.

Lemma to_N_bound (b : Byte.byte) : (Byte.to_N b < 256)%N.
Proof. pose proof (Byte.to_N_bounded b). lia. Qed.

Lemma b64_index_char (s : N) :
  (s < 64)%N → b64_index (b64_char s) = Some s ∧ b64_char s ≠ b64_pad.
Proof.
  intros Hs. assert (Hn : (N.to_nat s < 64)%nat) by lia.
  rewrite <- (N2Nat.id s). revert Hn. generalize (N.to_nat s). intros n Hn.
  do 64 (destruct n as [|n]; [split; [reflexivity|discriminate]|]). lia.
Qed.

Lemma list_ind_by_three {A} (P : list A → Prop) :
  P [] → (∀ a, P [a]) → (∀ a b, P [a; b]) →
  (∀ a b c l, P l → P (a :: b :: c :: l)) →
  ∀ l, P l.
Proof.
  intros H0 H1 H2 H3 l.
  assert (H : P l ∧ (∀ a, P (a :: l)) ∧ (∀ a b, P (a :: b :: l))).
  { induction l as [|x l (IH0 & IH1 & IH2)]; [by split_and!|].
    split_and!; [by apply IH1|by intros; apply IH2|by intros; apply H3]. }
  apply H.
Qed.

Ltac euclid := zify; Z.to_euclidean_division_equations; lia.

Lemma b64_group3 (a b c : Byte.byte) :
  let n := (Byte.to_N a * 65536 + Byte.to_N b * 256 + Byte.to_N c)%N in
  let s1 := (n / 262144)%N in let s2 := (n / 4096 mod 64)%N in
  let s3 := (n / 64 mod 64)%N in let s4 := (n mod 64)%N in
  (s1 < 64 ∧ s2 < 64 ∧ s3 < 64 ∧ s4 < 64)%N
  ∧ byte_of (s1 * 4 + s2 / 16)%N = a
  ∧ byte_of (s2 mod 16 * 16 + s3 / 4)%N = b
  ∧ byte_of (s3 mod 4 * 64 + s4)%N = c.
Proof.
  intros n s1 s2 s3 s4.
  pose proof (to_N_bound a). pose proof (to_N_bound b). pose proof (to_N_bound c).
  split_and!; try (subst s1 s2 s3 s4 n; euclid).
  - transitivity (byte_of (Byte.to_N a)); [|apply byte_of_to_N].
    f_equal. subst s1 s2 s3 s4 n. euclid.
  - transitivity (byte_of (Byte.to_N b)); [|apply byte_of_to_N].
    f_equal. subst s1 s2 s3 s4 n. euclid.
  - transitivity (byte_of (Byte.to_N c)); [|apply byte_of_to_N].
    f_equal. subst s1 s2 s3 s4 n. euclid.
Qed.

Lemma b64_group2 (a b : Byte.byte) :
  let n := (Byte.to_N a * 256 + Byte.to_N b)%N in
  let s1 := (n / 1024)%N in let s2 := (n / 16 mod 64)%N in
  let s3 := (n mod 16 * 4)%N in
  (s1 < 64 ∧ s2 < 64 ∧ s3 < 64)%N
  ∧ byte_of (s1 * 4 + s2 / 16)%N = a
  ∧ byte_of (s2 mod 16 * 16 + s3 / 4)%N = b.
Proof.
  intros n s1 s2 s3.
  pose proof (to_N_bound a). pose proof (to_N_bound b).
  split_and!; try (subst s1 s2 s3 n; euclid).
  - transitivity (byte_of (Byte.to_N a)); [|apply byte_of_to_N].
    f_equal. subst s1 s2 s3 n. euclid.
  - transitivity (byte_of (Byte.to_N b)); [|apply byte_of_to_N].
    f_equal. subst s1 s2 s3 n. euclid.
Qed.

Lemma b64_group1 (a : Byte.byte) :
  let n := Byte.to_N a in
  let s1 := (n / 4)%N in let s2 := (n mod 4 * 16)%N in
  (s1 < 64 ∧ s2 < 64)%N ∧ byte_of (s1 * 4 + s2 / 16)%N = a.
Proof.
  intros n s1 s2. pose proof (to_N_bound a).
  split_and!; try (subst s1 s2 n; euclid).
  transitivity (byte_of (Byte.to_N a)); [|apply byte_of_to_N].
  f_equal. subst s1 s2 n. euclid.
Qed.

(** Decoding what [b64encode] produced gives the bytes back. *)
Lemma b64decode_b64encode (bs : bytes) : b64decode (b64encode bs) = Some bs.
Proof.
  induction bs as [|a|a b|a b c rest IH] using list_ind_by_three.
  - done.
  - destruct (b64_group1 a) as ((H1 & H2) & Ha).
    apply b64_index_char in H1 as [I1 _]. apply b64_index_char in H2 as [I2 _].
    cbn [b64encode b64decode]. rewrite !decide_True by done.
    rewrite I1, I2. simpl. by rewrite Ha.
  - destruct (b64_group2 a b) as ((H1 & H2 & H3) & Ha & Hb).
    apply b64_index_char in H1 as [I1 _]. apply b64_index_char in H2 as [I2 _].
    apply b64_index_char in H3 as [I3 P3].
    cbn [b64encode b64decode]. rewrite decide_True by done.
    rewrite (decide_False _ _ P3). rewrite I1, I2, I3. simpl. by rewrite Ha, Hb.
  - destruct (b64_group3 a b c) as ((H1 & H2 & H3 & H4) & Ha & Hb & Hc).
    apply b64_index_char in H1 as [I1 _]. apply b64_index_char in H2 as [I2 _].
    apply b64_index_char in H3 as [I3 _]. apply b64_index_char in H4 as [I4 P4].
    cbn [b64encode b64decode]. rewrite (decide_False _ _ P4).
    rewrite I1, I2, I3, I4, IH. simpl. by rewrite Ha, Hb, Hc.
Qed.

(** ** Writing a file into a draft *)

Lemma encode_str_for_draft_raw (c : PyData) (raw : bytes) (st : DB) :
  raw_bytes c = Some raw → encode_str_for_draft c st = (Ok (b64encode raw), st).
Proof.
  intros Hraw. unfold encode_str_for_draft. run_bind.
  destruct c as [t|b]; simpl in Hraw; [by rewrite Hraw|by injection Hraw as ->].
Qed.

(** C7.  On a draft the repository knows, [write_draft_file] with contents
    stages a [Write] of their digest and size for the path and keeps the
    raw bytes in the content store, the bytes travelling Base64-encoded; with
    [None] it stages a [Delete] of the path.  Either way the staged files
    change at that path only, and staged links and other drafts stay as
    they were. *)
Theorem write_draft_file_stages
    (content_digest : bytes → Digest) (d : UUID) (s : StagedState.t)
    (path : string) (st : DB) :
  draft_repo st !! d = Some s →
  (∀ c raw, raw_bytes c = Some raw →
     encode_str_for_draft c st = (Ok (b64encode raw), st)
     ∧ b64decode (b64encode raw) = Some raw
     ∧ ∃ st' s', write_draft_file content_digest d path (Some c) st = (Ok tt, st')
         ∧ content_store st' = <[content_digest raw := raw]> (content_store st)
         ∧ draft_repo st' = <[d := s']> (draft_repo st)
         ∧ StagedState.staged_files s' =
             <[path := Write (content_digest raw) (Z.of_nat (length raw))]>
               (StagedState.staged_files s)
         ∧ StagedState.staged_links s' = StagedState.staged_links s
         ∧ StagedState.base_version_num s' = StagedState.base_version_num s)
  ∧ (∃ st' s', write_draft_file content_digest d path None st = (Ok tt, st')
         ∧ content_store st' = content_store st
         ∧ draft_repo st' = <[d := s']> (draft_repo st)
         ∧ StagedState.staged_files s' = <[path := Delete]> (StagedState.staged_files s)
         ∧ StagedState.staged_links s' = StagedState.staged_links s
         ∧ StagedState.base_version_num s' = StagedState.base_version_num s).
Proof.
  intros Hs. split.
  - intros c raw Hraw. split; [by apply encode_str_for_draft_raw|].
    split; [apply b64decode_b64encode|].
    unfold write_draft_file. run_bind.
    rewrite (encode_str_for_draft_raw c raw st Hraw).
    unfold DraftFileUpdateSerializer_validated_data. simpl.
    rewrite b64decode_b64encode. simpl.
    unfold try_except, DraftRepo_update, write_file, ContentStore_put. run_monad.
    simpl. rewrite Hs. simpl.
    eexists _, (touch (clock st + 1)%N
                  (stage_file s path (Write (content_digest raw) (Z.of_nat (length raw))))).
    split; [reflexivity|]. simpl. split_and!; try done.
    apply map_eq. intros d'. destruct (decide (d' = d)) as [->|Hne].
    + by rewrite !lookup_alter_eq, lookup_insert_eq, Hs.
    + by rewrite !lookup_alter_ne, lookup_insert_ne.
  - unfold write_draft_file. run_bind.
    unfold DraftFileUpdateSerializer_validated_data. simpl.
    unfold try_except, DraftRepo_update, write_file. run_monad.
    simpl. rewrite Hs. simpl.
    eexists _, (touch (clock st + 1)%N (stage_file s path Delete)).
    split; [reflexivity|]. simpl. split_and!; try done.
    apply map_eq. intros d'. destruct (decide (d' = d)) as [->|Hne].
    + by rewrite !lookup_alter_eq, lookup_insert_eq, Hs.
    + by rewrite !lookup_alter_ne, lookup_insert_ne.
Qed.

(** ** Updating a bundle *)

Lemma setattr_loop_keeps (key : string) (v : Value) (names : list string)
    (b : models.Bundle.t) (fs : gmap string Value) :
  key ∉ names → fs !! key = Some v →
  (foldl (λ '(b, fs) str_field,
            match fs !! str_field with
            | Some v => (Bundle_setattr str_field v b, delete str_field fs)
            | None => (b, fs)
            end) (b, fs) names).2 !! key = Some v.
Proof.
  revert b fs. induction names as [|f names IH]; intros b fs Hnot Hkey; [done|].
  apply not_elem_of_cons in Hnot as [Hne Hnot]. simpl.
  destruct (fs !! f) as [w|]; apply IH; try done.
  by rewrite lookup_delete_ne.
Qed.

Lemma setattr_loop_absent (key : string) (names : list string)
    (b : models.Bundle.t) (fs : gmap string Value) :
  key ∉ names → fs !! key = None →
  (foldl (λ '(b, fs) str_field,
            match fs !! str_field with
            | Some v => (Bundle_setattr str_field v b, delete str_field fs)
            | None => (b, fs)
            end) (b, fs) names).2 !! key = None.
Proof.
  revert b fs. induction names as [|f names IH]; intros b fs Hnot Hkey; [done|].
  apply not_elem_of_cons in Hnot as [Hne Hnot]. simpl.
  destruct (fs !! f) as [w|]; apply IH; try done.
  by rewrite lookup_delete_ne.
Qed.

(** C6, as the code has it.  Whenever [collection_uuid] is among the fields,
    [update_bundle] on an existing bundle stops at its own assertion: the
    value was just turned into a [str], which is no [UUID].  Nothing is
    saved. *)
Theorem update_bundle_collection_uuid_asserts
    (u : UUID) (b : models.Bundle.t) (fields : gmap string Value) (v : Value) (st : DB) :
  filter (λ r, models.Bundle.uuid r = u) (bundles st) = [b] →
  fields !! "collection_uuid" = Some v →
  update_bundle (VUuid u) fields st = (Raise AssertionError, st).
Proof.
  intros Hrow Hv. unfold update_bundle, Bundle_objects_get. run_bind.
  cbn [assert_isinstance_UUID]. run_bind. cbv beta iota.
  rewrite get_or_else_eq, Hrow.
  pose proof (setattr_loop_keeps "collection_uuid" v ["title"; "description"; "slug"]
                b fields) as Hkeep.
  destruct (foldl _ (b, fields) _) as [b' fs'] eqn:Hloop. simpl in Hkeep.
  rewrite Hkeep; [done| |done].
  rewrite !not_elem_of_cons. split_and!; try done. apply not_elem_of_nil.
Qed.

(** The text fields alone are applied and saved. *)
Lemma update_bundle_title_saved (u : UUID) (b row : models.Bundle.t) (t : Value)
    (st : DB) :
  filter (λ r, models.Bundle.uuid r = u) (bundles st) = [b] →
  Bundle_row (Bundle_setattr "title" t b) = Some row →
  exec (update_bundle (VUuid u) {[ "title" := t ]}) st =
  set_bundles (fmap (λ r, if decide (models.Bundle.id r = models.Bundle.id b)
                          then row else r)) st.
Proof.
  intros Hrow Htext. unfold exec, update_bundle, Bundle_objects_get. simpl. run_bind.
  rewrite get_or_else_eq, Hrow. cbn [foldl].
  rewrite lookup_singleton_eq, delete_singleton_eq, !lookup_empty.
  rewrite decide_True by done. unfold Bundle_save. by rewrite Htext.
Qed.

(** X19.  [update_bundle]: a field outside the four is refused with
    [ValueError] before the save, and the database is left as it was. *)
Lemma update_bundle_unknown_field (u : UUID) (b : models.Bundle.t)
    (fields : gmap string Value) (key : string) (v : Value) (st : DB) :
  filter (λ r, models.Bundle.uuid r = u) (bundles st) = [b] →
  key ∉ ["title"; "description"; "slug"; "collection_uuid"] →
  fields !! key = Some v →
  fields !! "collection_uuid" = None →
  update_bundle (VUuid u) fields st = (Raise ValueError, st).
Proof.
  intros Hrow Hkey Hv Hcu. unfold update_bundle, Bundle_objects_get. run_bind.
  cbn [assert_isinstance_UUID]. run_bind. cbv beta iota.
  rewrite get_or_else_eq, Hrow.
  apply not_elem_of_cons in Hkey as [H1 Hkey]. apply not_elem_of_cons in Hkey as [H2 Hkey].
  apply not_elem_of_cons in Hkey as [H3 Hkey]. apply not_elem_of_cons in Hkey as [H4 _].
  pose proof (setattr_loop_keeps key v ["title"; "description"; "slug"] b fields) as Hkeep.
  pose proof (setattr_loop_absent "collection_uuid" ["title"; "description"; "slug"]
                b fields) as Hnone.
  destruct (foldl _ (b, fields) _) as [b' fs'] eqn:Hloop. simpl in Hkeep, Hnone.
  assert (Hnames : ∀ k, k ≠ "title" → k ≠ "description" → k ≠ "slug" →
            k ∉ ["title"; "description"; "slug"]).
  { intros k ???. rewrite !not_elem_of_cons. split_and!; try done. apply not_elem_of_nil. }
  rewrite Hnone by (by try apply Hnames). simpl. rewrite decide_False; [done|].
  intros ->. rewrite lookup_empty in Hkeep. discriminate Hkeep; [by apply Hnames|done].
Qed.

(** ** Reading through a draft name that is not there *)

Lemma dict_of_lookup_None {K V} `{Countable K} (items : list (K * V)) (k : K) :
  (∀ kv, kv ∈ items → kv.1 ≠ k) → dict_of items !! k = None.
Proof.
  unfold dict_of. generalize (∅ : gmap K V) (lookup_empty (M:=gmap K) (A:=V) k).
  induction items as [|kv items IH]; intros m Hm Hall; [done|].
  simpl. apply IH.
  - rewrite lookup_insert_ne; [done|]. apply Hall. left.
  - intros kv' Hin. apply Hall. by right.
Qed.

Lemma selected_draft_None (b : models.Bundle.t) (n : string) (data : Bundle.t) (st : DB) :
  (¬ ∃ d, d ∈ drafts st ∧ names_draft b n d) →
  Bundle.drafts data =
    dict_of ((λ d, (models.Draft.name d, models.Draft.uuid d)) <$> Bundle_drafts_all b st) →
  selected_draft (Some n) data = None.
Proof.
  intros Hno Hdrafts. unfold selected_draft. case_decide; [done|].
  rewrite Hdrafts. apply dict_of_lookup_None.
  intros kv (d & -> & Hin)%list_elem_of_fmap Hname. simpl in Hname.
  unfold Bundle_drafts_all in Hin. apply list_elem_of_filter in Hin as [Hb Hin].
  apply Hno. exists d. by split.
Qed.

(** With a name that names no draft of the bundle, the draft branch is not
    taken: the call goes on as without [use_draft]. *)
Lemma missing_draft_not_selected
    (api_url : list string → string)
    (api_request : string → string → option Body → M Response)
    (u : UUID) (b : models.Bundle.t) (n : string) (st : DB) :
  filter (λ r, models.Bundle.uuid r = u) (bundles st) = [b] →
  (¬ ∃ d, d ∈ drafts st ∧ names_draft b n d) →
  let latest := from_option models.BundleVersion.version_num 0
                  (latest_of (versions_of b st)) in
  get_bundle_files_dict api_url api_request (VUuid u) (Some n) st
  = (if decide (latest = 0) then (Ok ∅, st)
     else (version_files ← get_bundle_version_files api_url api_request (VUuid u) latest;
           mret (dict_of ((λ file_meta, (BundleFile.path file_meta, OfVersion file_meta))
                            <$> version_files))) st)
  ∧ get_bundle_links api_url api_request (VUuid u) (Some n) st
    = (if decide (latest = 0) then (Ok ∅, st)
       else (version_links ← get_bundle_version_links api_url api_request (VUuid u) latest;
             mret (LinkOfVersion <$> version_links)) st)
  ∧ get_bundle_files_dict api_url api_request (VUuid u) None st
    = get_bundle_files_dict api_url api_request (VUuid u) (Some n) st
  ∧ get_bundle_links api_url api_request (VUuid u) None st
    = get_bundle_links api_url api_request (VUuid u) (Some n) st.
Proof.
  intros Hrow Hno latest.
  destruct (_data_from_bundle_total b st) as (data & Hdata & _ & Hlatest & Hdrafts).
  fold latest in Hlatest.
  pose proof (selected_draft_None b n data st Hno Hdrafts) as Hsel.
  unfold get_bundle_files_dict, get_bundle_links. run_bind.
  rewrite (get_bundle_of_row u b st Hrow), Hdata. cbv beta iota.
  rewrite Hsel, Hlatest. cbn [selected_draft].
  split_and!; try reflexivity; by case_decide.
Qed.

(** C10, as the code has it.  When the name given as [use_draft] names no
    draft of the bundle, [get_bundle_files_dict] and [get_bundle_links] do
    not fail with [DraftNotFound]: they go on exactly as without
    [use_draft].  That is the empty dict when the bundle has no version.
    When it has one, the read of the latest version comes to [api_url], a
    name [methods.py] leaves unbound, and the call ends in [NameError]
    instead of the version's files and links.  Were the names bound, and
    the request answered with the version, the dicts would hold the
    version's files under their paths and its links under their names. *)
Theorem missing_draft_fallback_name_error
    (u : UUID) (b : models.Bundle.t) (n : string) (st : DB) :
  filter (λ r, models.Bundle.uuid r = u) (bundles st) = [b] →
  (¬ ∃ d, d ∈ drafts st ∧ names_draft b n d) →
  let latest := from_option models.BundleVersion.version_num 0
                  (latest_of (versions_of b st)) in
  (∀ api_url api_request,
     get_bundle_files_dict api_url api_request (VUuid u) (Some n) st
     = get_bundle_files_dict api_url api_request (VUuid u) None st
     ∧ get_bundle_links api_url api_request (VUuid u) (Some n) st
       = get_bundle_links api_url api_request (VUuid u) None st)
  ∧ (latest = 0 → ∀ api_url api_request,
       get_bundle_files_dict api_url api_request (VUuid u) (Some n) st = (Ok ∅, st)
       ∧ get_bundle_links api_url api_request (VUuid u) (Some n) st = (Ok ∅, st))
  ∧ (latest ≠ 0 →
       get_bundle_files_dict unbound_api_url unbound_api_request (VUuid u) (Some n) st
       = (Raise NameError, st)
       ∧ get_bundle_links unbound_api_url unbound_api_request (VUuid u) (Some n) st
         = (Raise NameError, st))
  ∧ (latest ≠ 0 → ∀ api_url api_request info st1,
       api_request "get" (version_url api_url (VUuid u) latest) None st
         = (Ok (RVersionInfo info), st1) →
       get_bundle_files_dict api_url api_request (VUuid u) (Some n) st
       = (Ok (dict_of
                ((λ item,
                    (item.1,
                     OfVersion {| BundleFile.path := item.1;
                                  BundleFile.size := FileMetadata.size item.2;
                                  BundleFile.url := FileMetadata.url item.2;
                                  BundleFile.hash_digest :=
                                    FileMetadata.hash_digest item.2 |}))
                   <$> VersionInfo.files info)), st1)
       ∧ get_bundle_links api_url api_request (VUuid u) (Some n) st
         = (Ok (LinkOfVersion <$>
                dict_of
                  ((λ item,
                      (item.1,
                       {| LinkDetails.name := item.1;
                          LinkDetails.direct := LinkManifestEntry.direct item.2;
                          LinkDetails.indirect := LinkManifestEntry.indirect item.2 |}))
                     <$> VersionInfo.links info)), st1)).
Proof.
  intros Hrow Hno latest. split_and!.
  - intros api_url api_request.
    destruct (missing_draft_not_selected api_url api_request u b n st Hrow Hno)
      as (_ & _ & Hf & Hl).
    by split.
  - intros Hzero api_url api_request.
    destruct (missing_draft_not_selected api_url api_request u b n st Hrow Hno)
      as (Hf & Hl & _).
    fold latest in Hf, Hl. rewrite Hf, Hl. by rewrite !decide_True.
  - intros Hsome.
    destruct (missing_draft_not_selected unbound_api_url unbound_api_request
                u b n st Hrow Hno) as (Hf & Hl & _).
    fold latest in Hf, Hl. rewrite Hf, Hl. rewrite !decide_False by done.
    unfold get_bundle_version_files, get_bundle_version_links, get_bundle_version.
    by rewrite !decide_False.
  - intros Hsome api_url api_request info st1 Hreq.
    destruct (missing_draft_not_selected api_url api_request u b n st Hrow Hno)
      as (Hf & Hl & _).
    fold latest in Hf, Hl. rewrite Hf, Hl. rewrite !decide_False by done.
    unfold get_bundle_version_files, get_bundle_version_links, get_bundle_version.
    rewrite !decide_False by done. fold (version_url api_url (VUuid u) latest).
    run_bind. rewrite Hreq. cbn [subscript_snapshot]. run_bind. cbv beta iota.
    split; [|reflexivity]. by rewrite <- list_fmap_compose.
Qed.




(** ** The properties on the sample database *)

Ltac no_such_draft :=
  let d := fresh "d" in let Hin := fresh "Hin" in let HP := fresh "HP" in
  intros (d & Hin & HP); simpl in Hin;
  repeat (apply elem_of_cons in Hin as [->|Hin];
          [first [discriminate HP | destruct HP; discriminate]|]);
  by apply elem_of_nil in Hin.

Lemma sample_db_unique_together : unique_together sample_db.
Proof. unfold unique_together. simpl. apply NoDup_singleton. Defined.

Lemma get_raises_not_found_iff_absent_witness :
  get_collection (VUuid 10%N) sample_db
    = (Ok {| Collection.uuid := 10%N; Collection.title := VStr "Courses" |}, sample_db)
  ∧ get_bundle (VUuid 11%N) sample_db
    = (Ok {| Bundle.uuid := 11%N; Bundle.title := VStr "Course";
             Bundle.description := VStr ""; Bundle.slug := VStr "course";
             Bundle.drafts := {[ "studio" := 12%N ]};
             Bundle.latest_version := 1 |}, sample_db)
  ∧ (∃ d, get_draft (VUuid 12%N) sample_db = (Ok d, sample_db))
  ∧ outcome (get_draft (VUuid 99%N)) sample_db = Raise DraftNotFound.
Proof.
  destruct (get_raises_not_found_iff_absent 10%N sample_db) as [(_ & _ & _ & Hc) _].
  destruct (get_raises_not_found_iff_absent 11%N sample_db) as (_ & (_ & _ & _ & Hb) & _).
  destruct (get_raises_not_found_iff_absent 12%N sample_db) as (_ & _ & (_ & _ & _ & Hd)).
  destruct (get_raises_not_found_iff_absent 99%N sample_db) as (_ & _ & (Hnone & _)).
  split_and!.
  - exact (Hc _ eq_refl).
  - rewrite (Hb sample_course eq_refl). vm_compute. reflexivity.
  - apply (Hd sample_draft sample_course sample_staged eq_refl);
      [left|reflexivity|reflexivity].
  - apply Hnone. no_such_draft.
Defined.

Lemma get_or_create_bundle_draft_idempotent_witness :
  get_or_create_bundle_draft (VUuid 11%N) "review" 100%N
    (get_or_create_bundle_draft (VUuid 11%N) "review" 99%N sample_db).2
  = get_or_create_bundle_draft (VUuid 11%N) "review" 99%N sample_db.
Proof.
  assert (Hfresh : ¬ ∃ d, d ∈ drafts sample_db ∧ models.Draft.uuid d = 99%N)
    by no_such_draft.
  destruct (get_or_create_bundle_draft_idempotent 11%N sample_course "review" 99%N
              sample_db eq_refl sample_db_unique_together Hfresh)
    as (_ & _ & Htwice).
  exact (Htwice 100%N).
Defined.

Lemma modified_iff_staged_witness :
  ∃ d, _data_from_draft sample_draft sample_db = (Ok d, sample_db)
       ∧ ∀ path e, Draft.files d !! path = Some e →
           (DraftFile.modified e = true
            ↔ is_Some (StagedState.staged_files sample_staged !! path)).
Proof.
  destruct (modified_iff_staged sample_draft sample_course
              sample_staged sample_db)
    as (d & Hd & _ & Hflag); [(vm_compute; reflexivity)|(vm_compute; reflexivity)|].
  exists d. split; [exact Hd|]. intros path e He. apply (Hflag path e He).
Defined.

Lemma latest_version_zero_iff_no_version_witness :
  ∃ b, get_bundle (VUuid 11%N) sample_db = (Ok b, sample_db)
       ∧ (Bundle.latest_version b = 0 ↔ versions_of sample_course sample_db = []).
Proof.
  destruct (latest_version_zero_iff_no_version 11%N sample_course sample_db)
    as (b & Hb & Hzero & _).
  - (vm_compute; reflexivity).
  - unfold versions_from_one. simpl.
    repeat (apply Forall_cons_2; [simpl; lia|]). apply Forall_nil_2.
  - exists b. split; [exact Hb|exact Hzero].
Defined.



Lemma write_draft_file_stages_witness :
  ∃ st' s',
    write_draft_file plain_digest 12%N "c.txt" (Some (Text [104; 105]%N)) sample_db
      = (Ok tt, st')
    ∧ draft_repo st' = <[12%N := s']> (draft_repo sample_db)
    ∧ StagedState.staged_files s' =
        <[ "c.txt" := Write (text_bytes "hi") 2 ]>
          (StagedState.staged_files sample_staged).
Proof.
  destruct (write_draft_file_stages plain_digest 12%N
              sample_staged "c.txt" sample_db eq_refl)
    as [Hwrite _].
  destruct (Hwrite (Text [104; 105]%N) (text_bytes "hi") eq_refl)
    as (_ & _ & st' & s' & Hrun & _ & Hrepo & Hfiles & _).
  exists st', s'. split_and!; [exact Hrun|exact Hrepo|exact Hfiles].
Defined.

Lemma update_bundle_collection_uuid_asserts_witness :
  update_bundle (VUuid 11%N) {[ "collection_uuid" := VUuid 10%N ]} sample_db
  = (Raise AssertionError, sample_db).
Proof.
  apply (update_bundle_collection_uuid_asserts 11%N sample_course
           {[ "collection_uuid" := VUuid 10%N ]} (VUuid 10%N) sample_db);
    (vm_compute; reflexivity).
Defined.


(** The bundle [Course] has version 1, which holds [a.txt], and no draft
    named [review]. *)
Lemma missing_draft_fallback_name_error_witness :
  get_bundle_files_dict unbound_api_url unbound_api_request (VUuid 11%N) (Some "review")
    sample_db = (Raise NameError, sample_db)
  ∧ get_bundle_links unbound_api_url unbound_api_request (VUuid 11%N) (Some "review")
      sample_db = (Raise NameError, sample_db)
  ∧ get_bundle_files_dict store_api_url store_api_request (VUuid 11%N) (Some "review")
      sample_db
    = (Ok {[ "a.txt" := OfVersion {| BundleFile.path := "a.txt"; BundleFile.size := 5;
                                     BundleFile.url := "a.txt";
                                     BundleFile.hash_digest := text_bytes "hello" |} ]},
       sample_db).
Proof.
  assert (Hno : ¬ ∃ d, d ∈ drafts sample_db ∧ names_draft sample_course "review" d)
    by no_such_draft.
  destruct (missing_draft_fallback_name_error 11%N sample_course "review" sample_db
              eq_refl Hno) as (_ & _ & Hunbound & Hbound).
  destruct Hunbound as [Hfiles Hlinks]; [by vm_compute|].
  split_and!; [exact Hfiles|exact Hlinks|].
  destruct (Hbound ltac:(by vm_compute) store_api_url store_api_request
              (version_info_of
                 {| models.BundleVersion.bundle := 2; models.BundleVersion.version_num := 1;
                    models.BundleVersion.files :=
                      {[ "a.txt" := {| FileInfo.hash_digest := text_bytes "hello";
                                       FileInfo.size := 5 |} ]};
                    models.BundleVersion.links := ∅ |})
              sample_db) as [Hf _]; [vm_compute; reflexivity|].
  rewrite Hf. vm_compute. reflexivity.
Defined.



(** Whatever the draft stages, the draft [get_draft] returns has no links. *)
Lemma get_draft_links_empty (u : Value) (st : DB) (d : Draft.t) :
  outcome (get_draft u) st = Ok d → Draft.links d = ∅.
Proof.
  unfold outcome, get_draft, Draft_objects_get. run_bind.
  destruct (assert_isinstance_UUID u st) as [[a|e] st1]; [|done].
  rewrite get_or_else_eq.
  destruct (filter _ (drafts st1)) as [|r [|r' rest]]; simpl; [done| |done].
  intros Hd. by apply _data_from_draft_outcome in Hd as (_ & _ & ->).
Qed.

(** C2, as the code has it.  The sample draft stages the link [lib]; its
    staged view resolves that link, yet the draft [get_draft] returns
    carries no link at all, and so does [get_bundle_links] read through the
    draft. *)
Theorem draft_links_view_is_empty :
  (∃ sd, Draft_staged_draft sample_draft sample_db = (Ok sd, sample_db)
         ∧ StagedDraft.composed_links sd !! "lib" =
             Some {| ComposedLink.direct :=
                       {| LinkReference.bundle_uuid := 13%N; LinkReference.version := 1 |};
                     ComposedLink.indirect := [];
                     ComposedLink.modified := true |})
  ∧ (∃ d, get_draft (VUuid 12%N) sample_db = (Ok d, sample_db) ∧ Draft.links d = ∅)
  ∧ get_bundle_links store_api_url store_api_request (VUuid 11%N) (Some "studio") sample_db
    = (Ok ∅, sample_db).
Proof.
  split_and!.
  - eexists. split; [(vm_compute; reflexivity)|]. by vm_compute.
  - eexists. split; [(vm_compute; reflexivity)|]. done.
  - by vm_compute.
Qed.

(** * Further properties of [methods.py] *)

(** ** Arguments and missing rows *)

(** X1.  Every function that starts with [assert isinstance(..., UUID)]
    stops there on an argument that is no [UUID] (a [str], say): it raises
    [AssertionError] and the database is not touched.  The reads of a
    bundle's files and links inherit it from [get_bundle]. *)
Theorem non_uuid_argument_asserts (v : Value) (st : DB) :
  (∀ u, v ≠ VUuid u) →
  get_collection v st = (Raise AssertionError, st)
  ∧ (∀ title, update_collection v title st = (Raise AssertionError, st))
  ∧ delete_collection v st = (Raise AssertionError, st)
  ∧ get_bundle v st = (Raise AssertionError, st)
  ∧ (∀ slug title description fresh,
       create_bundle v slug title description fresh st = (Raise AssertionError, st))
  ∧ (∀ fields, update_bundle v fields st = (Raise AssertionError, st))
  ∧ delete_bundle v st = (Raise AssertionError, st)
  ∧ get_draft v st = (Raise AssertionError, st)
  ∧ (∀ n fresh, get_or_create_bundle_draft v n fresh st = (Raise AssertionError, st))
  ∧ (∀ api_url api_request path use_draft,
       get_bundle_file_metadata api_url api_request v path use_draft st
         = (Raise AssertionError, st)
       ∧ get_bundle_files_dict api_url api_request v use_draft st
         = (Raise AssertionError, st)
       ∧ get_bundle_links api_url api_request v use_draft st
         = (Raise AssertionError, st)).
Proof.
  intros Hv. destruct v as [| | | |u]; try (by destruct (Hv u));
    split_and!; intros; try split_and!; reflexivity.
Qed.

Lemma non_uuid_argument_asserts_witness :
  get_bundle (VStr "0000000b") sample_db = (Raise AssertionError, sample_db).
Proof.
  apply (non_uuid_argument_asserts (VStr "0000000b") sample_db). discriminate.
Defined.

Lemma get_of_absent {Row} (m : Model) (table : DB → list Row)
    (P : Row → Prop) `{!∀ r, Decision (P r)} (e : exn) (st : DB) :
  (¬ ∃ r, r ∈ table st ∧ P r) →
  try_except (objects_get m table P) (DoesNotExist m) (raise e) st = (Raise e, st).
Proof.
  intros Hno. rewrite get_or_else_eq.
  rewrite (proj2 (filter_empty_iff P (table st))); [done|].
  by apply exists_matching.
Qed.

(** X2.  A call that is to change or delete an entity, or to create
    something under it, does nothing when no row carries the uuid: it raises
    [CollectionNotFound] for a collection and [BundleNotFound] for a bundle,
    and the database is the one it was given. *)
Theorem mutation_of_missing_entity (u : UUID) (st : DB) :
  (¬ ∃ r, r ∈ collections st ∧ models.Collection.uuid r = u) →
  (¬ ∃ r, r ∈ bundles st ∧ models.Bundle.uuid r = u) →
  (∀ title, update_collection (VUuid u) title st = (Raise CollectionNotFound, st))
  ∧ delete_collection (VUuid u) st = (Raise CollectionNotFound, st)
  ∧ (∀ slug title description fresh,
       create_bundle (VUuid u) slug title description fresh st
         = (Raise CollectionNotFound, st))
  ∧ (∀ fields, update_bundle (VUuid u) fields st = (Raise BundleNotFound, st))
  ∧ delete_bundle (VUuid u) st = (Raise BundleNotFound, st)
  ∧ (∀ n fresh,
       get_or_create_bundle_draft (VUuid u) n fresh st = (Raise BundleNotFound, st)).
Proof.
  intros Hc Hb.
  pose proof (get_of_absent MCollection collections
                (λ r, models.Collection.uuid r = u) CollectionNotFound st Hc) as Hgc.
  pose proof (get_of_absent MBundle bundles
                (λ r, models.Bundle.uuid r = u) BundleNotFound st Hb) as Hgb.
  unfold update_collection, delete_collection, create_bundle, update_bundle,
    delete_bundle, get_or_create_bundle_draft, Collection_objects_get,
    Bundle_objects_get.
  split_and!; intros; run_bind; cbn [assert_isinstance_UUID]; run_bind;
    cbv beta iota; by rewrite ?Hgc, ?Hgb.
Qed.

Ltac no_such_row :=
  let r := fresh "r" in let Hin := fresh "Hin" in let HP := fresh "HP" in
  intros (r & Hin & HP); simpl in Hin;
  repeat (apply elem_of_cons in Hin as [->|Hin]; [discriminate HP|]);
  by apply elem_of_nil in Hin.

Lemma mutation_of_missing_entity_witness :
  delete_bundle (VUuid 77%N) sample_db = (Raise BundleNotFound, sample_db).
Proof.
  apply (mutation_of_missing_entity 77%N sample_db); no_such_row.
Defined.

(** ** Saving and reading back *)

Lemma NoDup_fmap_elem_inj {A K} (key : A → K) (l : list A) (x y : A) :
  NoDup (key <$> l) → x ∈ l → y ∈ l → key x = key y → x = y.
Proof.
  induction l as [|z l IH]; intros Hnd Hx Hy Heq; [by apply elem_of_nil in Hx|].
  rewrite fmap_cons, NoDup_cons in Hnd. destruct Hnd as [Hz Hnd].
  apply elem_of_cons in Hx as [->|Hx]; apply elem_of_cons in Hy as [->|Hy].
  - done.
  - destruct Hz. rewrite Heq. apply list_elem_of_fmap. eauto.
  - destruct Hz. rewrite <- Heq. apply list_elem_of_fmap. eauto.
  - by apply IH.
Qed.

Lemma filter_fmap_compat {A} (P : A → Prop) `{!∀ x, Decision (P x)} (g : A → A)
    (l : list A) :
  (∀ r, r ∈ l → (P (g r) ↔ P r)) → filter P (g <$> l) = g <$> filter P l.
Proof.
  induction l as [|x l IH]; intros Hg; [done|].
  rewrite fmap_cons, !filter_cons.
  assert (Hx : P (g x) ↔ P x) by (apply Hg; left).
  rewrite IH by (intros r Hr; apply Hg; by right).
  destruct (decide (P x)) as [HP|HP].
  - rewrite decide_True by by apply Hx. done.
  - rewrite decide_False by (by rewrite Hx). done.
Qed.

Lemma to_text_Some (v : Value) : v ≠ VNone → to_text v = Some (py_str v).
Proof. by destruct v. Qed.

(** X3.  [create_collection] returns the collection with the title it was
    given, and the table keeps that title as text: [get_collection] under
    the new uuid then returns the collection with [str(title)], which for a
    [str] is the value the creation returned, and creating it changes the
    answer for no other uuid.  With the title [None] the insert is refused
    with [IntegrityError] and nothing is written. *)
Theorem create_collection_then_get (title : Value) (fresh : UUID) (st : DB) :
  (¬ ∃ r, r ∈ collections st ∧ models.Collection.uuid r = fresh) →
  (title = VNone → create_collection title fresh st = (Raise IntegrityError, st))
  ∧ (title ≠ VNone →
     ∃ st1, create_collection title fresh st
              = (Ok {| Collection.uuid := fresh; Collection.title := title |}, st1)
            ∧ get_collection (VUuid fresh) st1
              = (Ok {| Collection.uuid := fresh;
                       Collection.title := VStr (py_str title) |}, st1)
            ∧ (∀ u, u ≠ fresh →
                 outcome (get_collection (VUuid u)) st1
                 = outcome (get_collection (VUuid u)) st)
            ∧ bundles st1 = bundles st ∧ drafts st1 = drafts st).
Proof.
  intros Hfresh. unfold create_collection, Collection_save_new, Collection_row.
  cbn [models.Collection.title models.Collection.id models.Collection.uuid].
  run_bind. split; [by intros ->|]. intros Htitle.
  rewrite (to_text_Some title Htitle). cbn [option_bind].
  rewrite decide_False by (rewrite Exists_exists; exact Hfresh).
  eexists. split; [reflexivity|].
  assert (Hnil : filter (λ r, models.Collection.uuid r = fresh) (collections st) = []).
  { apply filter_empty_iff. by apply exists_matching. }
  unfold outcome, get_collection, Collection_objects_get. run_bind.
  cbn [assert_isinstance_UUID]. run_bind. cbv beta iota.
  split_and!; [| |done|done].
  - rewrite get_or_else_eq. simpl. rewrite filter_app, Hnil.
    by rewrite filter_cons_True, filter_nil.
  - intros u Hu. rewrite !get_or_else_eq. simpl. rewrite filter_app.
    rewrite (filter_cons_False _ _ []) by (simpl; congruence).
    rewrite filter_nil, app_nil_r.
    destruct (filter (λ r, models.Collection.uuid r = u) (collections st))
      as [|? [|? ?]]; reflexivity.
Qed.

Lemma create_collection_then_get_witness :
  (∃ st1, create_collection (VStr "Labs") 50%N sample_db
            = (Ok {| Collection.uuid := 50%N; Collection.title := VStr "Labs" |}, st1)
          ∧ get_collection (VUuid 50%N) st1
            = (Ok {| Collection.uuid := 50%N; Collection.title := VStr "Labs" |}, st1))
  ∧ (∃ st1, create_collection (VInt 5) 50%N sample_db
              = (Ok {| Collection.uuid := 50%N; Collection.title := VInt 5 |}, st1)
            ∧ get_collection (VUuid 50%N) st1
              = (Ok {| Collection.uuid := 50%N; Collection.title := VStr "5" |}, st1))
  ∧ create_collection VNone 50%N sample_db = (Raise IntegrityError, sample_db).
Proof.
  assert (Hfresh : ¬ ∃ r, r ∈ collections sample_db ∧ models.Collection.uuid r = 50%N)
    by no_such_row.
  split_and!.
  - destruct (create_collection_then_get (VStr "Labs") 50%N sample_db Hfresh)
      as [_ Hok].
    destruct Hok as (st1 & Hc & Hg & _); [discriminate|].
    exists st1. split; [exact Hc|exact Hg].
  - destruct (create_collection_then_get (VInt 5) 50%N sample_db Hfresh)
      as [_ Hok].
    destruct Hok as (st1 & Hc & Hg & _); [discriminate|].
    exists st1. split; [exact Hc|exact Hg].
  - by apply (create_collection_then_get VNone 50%N sample_db Hfresh).
Defined.

(** X4.  [update_collection] returns the collection with the title it was
    given and rewrites the row with that title as text: [get_collection]
    afterwards returns the collection with [str(title)], which for a [str]
    is the value the update returned, and every other collection reads as
    before.  With the title [None] the update is refused with
    [IntegrityError] and nothing is written.  Primary keys are taken to be
    unique. *)
Theorem update_collection_then_get
    (u : UUID) (c : models.Collection.t) (title : Value) (st : DB) :
  filter (λ r, models.Collection.uuid r = u) (collections st) = [c] →
  NoDup (models.Collection.id <$> collections st) →
  (title = VNone → update_collection (VUuid u) title st = (Raise IntegrityError, st))
  ∧ (title ≠ VNone →
     ∃ st1, update_collection (VUuid u) title st
              = (Ok {| Collection.uuid := u; Collection.title := title |}, st1)
            ∧ get_collection (VUuid u) st1
              = (Ok {| Collection.uuid := u;
                       Collection.title := VStr (py_str title) |}, st1)
            ∧ (∀ u', u' ≠ u →
                 outcome (get_collection (VUuid u')) st1
                 = outcome (get_collection (VUuid u')) st)
            ∧ bundles st1 = bundles st ∧ drafts st1 = drafts st).
Proof.
  intros Hrow Hpk.
  destruct (filter_head_elem _ _ _ _ Hrow) as [Hin Hu].
  unfold update_collection, Collection_objects_get, Collection_save, Collection_row.
  run_bind. cbn [assert_isinstance_UUID]. run_bind. cbv beta iota.
  rewrite get_or_else_eq, Hrow.
  cbn [models.Collection.title models.Collection.id models.Collection.uuid].
  split; [by intros ->|]. intros Htitle.
  rewrite (to_text_Some title Htitle). cbn [option_bind].
  set (c' := {| models.Collection.id := models.Collection.id c;
                models.Collection.uuid := models.Collection.uuid c;
                models.Collection.title := VStr (py_str title) |}).
  set (g := λ r, if decide (models.Collection.id r = models.Collection.id c)
                 then c' else r).
  assert (Hg : ∀ u' r, r ∈ collections st →
            (models.Collection.uuid (g r) = u' ↔ models.Collection.uuid r = u')).
  { intros u' r Hr. unfold g. case_decide as Hid; [|done].
    by rewrite (NoDup_fmap_elem_inj _ _ r c Hpk Hr Hin Hid). }
  eexists. split.
  { unfold modify, _data_from_collection. simpl. by rewrite Hu. }
  unfold outcome, get_collection, Collection_objects_get. run_bind.
  cbn [assert_isinstance_UUID]. run_bind. cbv beta iota.
  split_and!; [| |done|done].
  - rewrite get_or_else_eq. simpl. fold g.
    rewrite (filter_fmap_compat _ g) by (intros r Hr; apply Hg, Hr).
    rewrite Hrow. simpl. unfold g. rewrite decide_True by done.
    unfold _data_from_collection. simpl. by rewrite Hu.
  - intros u' Hu'. rewrite !get_or_else_eq. simpl. fold g.
    rewrite (filter_fmap_compat _ g) by (intros r Hr; apply Hg, Hr).
    assert (Hsame : g <$> filter (λ r, models.Collection.uuid r = u') (collections st)
                    = filter (λ r, models.Collection.uuid r = u') (collections st)).
    { rewrite <- (list_fmap_id (filter _ _)) at 2. apply list_fmap_ext.
      intros i r Hr%list_elem_of_lookup_2. apply list_elem_of_filter in Hr as [Hr1 Hr2].
      unfold g. case_decide as Hid; [|done].
      rewrite (NoDup_fmap_elem_inj _ _ r c Hpk Hr2 Hin Hid) in Hr1. congruence. }
    rewrite Hsame.
    destruct (filter (λ r, models.Collection.uuid r = u') (collections st))
      as [|? [|? ?]]; reflexivity.
Qed.

Lemma update_collection_then_get_witness :
  (∃ st1, update_collection (VUuid 10%N) (VStr "Archive") sample_db
            = (Ok {| Collection.uuid := 10%N; Collection.title := VStr "Archive" |}, st1)
          ∧ get_collection (VUuid 10%N) st1
            = (Ok {| Collection.uuid := 10%N; Collection.title := VStr "Archive" |}, st1))
  ∧ update_collection (VUuid 10%N) VNone sample_db = (Raise IntegrityError, sample_db).
Proof.
  assert (Hpk : NoDup (models.Collection.id <$> collections sample_db))
    by (simpl; apply NoDup_singleton).
  destruct (update_collection_then_get 10%N
              {| models.Collection.id := 1; models.Collection.uuid := 10%N;
                 models.Collection.title := VStr "Courses" |}
              (VStr "Archive") sample_db eq_refl Hpk) as [_ Hok].
  destruct Hok as (st1 & Hc & Hg & _); [discriminate|].
  split.
  - exists st1. split; [exact Hc|exact Hg].
  - by apply (update_collection_then_get 10%N
                {| models.Collection.id := 1; models.Collection.uuid := 10%N;
                   models.Collection.title := VStr "Courses" |}
                VNone sample_db eq_refl Hpk).
Defined.

(** X5.  [create_bundle] in an existing collection returns the bundle with
    the title, description and slug it was given, and the table keeps them
    as text: [get_bundle] under the new uuid then returns the bundle with
    [str] of each, the same drafts and the same [latest_version], which are
    none and 0 when nothing refers to the new primary key yet.  When one of
    the three is [None] the insert is refused with [IntegrityError] and
    nothing is written. *)
Theorem create_bundle_then_get
    (u : UUID) (c : models.Collection.t) (slug title description : Value)
    (fresh : UUID) (st : DB) :
  filter (λ r, models.Collection.uuid r = u) (collections st) = [c] →
  (¬ ∃ r, r ∈ bundles st ∧ models.Bundle.uuid r = fresh) →
  (title = VNone ∨ description = VNone ∨ slug = VNone →
     create_bundle (VUuid u) slug title description fresh st
     = (Raise IntegrityError, st))
  ∧ (title ≠ VNone → description ≠ VNone → slug ≠ VNone →
     ∃ data read st1,
       create_bundle (VUuid u) slug title description fresh st = (Ok data, st1)
       ∧ get_bundle (VUuid fresh) st1 = (Ok read, st1)
       ∧ Bundle.uuid data = fresh ∧ Bundle.title data = title
       ∧ Bundle.description data = description ∧ Bundle.slug data = slug
       ∧ Bundle.uuid read = fresh ∧ Bundle.title read = VStr (py_str title)
       ∧ Bundle.description read = VStr (py_str description)
       ∧ Bundle.slug read = VStr (py_str slug)
       ∧ Bundle.drafts read = Bundle.drafts data
       ∧ Bundle.latest_version read = Bundle.latest_version data
       ∧ ((∀ d, d ∈ drafts st → models.Draft.bundle d ≠ next_id st) →
            Bundle.drafts data = ∅)
       ∧ ((∀ v, v ∈ bundle_versions st → models.BundleVersion.bundle v ≠ next_id st) →
            Bundle.latest_version data = 0)
       ∧ collections st1 = collections st ∧ drafts st1 = drafts st).
Proof.
  intros Hrow Hfresh.
  unfold create_bundle, Collection_objects_get, Bundle_save_new, Bundle_row. run_bind.
  cbn [assert_isinstance_UUID]. run_bind. cbv beta iota.
  rewrite get_or_else_eq, Hrow.
  cbn [models.Bundle.title models.Bundle.description models.Bundle.slug
       models.Bundle.id models.Bundle.uuid models.Bundle.collection].
  split.
  { intros [->|[->| ->]]; [done| |].
    - by destruct (to_text title).
    - by destruct (to_text title), (to_text description). }
  intros Ht Hd Hs.
  rewrite (to_text_Some title Ht), (to_text_Some description Hd), (to_text_Some slug Hs).
  cbn [option_bind].
  rewrite decide_False by (rewrite Exists_exists; exact Hfresh).
  set (obj := {| models.Bundle.id := next_id st; models.Bundle.uuid := fresh;
                 models.Bundle.title := title; models.Bundle.description := description;
                 models.Bundle.slug := slug;
                 models.Bundle.collection := models.Collection.id c |}).
  set (row := {| models.Bundle.id := next_id st; models.Bundle.uuid := fresh;
                 models.Bundle.title := VStr (py_str title);
                 models.Bundle.description := VStr (py_str description);
                 models.Bundle.slug := VStr (py_str slug);
                 models.Bundle.collection := models.Collection.id c |}).
  set (st1 := bump_id (set_bundles (λ t, t ++ [row]) st)).
  destruct (_data_from_bundle_total obj st1) as (data & Hdata & Huuid & Hlatest & Hdrafts).
  destruct (_data_from_bundle_total row st1) as (read & Hread & Huuid' & Hlatest' & Hdrafts').
  exists data, read, st1. rewrite Hdata. split; [done|].
  assert (Hget : get_bundle (VUuid fresh) st1 = (Ok read, st1)).
  { rewrite (get_bundle_of_row fresh row st1); [done|]. simpl.
    rewrite filter_app, filter_cons_True, filter_nil by done.
    rewrite (proj2 (filter_empty_iff _ (bundles st))); [done|].
    by apply exists_matching. }
  assert (Hfields : Bundle.title data = title ∧ Bundle.description data = description
                    ∧ Bundle.slug data = slug).
  { unfold _data_from_bundle in Hdata. run_monad. by injection Hdata as <-. }
  assert (Hfields' : Bundle.title read = VStr (py_str title)
                     ∧ Bundle.description read = VStr (py_str description)
                     ∧ Bundle.slug read = VStr (py_str slug)).
  { unfold _data_from_bundle in Hread. run_monad. by injection Hread as <-. }
  destruct Hfields as (? & ? & ?). destruct Hfields' as (? & ? & ?).
  split_and!; try done.
  - by rewrite Hdrafts, Hdrafts'.
  - by rewrite Hlatest, Hlatest'.
  - intros Hnone. rewrite Hdrafts. unfold Bundle_drafts_all. simpl.
    rewrite (proj2 (filter_empty_iff _ (drafts st))); [done|].
    intros d Hd'. by apply Hnone.
  - intros Hnone. rewrite Hlatest. unfold versions_of. simpl.
    rewrite (proj2 (filter_empty_iff _ (bundle_versions st))); [done|].
    intros v Hv. by apply Hnone.
Qed.

Lemma create_bundle_then_get_witness :
  (∃ data read st1,
     create_bundle (VUuid 10%N) (VStr "labs") (VInt 7) (VStr "") 60%N sample_db
       = (Ok data, st1)
     ∧ get_bundle (VUuid 60%N) st1 = (Ok read, st1)
     ∧ Bundle.title data = VInt 7 ∧ Bundle.title read = VStr "7"
     ∧ Bundle.slug read = VStr "labs")
  ∧ create_bundle (VUuid 10%N) (VStr "labs") (VStr "Labs") VNone 60%N sample_db
    = (Raise IntegrityError, sample_db).
Proof.
  assert (Hfresh : ¬ ∃ r, r ∈ bundles sample_db ∧ models.Bundle.uuid r = 60%N)
    by no_such_row.
  split.
  - destruct (create_bundle_then_get 10%N
                {| models.Collection.id := 1; models.Collection.uuid := 10%N;
                   models.Collection.title := VStr "Courses" |}
                (VStr "labs") (VInt 7) (VStr "") 60%N sample_db eq_refl Hfresh)
      as [_ Hok].
    destruct Hok as (data & read & st1 & Hc & Hg & _ & Ht & _ & _ & _ & Ht' & _ & Hs' & _);
      [discriminate|discriminate|discriminate|].
    exists data, read, st1. split_and!; [exact Hc|exact Hg|exact Ht|exact Ht'|exact Hs'].
  - apply (create_bundle_then_get 10%N
             {| models.Collection.id := 1; models.Collection.uuid := 10%N;
                models.Collection.title := VStr "Courses" |}
             (VStr "labs") (VStr "Labs") VNone 60%N sample_db eq_refl Hfresh).
    right. by left.
Defined.

Lemma setattr_loop_lookup (names : list string) (b : models.Bundle.t)
    (fs : gmap string Value) (k : string) :
  (foldl (λ '(b, fs) str_field,
            match fs !! str_field with
            | Some v => (Bundle_setattr str_field v b, delete str_field fs)
            | None => (b, fs)
            end) (b, fs) names).2 !! k
  = if decide (k ∈ names) then None else fs !! k.
Proof.
  revert b fs. induction names as [|f names IH]; intros b fs.
  - cbn [foldl snd]. case_decide as Hin; [by apply elem_of_nil in Hin|done].
  - cbn [foldl]. destruct (fs !! f) as [v|] eqn:Hf; rewrite IH.
    + destruct (decide (k ∈ names)) as [Hin|Hnin].
      * rewrite decide_True; [done|by right].
      * destruct (decide (k = f)) as [->|Hne].
        -- rewrite decide_True by left. apply lookup_delete_eq.
        -- rewrite decide_False by (rewrite not_elem_of_cons; done).
           by rewrite lookup_delete_ne.
    + destruct (decide (k ∈ names)) as [Hin|Hnin].
      * rewrite decide_True; [done|by right].
      * destruct (decide (k = f)) as [->|Hne].
        -- by rewrite decide_True by left.
        -- by rewrite decide_False by (rewrite not_elem_of_cons; done).
Qed.

Lemma setattr_loop_row (b : models.Bundle.t) (fs : gmap string Value) :
  (foldl (λ '(b, fs) str_field,
            match fs !! str_field with
            | Some v => (Bundle_setattr str_field v b, delete str_field fs)
            | None => (b, fs)
            end) (b, fs) ["title"; "description"; "slug"]).1
  = {| models.Bundle.id := models.Bundle.id b;
       models.Bundle.uuid := models.Bundle.uuid b;
       models.Bundle.title := default (models.Bundle.title b) (fs !! "title");
       models.Bundle.description :=
         default (models.Bundle.description b) (fs !! "description");
       models.Bundle.slug := default (models.Bundle.slug b) (fs !! "slug");
       models.Bundle.collection := models.Bundle.collection b |}.
Proof.
  cbn [foldl].
  destruct (fs !! "title") as [t|] eqn:Ht;
    rewrite ?lookup_delete_ne by done;
    destruct (fs !! "description") as [d|] eqn:Hd;
    rewrite ?lookup_delete_ne by done; rewrite ?Hd;
    destruct (fs !! "slug") as [s|] eqn:Hs;
    rewrite ?lookup_delete_ne by done; rewrite ?Hs; destruct b; reflexivity.
Qed.

(** X6.  [update_bundle] with any of [title], [description] and [slug], and
    nothing else, replaces exactly those attributes: it returns the bundle
    with the values it was given, a field that is not given keeping its
    value, and rewrites the row with them as text.  [get_bundle] afterwards
    returns the bundle with [str] of each, the same uuid, drafts and
    [latest_version]; drafts, collections and versions are not touched.
    When one of the three ends up [None] the update is refused with
    [IntegrityError] and nothing is written.  Primary keys are taken to be
    unique. *)
Theorem update_bundle_then_get
    (u : UUID) (b : models.Bundle.t) (fields : gmap string Value) (st : DB) :
  filter (λ r, models.Bundle.uuid r = u) (bundles st) = [b] →
  NoDup (models.Bundle.id <$> bundles st) →
  (∀ k, is_Some (fields !! k) → k ∈ ["title"; "description"; "slug"]) →
  let title := default (models.Bundle.title b) (fields !! "title") in
  let description := default (models.Bundle.description b) (fields !! "description") in
  let slug := default (models.Bundle.slug b) (fields !! "slug") in
  (title = VNone ∨ description = VNone ∨ slug = VNone →
     update_bundle (VUuid u) fields st = (Raise IntegrityError, st))
  ∧ (title ≠ VNone → description ≠ VNone → slug ≠ VNone →
     ∃ data read st1,
       update_bundle (VUuid u) fields st = (Ok data, st1)
       ∧ get_bundle (VUuid u) st1 = (Ok read, st1)
       ∧ Bundle.uuid data = u ∧ Bundle.title data = title
       ∧ Bundle.description data = description ∧ Bundle.slug data = slug
       ∧ Bundle.uuid read = u ∧ Bundle.title read = VStr (py_str title)
       ∧ Bundle.description read = VStr (py_str description)
       ∧ Bundle.slug read = VStr (py_str slug)
       ∧ Bundle.drafts read = Bundle.drafts data
       ∧ Bundle.latest_version read = Bundle.latest_version data
       ∧ drafts st1 = drafts st ∧ collections st1 = collections st
       ∧ bundle_versions st1 = bundle_versions st).
Proof.
  intros Hrow Hpk Hkeys title description slug.
  destruct (filter_head_elem _ _ _ _ Hrow) as [Hin Hu].
  unfold update_bundle, Bundle_objects_get. run_bind.
  cbn [assert_isinstance_UUID]. run_bind. cbv beta iota.
  rewrite get_or_else_eq, Hrow.
  pose proof (setattr_loop_row b fields) as Hb'.
  pose proof (setattr_loop_lookup ["title"; "description"; "slug"] b fields) as Hfs.
  destruct (foldl _ (b, fields) _) as [b' fs'] eqn:Hloop. simpl in Hb', Hfs.
  fold title description slug in Hb'.
  assert (Hempty : fs' = ∅).
  { apply map_empty. intros k. rewrite Hfs. case_decide as Hk; [done|].
    destruct (fields !! k) eqn:Hfk; [|done]. destruct Hk. apply Hkeys. by eexists. }
  subst fs'. rewrite lookup_empty. cbv beta iota. rewrite decide_True by done.
  unfold Bundle_save, Bundle_row. rewrite Hb'.
  cbn [models.Bundle.title models.Bundle.description models.Bundle.slug
       models.Bundle.id models.Bundle.uuid models.Bundle.collection].
  split.
  { intros [->|[->| ->]]; [done| |].
    - by destruct (to_text title).
    - by destruct (to_text title), (to_text description). }
  intros Ht Hd Hs.
  rewrite (to_text_Some title Ht), (to_text_Some description Hd), (to_text_Some slug Hs).
  cbn [mbind option_bind]. unfold modify.
  set (obj := {| models.Bundle.id := models.Bundle.id b;
                 models.Bundle.uuid := models.Bundle.uuid b;
                 models.Bundle.title := title;
                 models.Bundle.description := description;
                 models.Bundle.slug := slug;
                 models.Bundle.collection := models.Bundle.collection b |}).
  set (row := {| models.Bundle.id := models.Bundle.id b;
                 models.Bundle.uuid := models.Bundle.uuid b;
                 models.Bundle.title := VStr (py_str title);
                 models.Bundle.description := VStr (py_str description);
                 models.Bundle.slug := VStr (py_str slug);
                 models.Bundle.collection := models.Bundle.collection b |}).
  set (g := λ r, if decide (models.Bundle.id r = models.Bundle.id b) then row else r).
  set (st1 := set_bundles (fmap g) st).
  destruct (_data_from_bundle_total obj st1) as (data & Hdata & Huuid & Hlatest & Hdrafts).
  destruct (_data_from_bundle_total row st1) as (read & Hread & Huuid' & Hlatest' & Hdrafts').
  exists data, read, st1. rewrite Hdata. split; [done|].
  assert (Hg : ∀ r, r ∈ bundles st →
            (models.Bundle.uuid (g r) = u ↔ models.Bundle.uuid r = u)).
  { intros r Hr. unfold g. case_decide as Hrid; [|done].
    by rewrite (NoDup_fmap_elem_inj _ _ r b Hpk Hr Hin Hrid). }
  assert (Hget : get_bundle (VUuid u) st1 = (Ok read, st1)).
  { rewrite (get_bundle_of_row u row st1); [done|]. simpl.
    rewrite (filter_fmap_compat _ g) by exact Hg.
    rewrite Hrow. simpl. unfold g. by rewrite decide_True. }
  assert (Hfields : Bundle.title data = title ∧ Bundle.description data = description
                    ∧ Bundle.slug data = slug).
  { unfold _data_from_bundle in Hdata. run_monad. by injection Hdata as <-. }
  assert (Hfields' : Bundle.title read = VStr (py_str title)
                     ∧ Bundle.description read = VStr (py_str description)
                     ∧ Bundle.slug read = VStr (py_str slug)).
  { unfold _data_from_bundle in Hread. run_monad. by injection Hread as <-. }
  destruct Hfields as (? & ? & ?). destruct Hfields' as (? & ? & ?).
  split_and!; try done.
  - by rewrite Huuid.
  - by rewrite Huuid'.
  - by rewrite Hdrafts, Hdrafts'.
  - by rewrite Hlatest, Hlatest'.
Qed.

Lemma sample_db_bundle_pk : NoDup (models.Bundle.id <$> bundles sample_db).
Proof.
  simpl. repeat (apply NoDup_cons; split; [rewrite ?elem_of_cons, elem_of_nil; lia|]).
  apply NoDup_nil_2.
Defined.

Lemma update_bundle_then_get_witness :
  (∃ data read st1,
     update_bundle (VUuid 11%N) {[ "title" := VStr "Course 2" ]} sample_db = (Ok data, st1)
     ∧ get_bundle (VUuid 11%N) st1 = (Ok read, st1)
     ∧ Bundle.title data = VStr "Course 2" ∧ Bundle.title read = VStr "Course 2"
     ∧ Bundle.slug read = VStr "course")
  ∧ update_bundle (VUuid 11%N) {[ "title" := VNone ]} sample_db
    = (Raise IntegrityError, sample_db).
Proof.
  assert (Hkeys : ∀ t k, is_Some (({[ "title" := t ]} : gmap string Value) !! k)
                         → k ∈ ["title"; "description"; "slug"]).
  { intros t k [v Hk]. apply lookup_singleton_Some in Hk as [<- _]. left. }
  split.
  - destruct (update_bundle_then_get 11%N sample_course {[ "title" := VStr "Course 2" ]}
                sample_db eq_refl sample_db_bundle_pk (Hkeys _)) as [_ Hok].
    destruct Hok as (data & read & st1 & Hup & Hget & _ & Ht & _ & _ & _ & Ht' & _ & Hs' & _);
      [discriminate|discriminate|discriminate|].
    exists data, read, st1. split_and!; [exact Hup|exact Hget|exact Ht|exact Ht'|exact Hs'].
  - apply (update_bundle_then_get 11%N sample_course {[ "title" := VNone ]}
             sample_db eq_refl sample_db_bundle_pk (Hkeys _)).
    by left.
Defined.

Lemma update_bundle_unknown_field_witness :
  update_bundle (VUuid 11%N) {[ "title" := VStr "T"; "owner" := VStr "me" ]} sample_db
  = (Raise ValueError, sample_db).
Proof.
  apply (update_bundle_unknown_field 11%N sample_course
           {[ "title" := VStr "T"; "owner" := VStr "me" ]} "owner" (VStr "me") sample_db).
  - vm_compute; reflexivity.
  - rewrite !not_elem_of_cons. split_and!; try discriminate. apply not_elem_of_nil.
  - vm_compute; reflexivity.
  - vm_compute; reflexivity.
Defined.

(** ** Deleting a bundle *)

Lemma filter_filter_implied {A} (P Q : A → Prop) `{!∀ x, Decision (P x)}
    `{!∀ x, Decision (Q x)} (l : list A) :
  (∀ x, P x → Q x) → filter P (filter Q l) = filter P l.
Proof.
  intros HPQ. induction l as [|x l IH]; [done|].
  rewrite (filter_cons Q). destruct (decide (Q x)) as [HQ|HQ].
  - rewrite !filter_cons. by rewrite IH.
  - rewrite IH. rewrite filter_cons_False; [done|]. intros HP. by apply HQ, HPQ.
Qed.

Lemma _data_from_draft_other_bundle (b : models.Bundle.t) (d : models.Draft.t) (st : DB) :
  models.Draft.bundle d ≠ models.Bundle.id b →
  outcome (_data_from_draft d) (exec (Bundle_delete b) st)
  = outcome (_data_from_draft d) st.
Proof.
  intros Hne. unfold outcome, exec, _data_from_draft, Draft_bundle, Draft_staged_draft,
    Bundle_delete, snapshot_of. run_monad.
  unfold set_bundles, set_drafts, set_bundle_versions. simpl.
  rewrite (filter_filter_implied _ (λ r, models.Bundle.id r ≠ models.Bundle.id b))
    by (intros r ->; exact Hne).
  destruct (filter _ (bundles st)) as [|b0 rest]; [done|]. simpl.
  destruct (draft_repo st !! models.Draft.uuid d) as [s|]; [|done]. simpl.
  rewrite (filter_filter_implied _
             (λ r, models.BundleVersion.bundle r ≠ models.Bundle.id b))
    by (intros r [-> _]; exact Hne).
  done.
Qed.

(** X7.  [delete_bundle] removes the bundle and, with it, every draft row
    of the bundle (the foreign key cascades): afterwards [get_bundle] raises
    [BundleNotFound] and [get_draft] raises [DraftNotFound] for each of
    those drafts, while the drafts of other bundles stay and read as
    before.  Collections are not touched. *)
Theorem delete_bundle_cascades (u : UUID) (b : models.Bundle.t) (st : DB) :
  filter (λ r, models.Bundle.uuid r = u) (bundles st) = [b] →
  NoDup (models.Draft.uuid <$> drafts st) →
  ∃ st1, delete_bundle (VUuid u) st = (Ok tt, st1)
    ∧ get_bundle (VUuid u) st1 = (Raise BundleNotFound, st1)
    ∧ (∀ d, d ∈ drafts st1 ↔ d ∈ drafts st ∧ models.Draft.bundle d ≠ models.Bundle.id b)
    ∧ (∀ d, d ∈ drafts st → models.Draft.bundle d = models.Bundle.id b →
         get_draft (VUuid (models.Draft.uuid d)) st1 = (Raise DraftNotFound, st1))
    ∧ (∀ d, d ∈ drafts st → models.Draft.bundle d ≠ models.Bundle.id b →
         outcome (get_draft (VUuid (models.Draft.uuid d))) st1
         = outcome (get_draft (VUuid (models.Draft.uuid d))) st)
    ∧ collections st1 = collections st.
Proof.
  intros Hrow Huuid.
  destruct (filter_head_elem _ _ _ _ Hrow) as [Hin Hu].
  unfold delete_bundle, Bundle_objects_get. run_bind.
  cbn [assert_isinstance_UUID]. run_bind. cbv beta iota.
  rewrite get_or_else_eq, Hrow.
  exists (exec (Bundle_delete b) st). split; [reflexivity|].
  assert (Hdr : drafts (exec (Bundle_delete b) st)
                = filter (λ d, models.Draft.bundle d ≠ models.Bundle.id b) (drafts st))
    by reflexivity.
  assert (Hone : ∀ d, d ∈ drafts st →
            filter (λ r, models.Draft.uuid r = models.Draft.uuid d) (drafts st) = [d]).
  { intros d Hd. by apply (filter_unique_key models.Draft.uuid). }
  split_and!; [| | | |done].
  - unfold get_bundle, Bundle_objects_get. run_bind.
    cbn [assert_isinstance_UUID]. run_bind. cbv beta iota.
    rewrite get_or_else_eq. simpl.
    rewrite (proj2 (filter_empty_iff _ _)); [done|].
    intros r [Hid Hr]%list_elem_of_filter Hru.
    assert (Hrf : r ∈ filter (λ r, models.Bundle.uuid r = u) (bundles st))
      by by apply list_elem_of_filter.
    rewrite Hrow in Hrf. apply list_elem_of_singleton in Hrf. by subst.
  - intros d. rewrite Hdr, list_elem_of_filter. tauto.
  - intros d Hd Hb. unfold get_draft, Draft_objects_get. run_bind.
    cbn [assert_isinstance_UUID]. run_bind. cbv beta iota.
    rewrite get_or_else_eq, Hdr.
    rewrite (proj2 (filter_empty_iff _ _)); [done|].
    intros r [Hrb Hr]%list_elem_of_filter Hru.
    assert (r = d) as -> by by apply (NoDup_fmap_elem_inj models.Draft.uuid (drafts st)).
    done.
  - intros d Hd Hb. unfold outcome, get_draft, Draft_objects_get. run_bind.
    cbn [assert_isinstance_UUID]. run_bind. cbv beta iota.
    rewrite !get_or_else_eq, Hdr, Hone by done.
    assert (Hf : filter (λ r, models.Draft.uuid r = models.Draft.uuid d)
                   (filter (λ d, models.Draft.bundle d ≠ models.Bundle.id b) (drafts st))
                 = [d]).
    { rewrite list_filter_filter.
      rewrite (list_filter_iff _ (λ r, models.Draft.bundle r ≠ models.Bundle.id b
                                      ∧ models.Draft.uuid r = models.Draft.uuid d))
        by (intros; tauto).
      rewrite <- list_filter_filter, Hone by done.
      by rewrite filter_cons_True, filter_nil. }
    rewrite Hf. cbv beta iota.
    pose proof (_data_from_draft_other_bundle b d st Hb) as Hsame.
    unfold outcome in Hsame.
    destruct (_data_from_draft d (exec (Bundle_delete b) st)) as [r1 s1].
    destruct (_data_from_draft d st) as [r2 s2]. simpl in *. by subst.
Qed.

Lemma sample_db_draft_uuid : NoDup (models.Draft.uuid <$> drafts sample_db).
Proof. simpl. apply NoDup_singleton. Defined.

Lemma delete_bundle_cascades_witness :
  ∃ st1, delete_bundle (VUuid 11%N) sample_db = (Ok tt, st1)
    ∧ get_bundle (VUuid 11%N) st1 = (Raise BundleNotFound, st1)
    ∧ get_draft (VUuid 12%N) st1 = (Raise DraftNotFound, st1).
Proof.
  destruct (delete_bundle_cascades 11%N sample_course sample_db eq_refl
              sample_db_draft_uuid) as (st1 & Hdel & Hget & _ & Hgone & _).
  exists st1. split_and!; [exact Hdel|exact Hget|].
  apply (Hgone sample_draft); [left|reflexivity].
Defined.

(** ** The drafts a bundle lists *)

Lemma dict_of_snoc {K V} `{Countable K} (items : list (K * V)) (kv : K * V) :
  dict_of (items ++ [kv]) = <[kv.1 := kv.2]> (dict_of items).
Proof. unfold dict_of. by rewrite foldl_app. Qed.

Lemma dict_of_lookup_Some {K V} `{Countable K} (items : list (K * V)) (k : K) (v : V) :
  NoDup items.*1 → (dict_of items !! k = Some v ↔ (k, v) ∈ items).
Proof.
  induction items as [|kv items IH] using rev_ind; intros Hnd.
  - unfold dict_of. simpl. rewrite lookup_empty. split; [done|].
    by intros ?%elem_of_nil.
  - rewrite fmap_app, NoDup_app in Hnd. destruct Hnd as (Hnd & Hdisj & _).
    rewrite dict_of_snoc, elem_of_app, list_elem_of_singleton.
    destruct (decide (kv.1 = k)) as [Heq|Hne].
    + rewrite Heq, lookup_insert_eq. split.
      * intros [= <-]. right. by destruct kv; simpl in *; subst.
      * intros [Hin|Hkv]; [|by rewrite <- Hkv]. exfalso. apply (Hdisj k).
        -- apply list_elem_of_fmap. by exists (k, v).
        -- rewrite <- Heq. simpl. left.
    + rewrite lookup_insert_ne by done. rewrite IH by done. split; [by left|].
      intros [Hin|Hkv]; [done|]. destruct Hne. by rewrite <- Hkv.
Qed.

Lemma drafts_all_names_NoDup (b : models.Bundle.t) (st : DB) :
  unique_together st →
  NoDup ((λ d, (models.Draft.name d, models.Draft.uuid d)) <$> Bundle_drafts_all b st).*1.
Proof.
  intros Huniq. unfold Bundle_drafts_all.
  pose proof (NoDup_fmap_filter draft_key
                (λ r, models.Draft.bundle r = models.Bundle.id b) (drafts st) Huniq) as Hnd.
  rewrite <- list_fmap_compose.
  apply (NoDup_fmap_1 (λ n, (models.Bundle.id b, n))).
  rewrite <- list_fmap_compose.
  erewrite list_fmap_ext; [exact Hnd|].
  intros i d Hd%list_elem_of_lookup_2. apply list_elem_of_filter in Hd as [Hb _].
  simpl. unfold draft_key. by rewrite Hb.
Qed.

Lemma _data_from_bundle_drafts (b : models.Bundle.t) (st : DB) (data : Bundle.t) :
  unique_together st →
  _data_from_bundle b st = (Ok data, st) →
  ∀ n draft_uuid,
    Bundle.drafts data !! n = Some draft_uuid
    ↔ ∃ d, d ∈ drafts st ∧ names_draft b n d ∧ models.Draft.uuid d = draft_uuid.
Proof.
  intros Huniq Hdata n du.
  destruct (_data_from_bundle_total b st) as (data' & Hdata' & _ & _ & Hdrafts).
  rewrite Hdata in Hdata'. injection Hdata' as <-. rewrite Hdrafts.
  rewrite (dict_of_lookup_Some _ n du (drafts_all_names_NoDup b st Huniq)).
  rewrite list_elem_of_fmap. unfold Bundle_drafts_all, names_draft. split.
  - intros (d & [= -> ->] & [Hb Hin]%list_elem_of_filter). by exists d.
  - intros (d & Hin & [Hb Hn] & Hu). exists d. split; [by rewrite Hn, Hu|].
    by apply list_elem_of_filter.
Qed.

(** X8.  The [drafts] dict of the bundle [get_bundle] returns maps exactly
    the names of the bundle's drafts to their uuids: an entry for every
    draft row of the bundle, and no entry that is not one. *)
Theorem bundle_lists_its_drafts (u : UUID) (b : models.Bundle.t) (st : DB) :
  filter (λ r, models.Bundle.uuid r = u) (bundles st) = [b] →
  unique_together st →
  ∃ data, get_bundle (VUuid u) st = (Ok data, st)
    ∧ ∀ n draft_uuid,
        Bundle.drafts data !! n = Some draft_uuid
        ↔ ∃ d, d ∈ drafts st ∧ names_draft b n d ∧ models.Draft.uuid d = draft_uuid.
Proof.
  intros Hrow Huniq.
  destruct (_data_from_bundle_total b st) as (data & Hdata & _).
  exists data. split; [by rewrite (get_bundle_of_row u b st Hrow)|].
  by apply _data_from_bundle_drafts.
Qed.

Lemma bundle_lists_its_drafts_witness :
  ∃ data, get_bundle (VUuid 11%N) sample_db = (Ok data, sample_db)
    ∧ (Bundle.drafts data !! "studio" = Some 12%N
       ↔ ∃ d, d ∈ drafts sample_db ∧ names_draft sample_course "studio" d
              ∧ models.Draft.uuid d = 12%N).
Proof.
  destruct (bundle_lists_its_drafts 11%N sample_course sample_db eq_refl
              sample_db_unique_together) as (data & Hget & Hmap).
  exists data. split; [exact Hget|exact (Hmap "studio" 12%N)].
Defined.

(** X9.  The draft [get_or_create_bundle_draft] returns can be read back:
    [get_draft] under its uuid returns the same draft, and [get_bundle]
    lists that uuid under the draft's name. *)
Theorem get_or_create_then_read
    (u : UUID) (b : models.Bundle.t) (n : string) (fresh : UUID) (st : DB)
    (data : Draft.t) (st1 : DB) :
  filter (λ r, models.Bundle.uuid r = u) (bundles st) = [b] →
  unique_together st →
  NoDup (models.Draft.uuid <$> drafts st) →
  get_or_create_bundle_draft (VUuid u) n fresh st = (Ok data, st1) →
  get_draft (VUuid (Draft.uuid data)) st1 = (Ok data, st1)
  ∧ Draft.name data = n
  ∧ ∃ bundle, get_bundle (VUuid u) st1 = (Ok bundle, st1)
              ∧ Bundle.drafts bundle !! n = Some (Draft.uuid data).
Proof.
  intros Hrow Huniq Huuid Hcall.
  rewrite (get_or_create_of_row u b n fresh st Hrow) in Hcall.
  assert (Hread : ∀ d st', unique_together st' → bundles st' = bundles st →
            d ∈ drafts st' → names_draft b n d →
            filter (λ r, models.Draft.uuid r = models.Draft.uuid d) (drafts st') = [d] →
            _data_from_draft d st' = (Ok data, st1) →
            get_draft (VUuid (Draft.uuid data)) st1 = (Ok data, st1)
            ∧ Draft.name data = n
            ∧ ∃ bundle, get_bundle (VUuid u) st1 = (Ok bundle, st1)
                        ∧ Bundle.drafts bundle !! n = Some (Draft.uuid data)).
  { intros d st' Huniq' Hb' Hin Hn Hone Hd.
    destruct (_data_from_draft_outcome d st') as (Hst & _ & Hok).
    rewrite Hd in Hst. simpl in Hst. subst st1.
    destruct (Hok data) as (Hdu & Hdn & _); [by rewrite Hd|].
    split_and!.
    - unfold get_draft, Draft_objects_get. run_bind.
      cbn [assert_isinstance_UUID]. run_bind. cbv beta iota.
      by rewrite get_or_else_eq, Hdu, Hone.
    - rewrite Hdn. apply Hn.
    - destruct (_data_from_bundle_total b st') as (bundle & Hbundle & _).
      exists bundle. split.
      + rewrite (get_bundle_of_row u b st'); [done|by rewrite Hb'].
      + apply (_data_from_bundle_drafts b st' bundle Huniq' Hbundle).
        exists d. by rewrite Hdu. }
  destruct (filter _ (drafts st)) as [|d [|d' rest]] eqn:Hf; [| |done].
  - unfold Draft_save_new in Hcall. case_decide as Hex; [done|].
    set (new := {| models.Draft.id := next_id st; models.Draft.uuid := fresh;
                   models.Draft.name := n; models.Draft.bundle := models.Bundle.id b |}) in *.
    match type of Hcall with
    | _data_from_draft new ?s = _ => apply (Hread new s)
    end; try done.
    + pose proof (preserves_Draft_save_new b n fresh st Huniq) as Hp.
      unfold exec, Draft_save_new in Hp. by rewrite decide_False in Hp.
    + simpl. apply elem_of_app. right. left.
    + simpl. rewrite filter_app, filter_cons_True, filter_nil by done.
      rewrite (proj2 (filter_empty_iff _ (drafts st))); [done|].
      intros r Hr Hru. apply Hex, Exists_exists. exists r. split; [done|by left].
  - destruct (filter_head_elem _ _ _ _ Hf) as [Hin Hn].
    apply (Hread d st); try done.
    by apply (filter_unique_key models.Draft.uuid).
Qed.

Lemma get_or_create_then_read_witness :
  ∃ data,
    get_or_create_bundle_draft (VUuid 11%N) "studio" 99%N sample_db = (Ok data, sample_db)
    ∧ get_draft (VUuid (Draft.uuid data)) sample_db = (Ok data, sample_db).
Proof.
  eexists. split; [vm_compute; reflexivity|].
  refine (proj1 (get_or_create_then_read 11%N sample_course "studio" 99%N sample_db
                   _ sample_db eq_refl sample_db_unique_together sample_db_draft_uuid _)).
  vm_compute; reflexivity.
Defined.

(** ** The files and links dicts *)

Section Dicts.

Variable api_url : list string → string.
Variable api_request : string → string → option Body → M Response.

(** X11.  An empty draft name selects no draft, even when a draft of that
    name exists: with [use_draft=''] the files, the links and a file's
    metadata are read exactly as with [use_draft=None]. *)
Theorem empty_draft_name_is_no_draft (bundle_uuid : Value) (path : string) (st : DB) :
  get_bundle_files_dict api_url api_request bundle_uuid (Some "") st
  = get_bundle_files_dict api_url api_request bundle_uuid None st
  ∧ get_bundle_links api_url api_request bundle_uuid (Some "") st
    = get_bundle_links api_url api_request bundle_uuid None st
  ∧ get_bundle_file_metadata api_url api_request bundle_uuid path (Some "") st
    = get_bundle_file_metadata api_url api_request bundle_uuid path None st.
Proof. split_and!; reflexivity. Qed.

(** X12.  When [use_draft] names a draft of the bundle, the files are the
    draft's: [get_bundle_files_dict] returns the files of [get_draft] for
    that draft, whatever the bundle's committed versions are, and does not
    ask the backend. *)
Theorem named_draft_is_read
    (u : UUID) (b : models.Bundle.t) (n : string) (d : models.Draft.t) (st : DB) :
  filter (λ r, models.Bundle.uuid r = u) (bundles st) = [b] →
  unique_together st →
  d ∈ drafts st → names_draft b n d → n ≠ "" →
  get_bundle_files_dict api_url api_request (VUuid u) (Some n) st
  = (draft ← get_draft (VUuid (models.Draft.uuid d)); mret (OfDraft <$> Draft.files draft)) st.
Proof.
  intros Hrow Huniq Hin Hn Hne.
  destruct (_data_from_bundle_total b st) as (data & Hdata & _).
  assert (Hl : Bundle.drafts data !! n = Some (models.Draft.uuid d)).
  { apply (_data_from_bundle_drafts b st data Huniq Hdata). by exists d. }
  unfold get_bundle_files_dict. run_bind.
  rewrite (get_bundle_of_row u b st Hrow), Hdata. cbv beta iota.
  unfold selected_draft. rewrite decide_False by done. by rewrite Hl.
Qed.

(** X13.  Through a draft of the bundle, [get_bundle_file_metadata] answers
    from the files [get_draft] reports for that draft: a path the staged
    diff writes, or one the base snapshot holds and the diff does not
    delete, gives its [DraftFile], flagged [modified] exactly when the diff
    names the path; any other path raises [BundleFileNotFound].  Nothing is
    written and the backend is not asked. *)
Theorem file_metadata_through_draft
    (u : UUID) (b : models.Bundle.t) (n : string) (d : models.Draft.t)
    (s : StagedState.t) (path : string) (st : DB) :
  filter (λ r, models.Bundle.uuid r = u) (bundles st) = [b] →
  unique_together st →
  NoDup (models.Draft.uuid <$> drafts st) →
  d ∈ drafts st → names_draft b n d → n ≠ "" →
  draft_repo st !! models.Draft.uuid d = Some s →
  let base := from_option models.BundleVersion.files ∅
                (snapshot_of (models.Bundle.id b) (StagedState.base_version_num s) st) in
  get_bundle_file_metadata api_url api_request (VUuid u) path (Some n) st
  = match overlay_files base (StagedState.staged_files s) !! path with
    | Some file_info =>
        (Ok (OfDraft {| DraftFile.path := path;
                        DraftFile.size := FileInfo.size file_info;
                        DraftFile.url := path;
                        DraftFile.hash_digest := FileInfo.hash_digest file_info;
                        DraftFile.modified :=
                          bool_decide (is_Some (StagedState.staged_files s !! path)) |}),
         st)
    | None => (Raise BundleFileNotFound, st)
    end.
Proof.
  intros Hrow Huniq Huuid Hin Hn Hne Hs base.
  destruct (filter_head_elem _ _ _ _ Hrow) as [Hbin _].
  destruct (_data_from_bundle_total b st) as (data & Hdata & _).
  assert (Hl : Bundle.drafts data !! n = Some (models.Draft.uuid d)).
  { apply (_data_from_bundle_drafts b st data Huniq Hdata). by exists d. }
  unfold get_bundle_file_metadata, get_bundle_files_dict. run_bind.
  cbn [assert_isinstance_UUID]. run_bind. cbv beta iota.
  rewrite (get_bundle_of_row u b st Hrow), Hdata. cbv beta iota.
  unfold selected_draft. rewrite decide_False by done. rewrite Hl.
  unfold get_draft, Draft_objects_get. run_bind.
  cbn [assert_isinstance_UUID]. run_bind. cbv beta iota.
  rewrite get_or_else_eq.
  rewrite (filter_unique_key models.Draft.uuid (drafts st) d Huuid Hin).
  unfold _data_from_draft, Draft_bundle, Draft_staged_draft. run_monad.
  destruct Hn as [Hfk _]. rewrite Hfk.
  assert (Hbf : b ∈ filter (λ r, models.Bundle.id r = models.Bundle.id b) (bundles st))
    by by apply list_elem_of_filter.
  destruct (filter (λ r, models.Bundle.id r = models.Bundle.id b) (bundles st))
    as [|b0 rest]; [by apply elem_of_nil in Hbf|].
  rewrite Hs. cbn [Draft.files StagedDraft.files StagedDraft.files_to_overwrite].
  fold base. rewrite lookup_fmap, map_lookup_imap.
  by destruct (overlay_files base (StagedState.staged_files s) !! path).
Qed.

End Dicts.

Lemma named_draft_is_read_witness :
  get_bundle_files_dict store_api_url store_api_request (VUuid 11%N) (Some "studio")
    sample_db
  = (draft ← get_draft (VUuid 12%N); mret (OfDraft <$> Draft.files draft)) sample_db.
Proof.
  apply (named_draft_is_read store_api_url store_api_request 11%N sample_course
           "studio" sample_draft sample_db eq_refl sample_db_unique_together).
  - left.
  - split; reflexivity.
  - discriminate.
Defined.

(** The draft [studio] writes [b.txt] over version 1, which holds [a.txt]. *)
Lemma file_metadata_through_draft_witness :
  get_bundle_file_metadata store_api_url store_api_request (VUuid 11%N) "b.txt"
    (Some "studio") sample_db
  = (Ok (OfDraft {| DraftFile.path := "b.txt"; DraftFile.size := 3;
                    DraftFile.url := "b.txt";
                    DraftFile.hash_digest := text_bytes "bye";
                    DraftFile.modified := true |}), sample_db)
  ∧ get_bundle_file_metadata store_api_url store_api_request (VUuid 11%N) "a.txt"
      (Some "studio") sample_db
    = (Ok (OfDraft {| DraftFile.path := "a.txt"; DraftFile.size := 5;
                      DraftFile.url := "a.txt";
                      DraftFile.hash_digest := text_bytes "hello";
                      DraftFile.modified := false |}), sample_db)
  ∧ get_bundle_file_metadata store_api_url store_api_request (VUuid 11%N) "c.txt"
      (Some "studio") sample_db
    = (Raise BundleFileNotFound, sample_db).
Proof.
  assert (Hread : ∀ path,
            get_bundle_file_metadata store_api_url store_api_request (VUuid 11%N) path
              (Some "studio") sample_db
            = match overlay_files
                      (from_option models.BundleVersion.files ∅
                         (snapshot_of 2 1 sample_db))
                      (StagedState.staged_files sample_staged) !! path with
              | Some file_info =>
                  (Ok (OfDraft {| DraftFile.path := path;
                                  DraftFile.size := FileInfo.size file_info;
                                  DraftFile.url := path;
                                  DraftFile.hash_digest := FileInfo.hash_digest file_info;
                                  DraftFile.modified :=
                                    bool_decide (is_Some
                                      (StagedState.staged_files sample_staged !! path)) |}),
                   sample_db)
              | None => (Raise BundleFileNotFound, sample_db)
              end).
  { intros path.
    apply (file_metadata_through_draft store_api_url store_api_request 11%N
             sample_course "studio" sample_draft sample_staged path sample_db eq_refl
             sample_db_unique_together sample_db_draft_uuid).
    - left.
    - split; reflexivity.
    - discriminate.
    - reflexivity. }
  split_and!; rewrite Hread; vm_compute; reflexivity.
Defined.

(** ** Encoding contents *)

Lemma utf8_encode_cp_None (cp : N) :
  utf8_encode_cp cp = None ↔ (55296 ≤ cp ∧ cp ≤ 57343)%N ∨ (1114112 ≤ cp)%N.
Proof.
  unfold utf8_encode_cp. repeat case_decide; split; try done; lia.
Qed.

Lemma utf8_encode_None (t : list N) :
  utf8_encode t = None
  ↔ Exists (λ cp, (55296 ≤ cp ∧ cp ≤ 57343)%N ∨ (1114112 ≤ cp)%N) t.
Proof.
  induction t as [|cp t IH]; simpl.
  - split; [done|]. by intros ?%Exists_nil.
  - rewrite Exists_cons, <- IH, <- utf8_encode_cp_None.
    destruct (utf8_encode_cp cp), (utf8_encode t); split; try done; try tauto.
    by intros [?|?].
Qed.

Lemma utf8_encode_ascii (t : list N) :
  Forall (λ cp, (cp < 128)%N) t → utf8_encode t = Some (byte_of <$> t).
Proof.
  induction 1 as [|cp t Hcp _ IH]; [done|]. simpl.
  unfold utf8_encode_cp. rewrite decide_True by done. by rewrite IH.
Qed.

Lemma b64encode_length (bs : bytes) :
  length (b64encode bs) = (4 * ((length bs + 2) / 3))%nat.
Proof.
  induction bs as [|a|a b|a b c rest IH] using list_ind_by_three; try reflexivity.
  cbn [b64encode length]. rewrite IH.
  replace (S (S (S (length rest))) + 2)%nat with (1 * 3 + (length rest + 2))%nat by lia.
  rewrite Nat.div_add_l by done. lia.
Qed.

(** X14.  [encode_str_for_draft] reads nothing and writes nothing.  It
    accepts every binary string, and every text but one holding a code point
    that UTF-8 cannot encode (a surrogate), for which it raises
    [UnicodeEncodeError], its only error.  What it returns is the Base64
    text of the bytes, four characters for every three bytes begun, from
    which the bytes are recovered; text of ASCII characters encodes as the
    bytes of the same values. *)
Theorem encode_str_for_draft_outcome (input_str : PyData) (st : DB) :
  exec (encode_str_for_draft input_str) st = st
  ∧ (∀ e, outcome (encode_str_for_draft input_str) st = Raise e →
       e = UnicodeEncodeError
       ∧ ∃ t, input_str = Text t
              ∧ Exists (λ cp, (55296 ≤ cp ∧ cp ≤ 57343)%N ∨ (1114112 ≤ cp)%N) t)
  ∧ (∀ t, input_str = Text t →
       Exists (λ cp, (55296 ≤ cp ∧ cp ≤ 57343)%N ∨ (1114112 ≤ cp)%N) t →
       outcome (encode_str_for_draft input_str) st = Raise UnicodeEncodeError)
  ∧ (∀ out, outcome (encode_str_for_draft input_str) st = Ok out →
       ∃ raw, raw_bytes input_str = Some raw ∧ out = b64encode raw
              ∧ b64decode out = Some raw
              ∧ length out = (4 * ((length raw + 2) / 3))%nat)
  ∧ (∀ b, input_str = Bytes b →
       outcome (encode_str_for_draft input_str) st = Ok (b64encode b))
  ∧ (∀ t, input_str = Text t → Forall (λ cp, (cp < 128)%N) t →
       outcome (encode_str_for_draft input_str) st = Ok (b64encode (byte_of <$> t))).
Proof.
  unfold exec, outcome, encode_str_for_draft. run_monad.
  destruct input_str as [t|b]; simpl.
  - destruct (utf8_encode t) as [raw|] eqn:Hraw; simpl.
    + split_and!; try done.
      * intros t' [= <-] Hbad. apply utf8_encode_None in Hbad. congruence.
      * intros out [= <-]. exists raw.
        split_and!; [done|done|apply b64decode_b64encode|apply b64encode_length].
      * intros t' [= <-] Hascii. rewrite (utf8_encode_ascii t Hascii) in Hraw.
        by injection Hraw as <-.
    + split_and!; try done.
      * intros e [= <-]. split; [done|]. exists t. split; [done|].
        by apply utf8_encode_None.
      * intros t' [= <-] Hascii. rewrite (utf8_encode_ascii t Hascii) in Hraw. done.
  - split_and!; try done.
    + intros out [= <-]. exists b.
      split_and!; [done|done|apply b64decode_b64encode|apply b64encode_length].
    + by intros b' [= <-].
Qed.

(** X15.  [write_draft_file] encodes the contents before it stages
    anything: with text that UTF-8 cannot encode it raises
    [UnicodeEncodeError] and the draft, the content store and the rest of
    the database are as before. *)
Theorem write_draft_file_unencodable
    (content_digest : bytes → Digest) (d : UUID) (path : string) (t : list N) (st : DB) :
  Exists (λ cp, (55296 ≤ cp ∧ cp ≤ 57343)%N ∨ (1114112 ≤ cp)%N) t →
  write_draft_file content_digest d path (Some (Text t)) st
  = (Raise UnicodeEncodeError, st).
Proof.
  intros Hbad%utf8_encode_None. unfold write_draft_file, encode_str_for_draft.
  run_monad. simpl. by rewrite Hbad.
Qed.

Lemma write_draft_file_unencodable_witness :
  write_draft_file plain_digest 12%N "c.txt" (Some (Text [104; 55296]%N)) sample_db
  = (Raise UnicodeEncodeError, sample_db).
Proof.
  apply (write_draft_file_unencodable plain_digest 12%N "c.txt" [104; 55296]%N sample_db).
  apply Exists_cons_tl, Exists_cons_hd. left. lia.
Defined.

(** ** A call that raises has written nothing *)

(** X16.  A call that creates, changes or deletes a collection or a bundle
    and raises, whatever the exception, has written nothing: the database
    is the one the call started from. *)
Theorem raising_call_writes_nothing (st : DB) :
  (∀ title fresh e,
     outcome (create_collection title fresh) st = Raise e →
     exec (create_collection title fresh) st = st)
  ∧ (∀ v title e,
     outcome (update_collection v title) st = Raise e →
     exec (update_collection v title) st = st)
  ∧ (∀ v e,
     outcome (delete_collection v) st = Raise e → exec (delete_collection v) st = st)
  ∧ (∀ v slug title description fresh e,
     outcome (create_bundle v slug title description fresh) st = Raise e →
     exec (create_bundle v slug title description fresh) st = st)
  ∧ (∀ v fields e,
     outcome (update_bundle v fields) st = Raise e → exec (update_bundle v fields) st = st)
  ∧ (∀ v e,
     outcome (delete_bundle v) st = Raise e → exec (delete_bundle v) st = st).
Proof.
  unfold outcome, exec. split_and!.
  - intros title fresh e. unfold create_collection, Collection_save_new. run_bind.
    destruct (Collection_row _); [by case_decide|done].
  - intros v title e.
    unfold update_collection, Collection_objects_get, Collection_save. run_bind.
    destruct v; try done. cbn [assert_isinstance_UUID]. run_bind. cbv beta iota.
    rewrite get_or_else_eq.
    destruct (filter _ (collections st)) as [|? [|? ?]]; try done.
    by destruct (Collection_row _).
  - intros v e. unfold delete_collection, Collection_objects_get. run_bind.
    destruct v; try done. cbn [assert_isinstance_UUID]. run_bind. cbv beta iota.
    rewrite get_or_else_eq.
    by destruct (filter _ (collections st)) as [|? [|? ?]].
  - intros v slug title description fresh e.
    unfold create_bundle, Collection_objects_get, Bundle_save_new. run_bind.
    destruct v; try done. cbn [assert_isinstance_UUID]. run_bind. cbv beta iota.
    rewrite get_or_else_eq.
    destruct (filter _ (collections st)) as [|? [|? ?]]; try done.
    destruct (Bundle_row _); [by case_decide|done].
  - intros v fields e. unfold update_bundle, Bundle_objects_get, Bundle_save. run_bind.
    destruct v; try done. cbn [assert_isinstance_UUID]. run_bind. cbv beta iota.
    rewrite get_or_else_eq.
    destruct (filter _ (bundles st)) as [|b [|? ?]]; try done.
    destruct (foldl _ (b, fields) _) as [b' fs'].
    destruct (fs' !! "collection_uuid"); [done|]. cbv beta iota.
    case_decide; [|done]. by destruct (Bundle_row _).
  - intros v e. unfold delete_bundle, Bundle_objects_get. run_bind.
    destruct v; try done. cbn [assert_isinstance_UUID]. run_bind. cbv beta iota.
    rewrite get_or_else_eq.
    by destruct (filter _ (bundles st)) as [|? [|? ?]].
Qed.

(** ** Draft uuids stay unique *)

Section Keeps.

(** An invariant of the draft table that survives deleting rows. *)
Variable Inv : DB → Prop.
Hypothesis Inv_drafts : ∀ st st', drafts st' = drafts st → Inv st → Inv st'.
Hypothesis Inv_filter :
  ∀ (P : models.Draft.t → Prop) `{!∀ x, Decision (P x)} st,
    Inv st → Inv (set_drafts (filter P) st).
Hypothesis Inv_save : ∀ b n fresh, keeps Inv (Draft_save_new b n fresh).

Lemma keeps_ret {A} (a : A) : keeps Inv (mret a).
Proof. by intros st. Qed.

Lemma keeps_raise {A} (e : exn) : keeps Inv (@raise A e).
Proof. by intros st. Qed.

Lemma keeps_gets {A} (f : DB → A) : keeps Inv (gets f).
Proof. by intros st. Qed.

Lemma keeps_bind {A B} (m : M A) (k : A → M B) :
  keeps Inv m → (∀ a, keeps Inv (k a)) → keeps Inv (m ≫= k).
Proof.
  intros Hm Hk st Hst. specialize (Hm st Hst). unfold exec in *. run_bind.
  destruct (m st) as [[a|e] st']; simpl in *; [by apply Hk|done].
Qed.

Lemma keeps_try_except {A} (m h : M A) (e : exn) :
  keeps Inv m → keeps Inv h → keeps Inv (try_except m e h).
Proof.
  intros Hm Hh st Hst. specialize (Hm st Hst). unfold exec, try_except in *.
  destruct (m st) as [[a|e0] st']; simpl in *; [done|].
  case_decide; [by apply Hh|done].
Qed.

Lemma keeps_same_drafts {A} (m : M A) :
  (∀ st, drafts (m st).2 = drafts st) → keeps Inv m.
Proof. intros Hm st Hst. apply (Inv_drafts st); [apply Hm|exact Hst]. Qed.

Lemma keeps_objects_get {Row} (m : Model) (table : DB → list Row)
    (P : Row → Prop) `{!∀ r, Decision (P r)} :
  keeps Inv (objects_get m table P).
Proof.
  apply keeps_same_drafts. intros st.
  by rewrite (proj1 (objects_get_outcome m table P st)).
Qed.

Lemma keeps_assert (v : Value) : keeps Inv (assert_isinstance_UUID v).
Proof. destruct v; by intros st. Qed.

Lemma keeps_for_each {A} (f : A → M unit) (l : list A) :
  (∀ x, keeps Inv (f x)) → keeps Inv (for_each f l).
Proof.
  intros Hf. induction l as [|x l IH]; simpl; [apply keeps_ret|].
  apply keeps_bind; [done|by intros _].
Qed.

Lemma keeps_collect {A B} (f : A → M B) (l : list A) :
  (∀ x, keeps Inv (f x)) → keeps Inv (collect f l).
Proof.
  intros Hf. induction l as [|x l IH]; simpl; [apply keeps_ret|].
  apply keeps_bind; [done|intros y].
  apply keeps_bind; [done|intros ys]. apply keeps_ret.
Qed.

Lemma keeps_Bundle_delete (b : models.Bundle.t) : keeps Inv (Bundle_delete b).
Proof.
  intros st Hst. unfold exec, Bundle_delete, modify. simpl.
  eapply Inv_drafts; [|apply (Inv_filter (λ r, models.Draft.bundle r ≠ models.Bundle.id b));
                     exact Hst].
  reflexivity.
Qed.

Lemma keeps_Collection_delete (c : models.Collection.t) : keeps Inv (Collection_delete c).
Proof.
  intros st Hst. unfold exec, Collection_delete. simpl.
  apply (Inv_drafts
           (foldl (λ s b, (Bundle_delete b s).2) st
              (filter (λ r, models.Bundle.collection r = models.Collection.id c)
                 (bundles st)))); [done|].
  generalize (filter (λ r, models.Bundle.collection r = models.Collection.id c)
                (bundles st)).
  intros owned. revert st Hst. induction owned as [|b owned IH]; intros st Hst; [done|].
  simpl. apply IH. by apply (keeps_Bundle_delete b).
Qed.

Lemma keeps_saves :
  (∀ t f, keeps Inv (Collection_save_new t f))
  ∧ (∀ t d s c f, keeps Inv (Bundle_save_new t d s c f))
  ∧ (∀ c, keeps Inv (Collection_save c))
  ∧ (∀ b, keeps Inv (Bundle_save b)).
Proof.
  split_and!; intros; apply keeps_same_drafts; intros st.
  - unfold Collection_save_new. destruct (Collection_row _); [by case_decide|done].
  - unfold Bundle_save_new. destruct (Bundle_row _); [by case_decide|done].
  - unfold Collection_save. by destruct (Collection_row _).
  - unfold Bundle_save. by destruct (Bundle_row _).
Qed.

Lemma keeps__data_from_bundle (b : models.Bundle.t) : keeps Inv (_data_from_bundle b).
Proof. by apply keeps_same_drafts. Qed.

Lemma keeps__data_from_draft (d : models.Draft.t) : keeps Inv (_data_from_draft d).
Proof.
  apply keeps_same_drafts. intros st.
  by rewrite (proj1 (_data_from_draft_outcome d st)).
Qed.

Lemma keeps_draft_repo_update (f : gmap UUID StagedState.t → gmap UUID StagedState.t) :
  keeps Inv (modify (set_draft_repo f)).
Proof. by apply keeps_same_drafts. Qed.

Lemma keeps_tick : keeps Inv (modify tick).
Proof. by apply keeps_same_drafts. Qed.

Lemma keeps_put (content_digest : bytes → Digest) (raw : bytes) :
  keeps Inv (ContentStore_put content_digest raw).
Proof. by apply keeps_same_drafts. Qed.

End Keeps.

Ltac keep :=
  repeat first
    [ assumption
    | match goal with
      | H : context [keeps] |- keeps _ _ => apply H
      end
    | apply keeps__data_from_bundle
    | apply keeps__data_from_draft
    | apply keeps_Bundle_delete
    | apply keeps_Collection_delete
    | apply keeps_saves
    | apply keeps_draft_repo_update
    | apply keeps_tick
    | apply keeps_put
    | apply keeps_ret
    | apply keeps_raise
    | apply keeps_gets
    | apply keeps_assert
    | apply keeps_objects_get
    | apply keeps_try_except
    | apply keeps_bind; [|intros ?]
    | apply keeps_for_each; intros ?
    | apply keeps_collect; intros ?
    | match goal with
      | |- keeps _ (match ?x with _ => _ end) => destruct x
      | |- keeps _ (let '(_, _) := ?x in _) => destruct x
      end ].

Lemma draft_uuids_unique_same (st st' : DB) :
  drafts st' = drafts st → draft_uuids_unique st → draft_uuids_unique st'.
Proof. unfold draft_uuids_unique. by intros ->. Qed.

Lemma draft_uuids_unique_filter (P : models.Draft.t → Prop) `{!∀ x, Decision (P x)}
    (st : DB) :
  draft_uuids_unique st → draft_uuids_unique (set_drafts (filter P) st).
Proof. unfold draft_uuids_unique. simpl. apply NoDup_fmap_filter. Qed.

Lemma draft_uuids_unique_save (b : models.Bundle.t) (n : string) (fresh : UUID) :
  keeps draft_uuids_unique (Draft_save_new b n fresh).
Proof.
  intros st Hst. unfold exec, Draft_save_new. case_decide as Hex; [done|].
  unfold draft_uuids_unique in *. simpl. rewrite fmap_app. apply NoDup_app.
  split_and!; [done| |apply NoDup_singleton].
  intros k (d & -> & Hin)%list_elem_of_fmap Hk. apply Hex, Exists_exists.
  exists d. split; [done|]. left. by apply list_elem_of_singleton in Hk.
Qed.

Section UuidInvariant.

Variable content_digest : bytes → Digest.
Variable api_url : list string → string.
Variable api_request : string → string → option Body → M Response.
Variable _bundle_from_response : Response → M Bundle.t.
Variable urlencode : list (string * string) → string.
Variable requests_get : string → M bytes.

Hypothesis api_request_keeps :
  ∀ method url body, keeps draft_uuids_unique (api_request method url body).
Hypothesis bundle_from_response_keeps :
  ∀ r, keeps draft_uuids_unique (_bundle_from_response r).
Hypothesis requests_get_keeps : ∀ url, keeps draft_uuids_unique (requests_get url).

(** X17.  No two draft rows carry the same uuid, and every operation keeps
    it so, the parts outside [methods.py] being asked to: rows are only
    deleted, or inserted by [get_or_create_bundle_draft], where a uuid that
    is taken is refused. *)
Theorem draft_uuids_unique_preserved (op : Op) (st : DB) :
  draft_uuids_unique st →
  draft_uuids_unique
    (step content_digest api_url api_request _bundle_from_response urlencode
       requests_get op st).
Proof.
  assert (Hexec : ∀ A (m : M A), keeps draft_uuids_unique m →
            draft_uuids_unique st → draft_uuids_unique (exec m st))
    by (intros A m Hm; apply Hm).
  pose proof draft_uuids_unique_same as Hsame.
  pose proof (@draft_uuids_unique_filter) as Hfilter.
  pose proof draft_uuids_unique_save as Hsave.
  destruct op; simpl; apply Hexec;
    unfold get_collection, create_collection, update_collection, delete_collection,
      get_bundles, create_bundle, update_bundle, delete_bundle,
      get_or_create_bundle_draft, commit_draft, delete_draft, get_bundle_file_data,
      get_bundle_file_metadata, get_bundle_files, get_bundle_files_dict,
      get_bundle_links, get_bundle_version_files, get_bundle_version_links,
      get_bundle_version, subscript_snapshot, get_draft, get_bundle, set_draft_link,
      encode_str_for_draft, write_draft_file, DraftFileUpdateSerializer_validated_data,
      DraftRepo_update, write_file, set_link;
    keep.
Qed.

End UuidInvariant.

(** ** Deleting a collection *)

Lemma Collection_delete_collections (c : models.Collection.t) (st : DB) :
  collections (exec (Collection_delete c) st)
  = filter (λ r, models.Collection.id r ≠ models.Collection.id c) (collections st).
Proof.
  unfold exec, Collection_delete. cbn [snd set_collections collections].
  f_equal.
  generalize (filter (λ r, models.Bundle.collection r = models.Collection.id c)
                (bundles st)).
  intros owned. revert st. induction owned as [|b owned IH]; intros st; [done|].
  cbn [foldl]. by rewrite IH.
Qed.

Lemma filter_filter_within {A} (P Q : A → Prop) `{!∀ x, Decision (P x)}
    `{!∀ x, Decision (Q x)} (l : list A) :
  (∀ x, x ∈ l → P x → Q x) → filter P (filter Q l) = filter P l.
Proof.
  induction l as [|x l IH]; intros HPQ; [done|].
  assert (IH' : filter P (filter Q l) = filter P l)
    by (apply IH; intros y Hy; apply HPQ; by right).
  rewrite (filter_cons Q). destruct (decide (Q x)) as [HQ|HQ].
  - rewrite !filter_cons. by rewrite IH'.
  - rewrite IH'. rewrite filter_cons_False; [done|].
    intros HP. apply HQ, HPQ; [left|done].
Qed.

(** X18.  After [delete_collection] the collection is gone: [get_collection]
    under its uuid raises [CollectionNotFound], and so does a second
    [delete_collection]; every other collection reads as before.  Primary
    keys are taken to be unique. *)
Theorem delete_collection_then_get (u : UUID) (c : models.Collection.t) (st : DB) :
  filter (λ r, models.Collection.uuid r = u) (collections st) = [c] →
  NoDup (models.Collection.id <$> collections st) →
  ∃ st1, delete_collection (VUuid u) st = (Ok tt, st1)
    ∧ get_collection (VUuid u) st1 = (Raise CollectionNotFound, st1)
    ∧ delete_collection (VUuid u) st1 = (Raise CollectionNotFound, st1)
    ∧ (∀ u', u' ≠ u →
         outcome (get_collection (VUuid u')) st1
         = outcome (get_collection (VUuid u')) st).
Proof.
  intros Hrow Hpk.
  destruct (filter_head_elem _ _ _ _ Hrow) as [Hin Hu].
  exists (exec (Collection_delete c) st).
  pose proof (Collection_delete_collections c st) as Hcols.
  assert (Hgone : filter (λ r, models.Collection.uuid r = u)
                    (collections (exec (Collection_delete c) st)) = []).
  { rewrite Hcols. apply filter_empty_iff.
    intros r [Hid Hr]%list_elem_of_filter Hru.
    assert (Hrf : r ∈ filter (λ r, models.Collection.uuid r = u) (collections st))
      by by apply list_elem_of_filter.
    rewrite Hrow in Hrf. apply list_elem_of_singleton in Hrf. by subst. }
  split_and!.
  - unfold delete_collection, Collection_objects_get. run_bind.
    cbn [assert_isinstance_UUID]. run_bind. cbv beta iota.
    by rewrite get_or_else_eq, Hrow.
  - unfold get_collection, Collection_objects_get. run_bind.
    cbn [assert_isinstance_UUID]. run_bind. cbv beta iota.
    by rewrite get_or_else_eq, Hgone.
  - unfold delete_collection, Collection_objects_get. run_bind.
    cbn [assert_isinstance_UUID]. run_bind. cbv beta iota.
    by rewrite get_or_else_eq, Hgone.
  - intros u' Hu'. unfold outcome, get_collection, Collection_objects_get. run_bind.
    cbn [assert_isinstance_UUID]. run_bind. cbv beta iota.
    rewrite !get_or_else_eq, Hcols.
    rewrite filter_filter_within.
    + destruct (filter (λ r, models.Collection.uuid r = u') (collections st))
        as [|? [|? ?]]; reflexivity.
    + intros r Hr Hru Hid.
      assert (r = c) as -> by by apply (NoDup_fmap_elem_inj models.Collection.id
                                          (collections st)).
      congruence.
Qed.

Lemma delete_collection_then_get_witness :
  ∃ st1, delete_collection (VUuid 10%N) sample_db = (Ok tt, st1)
    ∧ get_collection (VUuid 10%N) st1 = (Raise CollectionNotFound, st1).
Proof.
  assert (Hpk : NoDup (models.Collection.id <$> collections sample_db))
    by (simpl; apply NoDup_singleton).
  destruct (delete_collection_then_get 10%N
              {| models.Collection.id := 1; models.Collection.uuid := 10%N;
                 models.Collection.title := VStr "Courses" |}
              sample_db eq_refl Hpk)
    as (st1 & Hd & Hg & _).
  exists st1. split; [exact Hd|exact Hg].
Defined.

(** ** Witnesses on the sample database *)

Lemma raising_call_writes_nothing_witness :
  outcome (update_collection (VUuid 10%N) VNone) sample_db = Raise IntegrityError
  ∧ exec (update_collection (VUuid 10%N) VNone) sample_db = sample_db.
Proof.
  assert (Hraise : outcome (update_collection (VUuid 10%N) VNone) sample_db
                   = Raise IntegrityError) by (vm_compute; reflexivity).
  split; [exact Hraise|].
  destruct (raising_call_writes_nothing sample_db) as (_ & Hu & _).
  exact (Hu (VUuid 10%N) VNone IntegrityError Hraise).
Defined.

Lemma store_backend_keeps :
  (∀ method url body, keeps draft_uuids_unique (store_api_request method url body))
  ∧ (∀ r, keeps draft_uuids_unique (store_bundle_from_response r))
  ∧ (∀ url, keeps draft_uuids_unique (store_requests_get url)).
Proof.
  split_and!; intros; apply (keeps_same_drafts _ draft_uuids_unique_same);
    intros st; [|done|done].
  unfold store_api_request. case_decide; [|done]. destruct (filter _ _); reflexivity.
Defined.

Lemma sample_db_draft_uuids_unique : draft_uuids_unique sample_db.
Proof. unfold draft_uuids_unique. simpl. apply NoDup_singleton. Defined.

Lemma draft_uuids_unique_preserved_witness :
  draft_uuids_unique
    (step plain_digest store_api_url store_api_request store_bundle_from_response
       store_urlencode store_requests_get
       (OpGetOrCreateBundleDraft (VUuid 11%N) "review" 99%N) sample_db).
Proof.
  apply (draft_uuids_unique_preserved plain_digest store_api_url store_api_request
           store_bundle_from_response store_urlencode store_requests_get
           (proj1 store_backend_keeps)
           (proj1 (proj2 store_backend_keeps))
           (proj2 (proj2 store_backend_keeps))
           (OpGetOrCreateBundleDraft (VUuid 11%N) "review" 99%N) sample_db
           sample_db_draft_uuids_unique).
Defined.
